(** * yaffs_unpack.py: a shallow embedding of the YAFFS image unpacker

    The development follows the Python module top to bottom: the pieces of
    the Python runtime the module relies on (bytes, [struct], UTF-8,
    [re.match], binary streams, the file system calls of [os]), the
    [cstruct] declarations, [get_ObjHdr], [detect_endianness], the class
    [YAFFS_unpacker] and [detect_yaffs].  The theorems come after all the
    definitions. *)

From Stdlib Require Import ZArith List Bool Lia.
From Stdlib Require Import Strings.Byte.
From stdpp Require Import base option list gmap.
Import ListNotations.

Local Open Scope Z_scope.

(** ** Python values *)

(** [bytes] objects. *)
Abbreviation bytes := (list byte).

(** [str] objects: sequences of Unicode code points. *)
Abbreviation str := (list Z).

Definition byte_to_Z (b : byte) : Z := Z.of_N (Byte.to_N b).

(** The members of the enumeration [yaffs_obj_type]. *)
Inductive yaffs_obj_type : Type :=
  | YAFFS_OBJECT_TYPE_UNKNOWN
  | YAFFS_OBJECT_TYPE_FILE
  | YAFFS_OBJECT_TYPE_SYMLINK
  | YAFFS_OBJECT_TYPE_DIRECTORY
  | YAFFS_OBJECT_TYPE_HARDLINK
  | YAFFS_OBJECT_TYPE_SPECIAL.

(** The exceptions that can travel through the module.  The first five are
    the classes the module declares itself; the others are raised by the
    runtime ([struct.error], [ValueError] and its subclass
    [UnicodeDecodeError], and the [OSError] subclasses of the [os] calls). *)
Inductive exn : Type :=
  | CorruptedType
  | CorruptedPage
  | WrongPageSize
  | WrongPageData
  | WrongYaffsObjType (yaffs_type : yaffs_obj_type)
  | struct_error
  | ValueError
  | UnicodeDecodeError
  | FileExistsError
  | FileNotFoundError
  | NotADirectoryError
  | IsADirectoryError.

(** [isinstance(e, ValueError)]: [UnicodeDecodeError] derives from
    [ValueError]. *)
Definition isinstance_ValueError (e : exn) : bool :=
  match e with
  | ValueError | UnicodeDecodeError => true
  | _ => false
  end.

Definition isinstance_struct_error (e : exn) : bool :=
  match e with
  | struct_error => true
  | _ => false
  end.

(** A pure computation either returns or raises. *)
Inductive result (A : Type) : Type :=
  | OK (a : A)
  | Err (e : exn).
Arguments OK {A} a.
Arguments Err {A} e.

Definition rbind {A B} (m : result A) (k : A -> result B) : result B :=
  match m with
  | OK a => k a
  | Err e => Err e
  end.

Notation "'let*' x ':=' m 'in' k" := (rbind m (fun x => k))
  (at level 10, x pattern, m at level 100, k at level 200).

(** [all(_ == 0xFF for _ in data)] *)
Definition all_0xFF (data : bytes) : bool :=
  forallb (fun b => Byte.eqb b Byte.xff) data.

(** [data.split(b'\x00')[0]]: the bytes before the first null byte, the
    whole of [data] when it holds none. *)
Fixpoint split_x00_0 (data : bytes) : bytes :=
  match data with
  | [] => []
  | b :: rest => if Byte.eqb b Byte.x00 then [] else b :: split_x00_0 rest
  end.

(** [data[:k]] for a Python [int] k: a negative [k] counts from the end. *)
Definition slice_to {A} (l : list A) (k : Z) : list A :=
  if k <? 0 then take (Z.to_nat (Z.of_nat (length l) + k)) l
  else take (Z.to_nat k) l.

(** [data[k:]] *)
Definition slice_from {A} (l : list A) (k : Z) : list A :=
  if k <? 0 then drop (Z.to_nat (Z.of_nat (length l) + k)) l
  else drop (Z.to_nat k) l.

(** *** [bytes.decode('utf8')]

    The strict decoder of the runtime: shortest forms only, no surrogates,
    nothing above U+10FFFF.  It works on the numeric values of the bytes. *)
Definition is_cont (b : Z) : bool := (0x80 <=? b) && (b <=? 0xBF).

Definition in_range (lo hi b : Z) : bool := (lo <=? b) && (b <=? hi).

Fixpoint utf8_decode_Z (data : list Z) : result str :=
  match data with
  | [] => OK []
  | b0 :: r0 =>
    if b0 <? 0x80 then
      let* s := utf8_decode_Z r0 in OK (b0 :: s)
    else if in_range 0xC2 0xDF b0 then
      match r0 with
      | b1 :: r1 =>
        if is_cont b1 then
          let* s := utf8_decode_Z r1 in
          OK (Z.lor (Z.shiftl (Z.land b0 0x1F) 6) (Z.land b1 0x3F) :: s)
        else Err UnicodeDecodeError
      | _ => Err UnicodeDecodeError
      end
    else if in_range 0xE0 0xEF b0 then
      match r0 with
      | b1 :: b2 :: r2 =>
        if in_range (if b0 =? 0xE0 then 0xA0 else 0x80)
                    (if b0 =? 0xED then 0x9F else 0xBF) b1
           && is_cont b2 then
          let* s := utf8_decode_Z r2 in
          OK (Z.lor (Z.shiftl (Z.land b0 0x0F) 12)
                (Z.lor (Z.shiftl (Z.land b1 0x3F) 6) (Z.land b2 0x3F)) :: s)
        else Err UnicodeDecodeError
      | _ => Err UnicodeDecodeError
      end
    else if in_range 0xF0 0xF4 b0 then
      match r0 with
      | b1 :: b2 :: b3 :: r3 =>
        if in_range (if b0 =? 0xF0 then 0x90 else 0x80)
                    (if b0 =? 0xF4 then 0x8F else 0xBF) b1
           && is_cont b2 && is_cont b3 then
          let* s := utf8_decode_Z r3 in
          OK (Z.lor (Z.shiftl (Z.land b0 0x07) 18)
                (Z.lor (Z.shiftl (Z.land b1 0x3F) 12)
                   (Z.lor (Z.shiftl (Z.land b2 0x3F) 6) (Z.land b3 0x3F))) :: s)
        else Err UnicodeDecodeError
      | _ => Err UnicodeDecodeError
      end
    else Err UnicodeDecodeError
  end.

Definition decode_utf8 (data : bytes) : result str :=
  utf8_decode_Z (map byte_to_Z data).

(** ** [struct] and [cstruct] *)

(** [cstruct.LITTLE_ENDIAN] and [cstruct.BIG_ENDIAN] *)
Inductive byte_order : Type := LITTLE_ENDIAN | BIG_ENDIAN.

(** Unsigned value of a run of bytes, least significant byte first. *)
Fixpoint int_from_le (bs : bytes) : Z :=
  match bs with
  | [] => 0
  | b :: rest => byte_to_Z b + 256 * int_from_le rest
  end.

Definition int_from_bytes (e : byte_order) (bs : bytes) : Z :=
  match e with
  | LITTLE_ENDIAN => int_from_le bs
  | BIG_ENDIAN => int_from_le (rev bs)
  end.

(** Two's complement reading of a 32-bit value ([s32]). *)
Definition to_signed32 (v : Z) : Z :=
  if v <? 2 ^ 31 then v else v - 2 ^ 32.

(** A [cstruct] declaration is unpacked field by field, each field with
    [struct.unpack_from(fmt, buffer, offset)], which raises [struct.error]
    when the buffer ends before the field does.  A field reader takes the
    buffer and the field's offset and returns the value with the offset of
    the next field (no padding: the byte order is explicit). *)
Definition creader (A : Type) : Type := bytes -> nat -> result (A * nat).

Definition cret {A} (a : A) : creader A := fun _ off => OK (a, off).

Definition cbind {A B} (m : creader A) (k : A -> creader B) : creader B :=
  fun buf off =>
    match m buf off with
    | OK (a, off') => k a buf off'
    | Err e => Err e
    end.

Notation "'let!' x ':=' m 'in' k" := (cbind m (fun x => k))
  (at level 10, x pattern, m at level 100, k at level 200).

Definition c_raw (n : nat) : creader bytes :=
  fun buf off =>
    if (off + n <=? length buf)%nat then OK (take n (drop off buf), (off + n)%nat)
    else Err struct_error.

Definition c_u8 : creader Z :=
  let! bs := c_raw 1 in cret (int_from_le bs).

Definition c_u16 (e : byte_order) : creader Z :=
  let! bs := c_raw 2 in cret (int_from_bytes e bs).

Definition c_u32 (e : byte_order) : creader Z :=
  let! bs := c_raw 4 in cret (int_from_bytes e bs).

Definition c_s32 (e : byte_order) : creader Z :=
  let! bs := c_raw 4 in cret (to_signed32 (int_from_bytes e bs)).

(** [u32 f[2]] *)
Definition c_u32_2 (e : byte_order) : creader (Z * Z) :=
  let! a := c_u32 e in let! b := c_u32 e in cret (a, b).

(** [char f[n]] *)
Definition c_char (n : nat) : creader bytes := c_raw n.

(** The enumeration [yaffs_obj_type] ([__size__ = 4]).  An enum field is
    read as an integer and converted with a call of the enumeration class,
    which raises [ValueError] when no member has that value. *)
Definition yaffs_obj_type_value (t : yaffs_obj_type) : Z :=
  match t with
  | YAFFS_OBJECT_TYPE_UNKNOWN => 0
  | YAFFS_OBJECT_TYPE_FILE => 1
  | YAFFS_OBJECT_TYPE_SYMLINK => 2
  | YAFFS_OBJECT_TYPE_DIRECTORY => 3
  | YAFFS_OBJECT_TYPE_HARDLINK => 4
  | YAFFS_OBJECT_TYPE_SPECIAL => 5
  end.

Definition yaffs_obj_type_call (v : Z) : result yaffs_obj_type :=
  match v with
  | 0 => OK YAFFS_OBJECT_TYPE_UNKNOWN
  | 1 => OK YAFFS_OBJECT_TYPE_FILE
  | 2 => OK YAFFS_OBJECT_TYPE_SYMLINK
  | 3 => OK YAFFS_OBJECT_TYPE_DIRECTORY
  | 4 => OK YAFFS_OBJECT_TYPE_HARDLINK
  | 5 => OK YAFFS_OBJECT_TYPE_SPECIAL
  | _ => Err ValueError
  end.

Definition yaffs_obj_type_eqb (a b : yaffs_obj_type) : bool :=
  yaffs_obj_type_value a =? yaffs_obj_type_value b.

Definition c_enum_yaffs_obj_type (e : byte_order) : creader yaffs_obj_type :=
  fun buf off =>
    match c_u32 e buf off with
    | OK (v, off') =>
      match yaffs_obj_type_call v with
      | OK t => OK (t, off')
      | Err x => Err x
      end
    | Err x => Err x
    end.

(** *** [class ObjHdr] *)
Record ObjHdr : Type := mkObjHdr {
  type : yaffs_obj_type;
  parent_obj_id : Z;
  name : str;
  file_mode : Z;
  uid : Z;
  gid : Z;
  atime : Z;
  mtime : Z;
  ctime : Z;
  file_size : Z;
  alias : str
}.

(** [c_null_term_str_to_str] *)
Definition c_null_term_str_to_str (data : bytes) : result str :=
  if all_0xFF data then OK []
  else decode_utf8 (split_x00_0 data).

(** *** [class yaffs_obj_hdr(cstruct.CStruct)] *)
Module yaffs_obj_hdr.

Record t : Type := mk {
  type : yaffs_obj_type;
  parent_obj_id : Z;
  always_0xFFFF : Z;
  name : bytes;
  always_0xFF : Z;
  always_0xFFFF_2 : Z;
  yst_mode : Z;
  yst_uid : Z;
  yst_gid : Z;
  yst_atime : Z;
  yst_mtime : Z;
  yst_ctime : Z;
  file_size_low : Z;
  equiv_id : Z;
  alias : bytes;
  yst_rdev : Z;
  win_ctime : Z * Z;
  win_atime : Z * Z;
  win_mtime : Z * Z;
  inband_shadowed_obj_id : Z;
  inband_is_shrink : Z;
  file_size_high : Z;
  reserved : Z;
  shadows_obj : Z;
  is_shrink : Z
}.

(** The fields of [__def__], in order. *)
Definition reader (e : byte_order) : creader t :=
  let! f_type := c_enum_yaffs_obj_type e in
  let! f_parent_obj_id := c_u32 e in
  let! f_always_0xFFFF := c_u16 e in
  let! f_name := c_char 255 in
  let! f_always_0xFF := c_u8 in
  let! f_always_0xFFFF_2 := c_u16 e in
  let! f_yst_mode := c_u32 e in
  let! f_yst_uid := c_u32 e in
  let! f_yst_gid := c_u32 e in
  let! f_yst_atime := c_u32 e in
  let! f_yst_mtime := c_u32 e in
  let! f_yst_ctime := c_u32 e in
  let! f_file_size_low := c_u32 e in
  let! f_equiv_id := c_s32 e in
  let! f_alias := c_char 160 in
  let! f_yst_rdev := c_u32 e in
  let! f_win_ctime := c_u32_2 e in
  let! f_win_atime := c_u32_2 e in
  let! f_win_mtime := c_u32_2 e in
  let! f_inband_shadowed_obj_id := c_u32 e in
  let! f_inband_is_shrink := c_u32 e in
  let! f_file_size_high := c_u32 e in
  let! f_reserved := c_u32 e in
  let! f_shadows_obj := c_s32 e in
  let! f_is_shrink := c_u32 e in
  cret (mk f_type f_parent_obj_id f_always_0xFFFF f_name f_always_0xFF
          f_always_0xFFFF_2 f_yst_mode f_yst_uid f_yst_gid f_yst_atime
          f_yst_mtime f_yst_ctime f_file_size_low f_equiv_id f_alias
          f_yst_rdev f_win_ctime f_win_atime f_win_mtime
          f_inband_shadowed_obj_id f_inband_is_shrink f_file_size_high
          f_reserved f_shadows_obj f_is_shrink).

(** [yaffs_obj_hdr.size]: the sum of the field sizes. *)
Definition size : Z :=
  4 + 4 + 2 + 255 + 1 + 2 + 4 + 4 + 4 + 4 + 4 + 4 + 4 + 4 + 160 + 4
  + 8 + 8 + 8 + 4 + 4 + 4 + 4 + 4 + 4.

(** [cstruct.CStruct.unpack(self, data)] *)
Definition unpack (e : byte_order) (data : bytes) : result t :=
  match reader e data 0%nat with
  | OK (s, _) => OK s
  | Err x => Err x
  end.

(** [get_ObjHdr]: the struct is unpacked with the byte order the class
    was declared (or re-declared by [set_endianness]) with. *)
Definition get_ObjHdr (e : byte_order) (data : bytes) : result ObjHdr :=
  let* self := unpack e data in
  let oh_type := type self in
  let oh_parent_obj_id := parent_obj_id self in
  let* oh_name := c_null_term_str_to_str (name self) in
  let oh_file_mode := yst_mode self in
  let oh_uid := yst_uid self in
  let oh_gid := yst_gid self in
  let oh_atime := yst_atime self in
  let oh_mtime := yst_mtime self in
  let oh_ctime := yst_ctime self in
  let oh_file_size :=
    if yaffs_obj_type_eqb oh_type YAFFS_OBJECT_TYPE_FILE then
      if negb (file_size_high self =? 0xFFFFFFFF) then
        Z.lor (file_size_low self) (Z.shiftl (file_size_high self) 32)
      else file_size_low self
    else -1 in
  let* oh_alias := c_null_term_str_to_str (alias self) in
  OK (mkObjHdr oh_type oh_parent_obj_id oh_name oh_file_mode oh_uid oh_gid
        oh_atime oh_mtime oh_ctime oh_file_size oh_alias).

End yaffs_obj_hdr.

(** *** [class yaffs_magic_header(cstruct.CStruct)] *)
Module yaffs_magic_header.

Record t : Type := mk {
  type : Z;
  parent_obj_id : Z;
  always_0xFFFF : Z
}.

Definition reader (e : byte_order) : creader t :=
  let! f_type := c_u32 e in
  let! f_parent_obj_id := c_u32 e in
  let! f_always_0xFFFF := c_u16 e in
  cret (mk f_type f_parent_obj_id f_always_0xFFFF).

Definition size : Z := 4 + 4 + 2.

Definition unpack (e : byte_order) (data : bytes) : result t :=
  match reader e data 0%nat with
  | OK (s, _) => OK s
  | Err x => Err x
  end.

End yaffs_magic_header.

(** [x in l] for Python integers. *)
Definition int_in (x : Z) (l : list Z) : bool := existsb (Z.eqb x) l.

(** [detect_endianness] *)
Definition detect_endianness (ymh : yaffs_magic_header.t) : result byte_order :=
  if int_in (yaffs_magic_header.type ymh) [0x1; 0x2; 0x3; 0x4; 0x5] then
    OK LITTLE_ENDIAN
  else if int_in (yaffs_magic_header.type ymh)
            [Z.shiftl 0x1 24; Z.shiftl 0x2 24; Z.shiftl 0x3 24;
             Z.shiftl 0x4 24; Z.shiftl 0x4 24; Z.shiftl 0x5 24] then
    OK BIG_ENDIAN
  else Err CorruptedType.

(** ** Binary streams: the file objects of [open(..., 'rb')] *)
Record BinaryIO : Type := mkIO {
  io_data : bytes;
  io_pos : Z
}.

(** [fin.read(n)]: at most [n] bytes from the cursor on, fewer at the end
    of the file; a negative [n] reads to the end. *)
Definition io_read (n : Z) (f : BinaryIO) : bytes * BinaryIO :=
  let avail := drop (Z.to_nat (io_pos f)) (io_data f) in
  let out := if n <? 0 then avail else take (Z.to_nat n) avail in
  (out, mkIO (io_data f) (io_pos f + Z.of_nat (length out))).

(** [fin.seek(off, io.SEEK_SET)] and [fin.seek(off, io.SEEK_CUR)] *)
Definition io_seek_set (off : Z) (f : BinaryIO) : BinaryIO :=
  mkIO (io_data f) off.

Definition io_seek_cur (off : Z) (f : BinaryIO) : BinaryIO :=
  mkIO (io_data f) (io_pos f + off).

(** ** Paths and the file system

    A [Path] is the list of its components below the root.  The model of
    the file system knows the entries by their path; it does not walk
    through symbolic links or [..] components, and reports an operation
    that would have to as [Unmodelled].  An entry that is there under the
    very path asked for is found without any walk. *)
Abbreviation path := (list str).

Definition os_sep : str := [47].
Definition dot : str := [46].
Definition dotdot : str := [46; 46].

(** [sep.join(l)] *)
Fixpoint str_join (sep : str) (l : list str) : str :=
  match l with
  | [] => []
  | [s] => s
  | s :: rest => s ++ sep ++ str_join sep rest
  end.

(** [s.split('/')] *)
Fixpoint str_split_sep (s : str) : list str :=
  match s with
  | [] => [[]]
  | c :: rest =>
    if c =? 47 then [] :: str_split_sep rest
    else match str_split_sep rest with
         | [] => [[c]]
         | w :: ws => (c :: w) :: ws
         end
  end.

Definition str_eqb (a b : str) : bool := bool_decide (a = b).

(** [str(p)] for an absolute [Path] *)
Definition Path_str (p : path) : str :=
  match p with
  | [] => os_sep
  | _ => concat (map (fun c => os_sep ++ c) p)
  end.

(** [Path(s)] for an absolute [s]: empty and [.] components are dropped.
    [.absolute()] leaves an absolute path as it is. *)
Definition Path_of_str (s : str) : path :=
  List.filter (fun c => negb (str_eqb c []) && negb (str_eqb c dot))
    (str_split_sep s).

Inductive node : Type :=
  | Directory
  | RegularFile (content : bytes)
  | SymbolicLink (target : str).

(** An entry and its access and modification times, [None] while they are
    the ones the system clock gave at creation. *)
Record inode : Type := mkInode {
  i_node : node;
  i_times : option (Z * Z)
}.

(** What running a piece of the program leads to. *)
Inductive outcome (A : Type) : Type :=
  | Returns (a : A)
  | Raises (e : exn)
  | OutOfFuel
  | Unmodelled.
Arguments Returns {A} a.
Arguments Raises {A} e.
Arguments OutOfFuel {A}.
Arguments Unmodelled {A}.

Definition has_dotdot (p : path) : bool := existsb (str_eqb dotdot) p.

(** The directory an entry is created in must exist. *)
Definition check_parent (p : path) (fs : gmap path inode) : outcome unit :=
  match fs !! removelast p with
  | None => Raises FileNotFoundError
  | Some i =>
    match i_node i with
    | Directory => Returns tt
    | RegularFile _ => Raises NotADirectoryError
    | SymbolicLink _ => Unmodelled
    end
  end.

(** [os.mkdir(p)] *)
Definition os_mkdir (p : path) (fs : gmap path inode) : outcome (gmap path inode) :=
  match fs !! p with
  | Some _ => Raises FileExistsError
  | None =>
    if has_dotdot p then Unmodelled
    else match check_parent p fs with
         | Returns _ => Returns (<[p := mkInode Directory None]> fs)
         | Raises e => Raises e
         | OutOfFuel => OutOfFuel
         | Unmodelled => Unmodelled
         end
  end.

(** [Path(p).open('wb')]: creates the file, or empties the one there. *)
Definition open_wb (p : path) (fs : gmap path inode) : outcome (gmap path inode) :=
  if has_dotdot p then Unmodelled
  else match fs !! p with
       | Some i =>
         match i_node i with
         | Directory => Raises IsADirectoryError
         | RegularFile _ => Returns (<[p := mkInode (RegularFile []) (i_times i)]> fs)
         | SymbolicLink _ => Unmodelled
         end
       | None =>
         match check_parent p fs with
         | Returns _ => Returns (<[p := mkInode (RegularFile []) None]> fs)
         | Raises e => Raises e
         | OutOfFuel => OutOfFuel
         | Unmodelled => Unmodelled
         end
       end.

(** [fout.write(data)] on the file opened at [p] *)
Definition file_write (p : path) (data : bytes) (fs : gmap path inode) : gmap path inode :=
  match fs !! p with
  | Some i =>
    match i_node i with
    | RegularFile content => <[p := mkInode (RegularFile (content ++ data)) (i_times i)]> fs
    | _ => fs
    end
  | None => fs
  end.

(** [os.symlink(target, p)]: an empty target is refused. *)
Definition os_symlink (target : str) (p : path) (fs : gmap path inode)
  : outcome (gmap path inode) :=
  if str_eqb target [] then Raises FileNotFoundError
  else match fs !! p with
       | Some _ => Raises FileExistsError
       | None =>
         if has_dotdot p then Unmodelled
         else match check_parent p fs with
              | Returns _ => Returns (<[p := mkInode (SymbolicLink target) None]> fs)
              | Raises e => Raises e
              | OutOfFuel => OutOfFuel
              | Unmodelled => Unmodelled
              end
       end.

(** [os.utime(p, (atime, mtime), follow_symlinks=False)] *)
Definition os_utime (p : path) (times : Z * Z) (fs : gmap path inode)
  : outcome (gmap path inode) :=
  if has_dotdot p then Unmodelled
  else match fs !! p with
       | Some i => Returns (<[p := mkInode (i_node i) (Some times)]> fs)
       | None => Raises FileNotFoundError
       end.

(** The content of the regular file at [p]. *)
Definition file_content (p : path) (fs : gmap path inode) : option bytes :=
  match fs !! p with
  | Some i => match i_node i with RegularFile c => Some c | _ => None end
  | None => None
  end.

Definition is_dir (p : path) (fs : gmap path inode) : bool :=
  match fs !! p with
  | Some i => match i_node i with Directory => true | _ => false end
  | None => false
  end.

(** ** [re.match] for the two patterns of [detect_yaffs]

    The patterns are sequences of [\xNN{n}] and [[\xLO-\xHI]{n}]; [re.match]
    anchors them at the start of the data. *)
Inductive re_atom : Type :=
  | re_byte (b : byte)
  | re_range (lo hi : byte).

Definition re_atom_matches (a : re_atom) (b : byte) : bool :=
  match a with
  | re_byte c => Byte.eqb b c
  | re_range lo hi => (byte_to_Z lo <=? byte_to_Z b) && (byte_to_Z b <=? byte_to_Z hi)
  end.

Fixpoint re_repeat (a : re_atom) (n : nat) (data : bytes) : option bytes :=
  match n with
  | O => Some data
  | S n' =>
    match data with
    | b :: rest => if re_atom_matches a b then re_repeat a n' rest else None
    | [] => None
    end
  end.

Fixpoint re_match (pattern : list (re_atom * nat)) (data : bytes) : bool :=
  match pattern with
  | [] => true
  | (a, n) :: rest =>
    match re_repeat a n data with
    | Some data' => re_match rest data'
    | None => false
    end
  end.

(** [br'[\x01-\x05]\x00{3}\x01\x00{3}\xFF{2}'] *)
Definition yaffs_le : list (re_atom * nat) :=
  [(re_range Byte.x01 Byte.x05, 1%nat); (re_byte Byte.x00, 3%nat);
   (re_byte Byte.x01, 1%nat); (re_byte Byte.x00, 3%nat);
   (re_byte Byte.xff, 2%nat)].

(** [br'\x00{3}[\x01-\x05]\x00{3}\x01\xFF{2}'] *)
Definition yaffs_be : list (re_atom * nat) :=
  [(re_byte Byte.x00, 3%nat); (re_range Byte.x01 Byte.x05, 1%nat);
   (re_byte Byte.x00, 3%nat); (re_byte Byte.x01, 1%nat);
   (re_byte Byte.xff, 2%nat)].

(** [detect_yaffs], on the content of the image file *)
Definition detect_yaffs (imgFile : bytes) : bool :=
  let fin := mkIO imgFile 0 in
  let data := fst (io_read (4 + 4 + 2) fin) in
  if re_match yaffs_le data then true
  else if re_match yaffs_be data then true
  else false.

(** ** [class YAFFS_unpacker] *)
Module YAFFS_unpacker.

(** The attributes of an instance. *)
Record t : Type := mk {
  objdict : gmap Z ObjHdr;
  yaffs_version : Z;
  endianness : byte_order;
  page_size : Z;
  spare_size : Z
}.

(** [__init__]: the official YAFFS1 parameters are the default. *)
Definition __init__ : t :=
  let page_size := 512 in
  mk ∅ 1 LITTLE_ENDIAN page_size (page_size / 32).

(** What a method call can read and change: the instance, the byte order
    the two module-level [cstruct] classes are currently declared with
    (the module declares them little-endian, [set_endianness] rebinds
    them), the open image file and the file system. *)
Record world : Type := mkWorld {
  self : t;
  module_byte_order : byte_order;
  fin : BinaryIO;
  fs : gmap path inode
}.

Definition M (A : Type) : Type := world -> outcome A * world.

Definition ret {A} (a : A) : M A := fun w => (Returns a, w).

Definition raise {A} (e : exn) : M A := fun w => (Raises e, w).

Definition bind {A B} (m : M A) (k : A -> M B) : M B :=
  fun w =>
    match m w with
    | (Returns a, w') => k a w'
    | (Raises e, w') => (Raises e, w')
    | (OutOfFuel, w') => (OutOfFuel, w')
    | (Unmodelled, w') => (Unmodelled, w')
    end.

Notation "'do' x ':=' m 'in' k" := (bind m (fun x => k))
  (at level 10, x pattern, m at level 100, k at level 200).

Definition lift {A} (r : result A) : M A :=
  match r with
  | OK a => ret a
  | Err e => raise e
  end.

Definition get_self : M t := fun w => (Returns (self w), w).

Definition update_self (f : t -> t) : M unit :=
  fun w => (Returns tt, mkWorld (f (self w)) (module_byte_order w) (fin w) (fs w)).

Definition set_objdict (d : gmap Z ObjHdr) : M unit :=
  update_self (fun s => mk d (yaffs_version s) (endianness s) (page_size s) (spare_size s)).

Definition set_yaffs_version (v : Z) : M unit :=
  update_self (fun s => mk (objdict s) v (endianness s) (page_size s) (spare_size s)).

Definition set_self_endianness (e : byte_order) : M unit :=
  update_self (fun s => mk (objdict s) (yaffs_version s) e (page_size s) (spare_size s)).

Definition set_page_size (v : Z) : M unit :=
  update_self (fun s => mk (objdict s) (yaffs_version s) (endianness s) v (spare_size s)).

Definition set_spare_size (v : Z) : M unit :=
  update_self (fun s => mk (objdict s) (yaffs_version s) (endianness s) (page_size s) v).

Definition get_module_byte_order : M byte_order :=
  fun w => (Returns (module_byte_order w), w).

(** [set_endianness]: both classes are declared again with the byte
    order given. *)
Definition set_endianness (e : byte_order) : M unit :=
  fun w => (Returns tt, mkWorld (self w) e (fin w) (fs w)).

Definition fin_open (imgFile : bytes) : M unit :=
  fun w => (Returns tt, mkWorld (self w) (module_byte_order w) (mkIO imgFile 0) (fs w)).

Definition fin_read (n : Z) : M bytes :=
  fun w =>
    let '(data, f) := io_read n (fin w) in
    (Returns data, mkWorld (self w) (module_byte_order w) f (fs w)).

Definition fin_seek_set (off : Z) : M unit :=
  fun w => (Returns tt, mkWorld (self w) (module_byte_order w) (io_seek_set off (fin w)) (fs w)).

Definition fin_seek_cur (off : Z) : M unit :=
  fun w => (Returns tt, mkWorld (self w) (module_byte_order w) (io_seek_cur off (fin w)) (fs w)).

(** A call of [os] that may fail; the file system changes when it
    returns. *)
Definition os_call (f : gmap path inode -> outcome (gmap path inode)) : M unit :=
  fun w =>
    match f (fs w) with
    | Returns fs' => (Returns tt, mkWorld (self w) (module_byte_order w) (fin w) fs')
    | Raises e => (Raises e, w)
    | OutOfFuel => (OutOfFuel, w)
    | Unmodelled => (Unmodelled, w)
    end.

Definition fout_write (p : path) (data : bytes) : M unit :=
  fun w => (Returns tt, mkWorld (self w) (module_byte_order w) (fin w) (file_write p data (fs w))).

(** [_unwind_parent_name] is a generator: [_unwind_next] is one turn of
    its [while] loop, the name it yields and the id it goes on with, or
    [None] when the loop ends. *)
Definition _unwind_next (objdict : gmap Z ObjHdr) (obj_id : Z) : option (str * Z) :=
  match objdict !! obj_id with
  | Some oh => Some (name oh, parent_obj_id oh)
  | None => None
  end.

(** [list(self._unwind_parent_name(obj_id))]: the generator is run to its
    end; [None] when [fuel] turns were not enough to reach it. *)
Fixpoint _unwind_parent_name (fuel : nat) (objdict : gmap Z ObjHdr) (obj_id : Z)
  : option (list str) :=
  match fuel with
  | O => None
  | S fuel' =>
    match _unwind_next objdict obj_id with
    | None => Some []
    | Some (n, parent) =>
      match _unwind_parent_name fuel' objdict parent with
      | Some l => Some (n :: l)
      | None => None
      end
    end
  end.

(** [_test_page_size] *)
Definition _test_page_size (page_size : Z) : M bool :=
  do _ := fin_seek_set 0 in
  do data := fin_read page_size in
  if negb (all_0xFF (slice_from data yaffs_obj_hdr.size)) then ret false
  else ret true.

Definition allowed_page_size : list Z := [16384; 8192; 4096; 2048; 512].

(** The [for page_size in allowed_page_size] loop of [_detect_param],
    left by [break] at the first size that passes. *)
Fixpoint _detect_param_probe (sizes : list Z) : M unit :=
  match sizes with
  | [] => ret tt
  | page_size :: rest =>
    do ok := _test_page_size page_size in
    if ok then set_page_size page_size
    else _detect_param_probe rest
  end.

(** [_detect_param] *)
Definition _detect_param : M unit :=
  do _ := fin_seek_set 0 in
  do magic := fin_read yaffs_magic_header.size in
  do order := get_module_byte_order in
  do ymh := lift (yaffs_magic_header.unpack order magic) in
  do e := lift (detect_endianness ymh) in
  do _ := set_self_endianness e in
  do _ := set_endianness e in
  do _ := fin_seek_set 0 in
  do order := get_module_byte_order in
  do data := fin_read yaffs_obj_hdr.size in
  do obj_hdr := lift (yaffs_obj_hdr.get_ObjHdr order data) in
  if str_eqb (name obj_hdr) [] && str_eqb (alias obj_hdr) [] then
    do _ := set_yaffs_version 1 in
    do _ := set_page_size 512 in
    do s := get_self in
    set_spare_size (page_size s / 32)
  else
    do _ := set_yaffs_version 2 in
    do _ := set_page_size (-1) in
    do _ := _detect_param_probe allowed_page_size in
    do s := get_self in
    if page_size s =? -1 then raise WrongPageSize
    else
      do _ := set_spare_size (page_size s / 32) in
      fin_seek_set 0.

(** The [for i_page in range(num_pages)] loop of [unpack]: [todo] turns
    are left, the next one is turn [i_page]. *)
Fixpoint unpack_pages (todo : nat) (i_page num_pages : Z) (obj_hdr : ObjHdr)
    (obj_path : path) : M unit :=
  match todo with
  | O => ret tt
  | S todo' =>
    do s := get_self in
    do page_data := fin_read (page_size s) in
    do _ := (if i_page <? num_pages - 1 then fout_write obj_path page_data
             else fout_write obj_path
                    (slice_to page_data (file_size obj_hdr mod page_size s))) in
    do _ := fin_seek_cur (spare_size s) in
    unpack_pages todo' (i_page + 1) num_pages obj_hdr obj_path
  end.

(** The [YAFFS_OBJECT_TYPE_FILE] branch of [unpack]. *)
Definition unpack_file (obj_hdr : ObjHdr) (obj_path : path) : M unit :=
  do s := get_self in
  let num_pages := (file_size obj_hdr + page_size s - 1) / page_size s in
  do _ := os_call (open_wb obj_path) in
  unpack_pages (Z.to_nat num_pages) 0 num_pages obj_hdr obj_path.

(** What [unpack] does with a header once it is decoded: registration,
    path, the entry on disk and its times. *)
Definition unpack_object (fuel : nat) (outdir : path) (obj_id : Z) (obj_hdr : ObjHdr)
  : M unit :=
  do s := get_self in
  do _ := fin_read (spare_size s) in
  do _ := set_objdict (<[obj_id := obj_hdr]> (objdict s)) in
  do s := get_self in
  match _unwind_parent_name fuel (objdict s) obj_id with
  | None => fun w => (OutOfFuel, w)
  | Some names =>
    let obj_path := rev names in
    let obj_path := str_join os_sep (Path_str outdir :: obj_path) in
    let obj_path := Path_of_str obj_path in
    do _ :=
      (if yaffs_obj_type_eqb (type obj_hdr) YAFFS_OBJECT_TYPE_DIRECTORY then
         os_call (os_mkdir obj_path)
       else if yaffs_obj_type_eqb (type obj_hdr) YAFFS_OBJECT_TYPE_FILE then
         unpack_file obj_hdr obj_path
       else if yaffs_obj_type_eqb (type obj_hdr) YAFFS_OBJECT_TYPE_SYMLINK then
         os_call (os_symlink (alias obj_hdr) obj_path)
       else raise (WrongYaffsObjType (type obj_hdr))) in
    os_call (os_utime obj_path (atime obj_hdr, mtime obj_hdr))
  end.

(** One turn of [for obj_id in itertools.count(256+1)]: [false] when the
    loop is left by [break]. *)
Definition unpack_turn (fuel : nat) (outdir : path) (obj_id : Z) : M bool :=
  do s := get_self in
  do order := get_module_byte_order in
  do data := fin_read (page_size s) in
  match yaffs_obj_hdr.get_ObjHdr order (slice_to data yaffs_obj_hdr.size) with
  | Err ex =>
    if isinstance_struct_error ex || isinstance_ValueError ex then ret false
    else raise ex
  | OK obj_hdr =>
    do _ := unpack_object fuel outdir obj_id obj_hdr in
    ret true
  end.

Fixpoint unpack_loop (turns fuel : nat) (outdir : path) (obj_id : Z) : M unit :=
  match turns with
  | O => fun w => (OutOfFuel, w)
  | S turns' =>
    do continue := unpack_turn fuel outdir obj_id in
    if continue then unpack_loop turns' fuel outdir (obj_id + 1)
    else ret tt
  end.

(** [unpack]: [imgFile] is the content of the image file, [outdir] the
    absolute path of the output directory.  [fuel] bounds the turns of
    the object loop and of each walk up the parents. *)
Definition unpack (fuel : nat) (imgFile : bytes) (outdir : path) : M unit :=
  do _ := fin_open imgFile in
  do _ := _detect_param in
  do s := get_self in
  do _ := (if yaffs_version s =? 1 then fin_seek_set (page_size s + spare_size s)
           else fin_seek_set 0) in
  unpack_loop fuel fuel outdir (256 + 1).

(** The world a fresh process starts [unpack] in: a new instance, the
    classes as the module declares them, no file open yet. *)
Definition fresh (fs : gmap path inode) : world :=
  mkWorld __init__ LITTLE_ENDIAN (mkIO [] 0) fs.

End YAFFS_unpacker.

(** ** Images to run the program on *)

Definition byte_of_Z (v : Z) : byte :=
  match Byte.of_N (Z.to_N (v mod 256)) with
  | Some b => b
  | None => Byte.x00
  end.

(** The four bytes of a 32-bit value in the given byte order. *)
Definition bytes_of_u32 (e : byte_order) (v : Z) : bytes :=
  let le := [byte_of_Z v; byte_of_Z (v / 2 ^ 8); byte_of_Z (v / 2 ^ 16);
             byte_of_Z (v / 2 ^ 24)] in
  match e with
  | LITTLE_ENDIAN => le
  | BIG_ENDIAN => rev le
  end.

(** [n] bytes: [data], then the fill byte. *)
Definition padded (n : nat) (fill : byte) (data : bytes) : bytes :=
  take n (data ++ repeat fill n).

Definition ascii_bytes (s : str) : bytes := map byte_of_Z s.

(** A header page as the packing tools write it; the fields this program
    does not look at hold the fill byte. *)
Definition header_page (e : byte_order) (ty parent : Z) (name_field : bytes)
    (atime mtime size_low size_high : Z) (alias_field : bytes) : bytes :=
  bytes_of_u32 e ty ++ bytes_of_u32 e parent ++ [Byte.xff; Byte.xff]
  ++ padded 255 Byte.xff name_field ++ [Byte.xff] ++ [Byte.xff; Byte.xff]
  ++ repeat Byte.xff 12
  ++ bytes_of_u32 e atime ++ bytes_of_u32 e mtime ++ repeat Byte.xff 4
  ++ bytes_of_u32 e size_low ++ repeat Byte.xff 4
  ++ padded 160 Byte.xff alias_field
  ++ repeat Byte.xff 36
  ++ bytes_of_u32 e size_high
  ++ repeat Byte.xff 12.

(** A name as it sits in its field: the text and the terminating null. *)
Definition c_string (s : str) : bytes := ascii_bytes s ++ [Byte.x00].

Definition spare16 : bytes := repeat Byte.xff 16.

(** The output directory [/out], empty. *)
Definition out : path := [[111; 117; 116]].

Definition fs_out : gmap path inode :=
  <[out := mkInode Directory None]> (<[[] := mkInode Directory None]> ∅).

(** Two directories registered as each other's parent. *)
Definition objdict_two_cycle : gmap Z ObjHdr :=
  <[258 := mkObjHdr YAFFS_OBJECT_TYPE_DIRECTORY 257 [98] 0 0 0 0 0 0 (-1) []]>
    (<[257 := mkObjHdr YAFFS_OBJECT_TYPE_DIRECTORY 258 [97] 0 0 0 0 0 0 (-1) []]> ∅).

(** A directory registered as its own parent. *)
Definition objdict_self_parent : gmap Z ObjHdr :=
  <[257 := mkObjHdr YAFFS_OBJECT_TYPE_DIRECTORY 257 [97] 0 0 0 0 0 0 (-1) []]> ∅.

(** A version-1 image: the placeholder unit, then a directory [d] and in
    it a file [f] of 512 bytes, each header and each page of content with
    its 16 spare bytes. *)
Definition image_v1 : bytes :=
  header_page LITTLE_ENDIAN 3 1 [] 0 0 0 0xFFFFFFFF [] ++ spare16
  ++ header_page LITTLE_ENDIAN 3 1 (c_string [100]) 5 6 0 0xFFFFFFFF [] ++ spare16
  ++ header_page LITTLE_ENDIAN 1 257 (c_string [102]) 7 8 512 0xFFFFFFFF [] ++ spare16
  ++ repeat Byte.x41 512 ++ spare16.

(** A version-2 image with pages of 2048 bytes and 64 spare bytes: a
    directory [d] and a second directory [e]. *)
Definition image_v2_2048 : bytes :=
  header_page LITTLE_ENDIAN 3 1 (c_string [100]) 5 6 0 0xFFFFFFFF []
  ++ repeat Byte.xff 1536 ++ repeat Byte.xff 64
  ++ header_page LITTLE_ENDIAN 3 1 (c_string [101]) 5 6 0 0xFFFFFFFF []
  ++ repeat Byte.xff 1536 ++ repeat Byte.xff 64.

(** A stream that ends with its first header. *)
Definition image_one_header : bytes :=
  header_page LITTLE_ENDIAN 3 1 (c_string [100]) 5 6 0 0xFFFFFFFF [].

(** A version-1 image whose first object page has type 6, followed by the
    header of a directory [d]. *)
Definition image_type_6 : bytes :=
  header_page LITTLE_ENDIAN 3 1 [] 0 0 0 0xFFFFFFFF [] ++ spare16
  ++ header_page LITTLE_ENDIAN 6 1 (c_string [120]) 5 6 0 0xFFFFFFFF [] ++ spare16
  ++ header_page LITTLE_ENDIAN 3 1 (c_string [100]) 5 6 0 0xFFFFFFFF [] ++ spare16.

(** A version-1 image with two directories [d] under the root. *)
Definition image_two_d : bytes :=
  header_page LITTLE_ENDIAN 3 1 [] 0 0 0 0xFFFFFFFF [] ++ spare16
  ++ header_page LITTLE_ENDIAN 3 1 (c_string [100]) 5 6 0 0xFFFFFFFF [] ++ spare16
  ++ header_page LITTLE_ENDIAN 3 1 (c_string [100]) 7 8 0 0xFFFFFFFF [] ++ spare16.

(** The header of a file [f] of 512 bytes under the root, and a world in
    which its page of content is next in the stream. *)
Definition file_f_512 : ObjHdr :=
  mkObjHdr YAFFS_OBJECT_TYPE_FILE 1 [102] 0 0 0 7 8 0 512 [].

Definition world_before_content : YAFFS_unpacker.world :=
  YAFFS_unpacker.mkWorld YAFFS_unpacker.__init__ LITTLE_ENDIAN
    (mkIO (repeat Byte.x41 512 ++ spare16) 0) fs_out.

(** The second directory [d] of [image_two_d], as its header decodes. *)
Definition directory_d : ObjHdr :=
  mkObjHdr YAFFS_OBJECT_TYPE_DIRECTORY 1 [100] 4294967295 4294967295 4294967295
    7 8 4294967295 (-1) [].

(** A version-1 image whose first object, the one that gets id 257, names
    257 as its parent. *)
Definition image_self_parent : bytes :=
  header_page LITTLE_ENDIAN 3 1 [] 0 0 0 0xFFFFFFFF [] ++ spare16
  ++ header_page LITTLE_ENDIAN 3 257 (c_string [97]) 5 6 0 0xFFFFFFFF [] ++ spare16.

(** ** The properties, in the words of the specification *)

(** The candidate page sizes, in the order they are probed. *)
Definition candidates : list Z := [16384; 8192; 4096; 2048; 512].

(** A candidate passes when every byte of the first candidate-many bytes
    of the stream beyond the length of the header structure is [0xFF]. *)
Definition passes (stream : bytes) (candidate : Z) : Prop :=
  Forall (fun b => b = Byte.xff)
    (drop (Z.to_nat yaffs_obj_hdr.size) (take (Z.to_nat candidate) stream)).

(** [page_size] is the first candidate that passes. *)
Definition first_passing (stream : bytes) (page_size : Z) : Prop :=
  exists before after,
    candidates = before ++ page_size :: after
    /\ passes stream page_size
    /\ Forall (fun c => ~ passes stream c) before.

(** The header at the start of the stream, decoded in the byte order the
    magic preview gives, as [_detect_param] does in a fresh process. *)
Definition first_header (stream : bytes) : result ObjHdr :=
  let* ymh := yaffs_magic_header.unpack LITTLE_ENDIAN
                (take (Z.to_nat yaffs_magic_header.size) stream) in
  let* e := detect_endianness ymh in
  yaffs_obj_hdr.get_ObjHdr e (take (Z.to_nat yaffs_obj_hdr.size) stream).

(** The id reached from [obj_id] after [n] steps to the parent, all of
    them taken from registered ids. *)
Fixpoint parent_chain (objdict : gmap Z ObjHdr) (n : nat) (obj_id : Z) : option Z :=
  match n with
  | O => Some obj_id
  | S n' =>
    match objdict !! obj_id with
    | Some oh => parent_chain objdict n' (parent_obj_id oh)
    | None => None
    end
  end.

(** The chain of parents from [obj_id] forms a cycle: it comes to some id
    a second time. *)
Definition parent_cycle (objdict : gmap Z ObjHdr) (obj_id : Z) : Prop :=
  exists (i j : nat) (x : Z),
    (i < j)%nat
    /\ parent_chain objdict i obj_id = Some x
    /\ parent_chain objdict j obj_id = Some x.

(** The type/flag pattern of a magic preview in byte order [e]: the type
    field decodes to one of 1..5 and the flag field to [0xFFFF]. *)
Definition type_flag_pattern (e : byte_order) (preview : bytes) : Prop :=
  exists ymh,
    yaffs_magic_header.unpack e preview = OK ymh
    /\ 1 <= yaffs_magic_header.type ymh <= 5
    /\ yaffs_magic_header.always_0xFFFF ymh = 0xFFFF.

(** The test [_test_page_size] makes, on the content of the stream. *)
Definition test_of (stream : bytes) (candidate : Z) : bool :=
  all_0xFF (drop (Z.to_nat yaffs_obj_hdr.size) (take (Z.to_nat candidate) stream)).

(** ** The layout of [yaffs_obj_hdr], by offsets *)

(** The integer fields of a buffer, by the offset of their first byte. *)
Definition u8_at (data : bytes) (off : nat) : Z :=
  int_from_le (take 1 (drop off data)).

Definition u16_at (e : byte_order) (data : bytes) (off : nat) : Z :=
  int_from_bytes e (take 2 (drop off data)).

Definition u32_at (e : byte_order) (data : bytes) (off : nat) : Z :=
  int_from_bytes e (take 4 (drop off data)).

Definition s32_at (e : byte_order) (data : bytes) (off : nat) : Z :=
  to_signed32 (u32_at e data off).

(** The struct of type [t] that sits at the start of [data]: each field
    at the sum of the sizes of the fields declared before it. *)
Definition yaffs_obj_hdr_at (e : byte_order) (t : yaffs_obj_type) (data : bytes)
  : yaffs_obj_hdr.t :=
  yaffs_obj_hdr.mk t
    (u32_at e data 4) (u16_at e data 8) (take 255 (drop 10 data))
    (u8_at data 265) (u16_at e data 266)
    (u32_at e data 268) (u32_at e data 272) (u32_at e data 276)
    (u32_at e data 280) (u32_at e data 284) (u32_at e data 288)
    (u32_at e data 292) (s32_at e data 296) (take 160 (drop 300 data))
    (u32_at e data 460)
    (u32_at e data 464, u32_at e data 468)
    (u32_at e data 472, u32_at e data 476)
    (u32_at e data 480, u32_at e data 484)
    (u32_at e data 488) (u32_at e data 492) (u32_at e data 496)
    (u32_at e data 500) (s32_at e data 504) (u32_at e data 508).

(** The header of a file [f] of 100 bytes in the directory with id 257. *)
Definition file_in_d : ObjHdr :=
  mkObjHdr YAFFS_OBJECT_TYPE_FILE 257 [102] 0 0 0 7 8 0 100 [].

(** The registry after the directory [d] (id 257) and the file [f] in it
    (id 258). *)
Definition objdict_d_f : gmap Z ObjHdr :=
  <[258 := file_in_d]> (<[257 := directory_d]> ∅).

(** A version-1 image whose first object is a hard link [h]. *)
Definition image_hardlink : bytes :=
  header_page LITTLE_ENDIAN 3 1 [] 0 0 0 0xFFFFFFFF [] ++ spare16
  ++ header_page LITTLE_ENDIAN 4 1 (c_string [104]) 5 6 0 0xFFFFFFFF [] ++ spare16.

(** The header of that hard link, as it decodes. *)
Definition hardlink_h : ObjHdr :=
  mkObjHdr YAFFS_OBJECT_TYPE_HARDLINK 1 [104] 4294967295 4294967295 4294967295
    5 6 4294967295 (-1) [].

(** ** The payload of a file in the stream *)

(** The page of content number [i] (from 0) of a file whose content
    starts at [pos]: [ps] bytes, after [i] units of [ps + sp] bytes. *)
Definition page_at (data : bytes) (pos ps sp : Z) (i : nat) : bytes :=
  take (Z.to_nat ps) (drop (Z.to_nat (pos + Z.of_nat i * (ps + sp))) data).

(** The pages 0 .. [n - 2] in full, then the first [last] bytes of page
    [n - 1]. *)
Definition payload (data : bytes) (pos ps sp : Z) (n : nat) (last : Z) : bytes :=
  match n with
  | O => []
  | S m =>
    concat (map (page_at data pos ps sp) (seq 0 m))
    ++ take (Z.to_nat last) (page_at data pos ps sp m)
  end.

(** A world in which the stream stops after 50 bytes of content. *)
Definition world_truncated : YAFFS_unpacker.world :=
  YAFFS_unpacker.mkWorld YAFFS_unpacker.__init__ LITTLE_ENDIAN
    (mkIO (repeat Byte.x41 50) 0) fs_out.


(** ** The version-2 branch of [_detect_param] *)

Section VersionTwoBranch.

Import YAFFS_unpacker.

(** What [_detect_param] does once the first header has shown a name or
    an alias: from [self.yaffs_version = 2] to the last [fin.seek]. *)
Definition _detect_param_version_2 : M unit :=
  do _ := set_yaffs_version 2 in
  do _ := set_page_size (-1) in
  do _ := _detect_param_probe allowed_page_size in
  do s := get_self in
  if page_size s =? -1 then raise WrongPageSize
  else
    do _ := set_spare_size (page_size s / 32) in
    fin_seek_set 0.

End VersionTwoBranch.
(** * Theorems *)

(** ** Bytes *)

Lemma byte_eqb_eq (a b : byte) : Byte.eqb a b = true <-> a = b.
Proof.
  split; [apply Byte.byte_dec_bl | apply Byte.byte_dec_lb].
Qed.

Lemma byte_eqb_neq (a b : byte) : Byte.eqb a b = false <-> a <> b.
Proof.
  split.
  - apply Byte.eqb_false.
  - intros Hne. destruct (Byte.eqb a b) eqn:E; [|reflexivity].
    apply byte_eqb_eq in E. contradiction.
Qed.

Lemma byte_to_Z_range (b : byte) : 0 <= byte_to_Z b < 256.
Proof.
  unfold byte_to_Z. pose proof (Byte.to_N_bounded b). lia.
Qed.

Lemma byte_to_Z_inj (a b : byte) : byte_to_Z a = byte_to_Z b -> a = b.
Proof.
  unfold byte_to_Z. intros H. apply N2Z.inj in H.
  pose proof (Byte.of_to_N a) as Ha. pose proof (Byte.of_to_N b) as Hb.
  rewrite H in Ha. congruence.
Qed.

Lemma all_0xFF_Forall (data : bytes) :
  all_0xFF data = true <-> Forall (fun b => b = Byte.xff) data.
Proof.
  unfold all_0xFF. rewrite forallb_forall, Forall_forall.
  split; intros H b Hb.
  - apply byte_eqb_eq, H, list_elem_of_In, Hb.
  - apply byte_eqb_eq, H, list_elem_of_In, Hb.
Qed.

(** ** The sentinel string rule *)

Lemma split_x00_0_app (before after : bytes) :
  Byte.x00 ∉ before -> split_x00_0 (before ++ Byte.x00 :: after) = before.
Proof.
  induction before as [|b before IH]; intros Hnot; simpl.
  - reflexivity.
  - destruct (Byte.eqb b Byte.x00) eqn:E.
    + apply byte_eqb_eq in E. subst b. exfalso. apply Hnot. left.
    + f_equal. apply IH. intros Hin. apply Hnot. right. exact Hin.
Qed.

Lemma split_x00_0_none (data : bytes) :
  Byte.x00 ∉ data -> split_x00_0 data = data.
Proof.
  induction data as [|b data IH]; intros Hnot; simpl.
  - reflexivity.
  - destruct (Byte.eqb b Byte.x00) eqn:E.
    + apply byte_eqb_eq in E. subst b. exfalso. apply Hnot. left.
    + f_equal. apply IH. intros Hin. apply Hnot. right. exact Hin.
Qed.

(** C6: a field of [0xFF] bytes only decodes to the empty string; any
    other field decodes to the UTF-8 text of the bytes before its first
    null byte, whatever comes after that byte (to the text of the whole
    field when it holds no null byte). *)
Theorem c_null_term_str_to_str_sentinel (data : bytes) :
  (Forall (fun b => b = Byte.xff) data -> c_null_term_str_to_str data = OK [])
  /\ (~ Forall (fun b => b = Byte.xff) data ->
      (forall before after,
          data = before ++ Byte.x00 :: after -> Byte.x00 ∉ before ->
          c_null_term_str_to_str data = decode_utf8 before)
      /\ (Byte.x00 ∉ data -> c_null_term_str_to_str data = decode_utf8 data)).
Proof.
  unfold c_null_term_str_to_str. split.
  - intros Hall. apply all_0xFF_Forall in Hall. rewrite Hall. reflexivity.
  - intros Hnot.
    assert (all_0xFF data = false) as ->.
    { destruct (all_0xFF data) eqn:E; [|reflexivity].
      apply all_0xFF_Forall in E. contradiction. }
    split.
    + intros before after -> Hfirst. rewrite split_x00_0_app by assumption.
      reflexivity.
    + intros Hnone. rewrite split_x00_0_none by assumption. reflexivity.
Qed.

(** The rule at work: the text ends at the first null byte, and what
    follows it (here fill bytes and a second text) is not looked at. *)
Lemma c_null_term_str_to_str_sentinel_witness :
  c_null_term_str_to_str (repeat Byte.xff 255) = OK []
  /\ c_null_term_str_to_str
       ([Byte.x61; Byte.x62] ++ Byte.x00 :: [Byte.xff; Byte.x63; Byte.x00])
     = OK [97; 98].
Proof.
  split.
  - apply (proj1 (c_null_term_str_to_str_sentinel (repeat Byte.xff 255))).
    apply all_0xFF_Forall. vm_compute. reflexivity.
  - rewrite (proj1 (proj2 (c_null_term_str_to_str_sentinel
               ([Byte.x61; Byte.x62] ++ Byte.x00 :: [Byte.xff; Byte.x63; Byte.x00]))
               ltac:(intros H; apply all_0xFF_Forall in H; vm_compute in H; discriminate))
               [Byte.x61; Byte.x62] [Byte.xff; Byte.x63; Byte.x00] eq_refl
               ltac:(intros H; apply list_elem_of_In in H; simpl in H;
                     intuition discriminate)).
    vm_compute. reflexivity.
Defined.

(** ** Byte-order detection *)

Lemma detect_endianness_cases (ymh : yaffs_magic_header.t) :
  let ty := yaffs_magic_header.type ymh in
  (detect_endianness ymh = OK LITTLE_ENDIAN <-> 1 <= ty <= 5)
  /\ (detect_endianness ymh = OK BIG_ENDIAN <->
      exists v, 1 <= v <= 5 /\ ty = Z.shiftl v 24)
  /\ (detect_endianness ymh = Err CorruptedType <->
      ~ 1 <= ty <= 5 /\ ~ exists v, 1 <= v <= 5 /\ ty = Z.shiftl v 24).
Proof.
  intros ty. unfold detect_endianness. fold ty.
  assert (Hle : int_in ty [1; 2; 3; 4; 5] = true <-> 1 <= ty <= 5).
  { unfold int_in. simpl. rewrite !orb_true_iff, !Z.eqb_eq. lia. }
  assert (Hbe : int_in ty [Z.shiftl 1 24; Z.shiftl 2 24; Z.shiftl 3 24;
                           Z.shiftl 4 24; Z.shiftl 4 24; Z.shiftl 5 24] = true
                <-> exists v, 1 <= v <= 5 /\ ty = Z.shiftl v 24).
  { unfold int_in. simpl existsb. rewrite !orb_true_iff, !Z.eqb_eq. split.
    - intros H.
      repeat (destruct H as [H|H]; [eexists; split; [|exact H]; lia|]).
      discriminate.
    - intros (v & Hv & ->).
      assert (v = 1 \/ v = 2 \/ v = 3 \/ v = 4 \/ v = 5) as Hc by lia.
      destruct Hc as [->|[->|[->|[->| ->]]]]; tauto. }
  assert (Hdisj : 1 <= ty <= 5 -> ~ exists v, 1 <= v <= 5 /\ ty = Z.shiftl v 24).
  { intros Hty (v & Hv & Heq). rewrite Z.shiftl_mul_pow2 in Heq by lia. lia. }
  destruct (int_in ty [1; 2; 3; 4; 5]) eqn:E1;
    destruct (int_in ty [Z.shiftl 1 24; Z.shiftl 2 24; Z.shiftl 3 24;
                         Z.shiftl 4 24; Z.shiftl 4 24; Z.shiftl 5 24]) eqn:E2.
  - pose proof (proj1 Hle eq_refl) as Hty.
    exfalso. apply (Hdisj Hty). apply Hbe. reflexivity.
  - pose proof (proj1 Hle eq_refl) as Hty. specialize (Hdisj Hty).
    repeat split; try tauto; try discriminate.
  - assert (~ 1 <= ty <= 5) as Hn by (intros H; apply Hle in H; discriminate).
    pose proof (proj1 Hbe eq_refl) as Hex.
    repeat split; try tauto; try discriminate.
  - assert (~ 1 <= ty <= 5) as Hn by (intros H; apply Hle in H; discriminate).
    assert (~ exists v, 1 <= v <= 5 /\ ty = Z.shiftl v 24) as Hn2
        by (intros H; apply Hbe in H; discriminate).
    repeat split; try tauto; try discriminate.
Qed.

Lemma magic_unpack_10 (e : byte_order) (preview : bytes) :
  length preview = 10%nat ->
  yaffs_magic_header.unpack e preview
  = OK (yaffs_magic_header.mk
          (int_from_bytes e (take 4 preview))
          (int_from_bytes e (take 4 (drop 4 preview)))
          (int_from_bytes e (take 2 (drop 8 preview)))).
Proof.
  intros Hlen.
  do 10 (destruct preview as [|? preview]; [discriminate|]).
  destruct preview; [|discriminate]. reflexivity.
Qed.

(** C5: on a 10-byte magic preview, whose type field is read least
    significant byte first, the byte order detected is little-endian
    exactly when the type is one of 1..5, big-endian exactly when it is
    one of 1..5 shifted left by 24 bits, and detection raises
    [CorruptedType] exactly for every other value. *)
Theorem detect_endianness_preview (preview : bytes) :
  length preview = 10%nat ->
  exists ymh,
    yaffs_magic_header.unpack LITTLE_ENDIAN preview = OK ymh
    /\ yaffs_magic_header.type ymh = int_from_le (take 4 preview)
    /\ (detect_endianness ymh = OK LITTLE_ENDIAN <->
        1 <= yaffs_magic_header.type ymh <= 5)
    /\ (detect_endianness ymh = OK BIG_ENDIAN <->
        exists v, 1 <= v <= 5 /\ yaffs_magic_header.type ymh = Z.shiftl v 24)
    /\ (detect_endianness ymh = Err CorruptedType <->
        ~ 1 <= yaffs_magic_header.type ymh <= 5
        /\ ~ exists v, 1 <= v <= 5 /\ yaffs_magic_header.type ymh = Z.shiftl v 24).
Proof.
  intros Hlen. eexists. split; [apply magic_unpack_10, Hlen|].
  split; [reflexivity|]. apply detect_endianness_cases.
Qed.

(** The previews [03 00 00 00 ...] (little-endian), [00 00 00 03 ...]
    (big-endian) and [06 00 00 00 ...] (refused). *)
Lemma detect_endianness_preview_witness :
  (exists ymh,
      yaffs_magic_header.unpack LITTLE_ENDIAN
        (bytes_of_u32 LITTLE_ENDIAN 3 ++ bytes_of_u32 LITTLE_ENDIAN 1 ++ [Byte.xff; Byte.xff])
      = OK ymh /\ detect_endianness ymh = OK LITTLE_ENDIAN)
  /\ (exists ymh,
      yaffs_magic_header.unpack LITTLE_ENDIAN
        (bytes_of_u32 BIG_ENDIAN 3 ++ bytes_of_u32 BIG_ENDIAN 1 ++ [Byte.xff; Byte.xff])
      = OK ymh /\ detect_endianness ymh = OK BIG_ENDIAN)
  /\ (exists ymh,
      yaffs_magic_header.unpack LITTLE_ENDIAN
        (bytes_of_u32 LITTLE_ENDIAN 6 ++ bytes_of_u32 LITTLE_ENDIAN 1 ++ [Byte.xff; Byte.xff])
      = OK ymh /\ detect_endianness ymh = Err CorruptedType).
Proof.
  split; [|split].
  - destruct (detect_endianness_preview
                (bytes_of_u32 LITTLE_ENDIAN 3 ++ bytes_of_u32 LITTLE_ENDIAN 1
                 ++ [Byte.xff; Byte.xff]) eq_refl)
      as (ymh & Hu & Hty & Hle & _).
    exists ymh. split; [exact Hu|]. apply Hle. rewrite Hty. vm_compute.
    split; discriminate.
  - destruct (detect_endianness_preview
                (bytes_of_u32 BIG_ENDIAN 3 ++ bytes_of_u32 BIG_ENDIAN 1
                 ++ [Byte.xff; Byte.xff]) eq_refl)
      as (ymh & Hu & Hty & _ & Hbe & _).
    exists ymh. split; [exact Hu|]. apply Hbe. exists 3. rewrite Hty.
    split; [lia|]. vm_compute. reflexivity.
  - destruct (detect_endianness_preview
                (bytes_of_u32 LITTLE_ENDIAN 6 ++ bytes_of_u32 LITTLE_ENDIAN 1
                 ++ [Byte.xff; Byte.xff]) eq_refl)
      as (ymh & Hu & Hty & _ & _ & Herr).
    exists ymh. split; [exact Hu|]. apply Herr. rewrite Hty.
    replace (int_from_le _) with 6 by (vm_compute; reflexivity).
    split; [lia|]. intros (v & Hv & Heq).
    rewrite Z.shiftl_mul_pow2 in Heq by lia. lia.
Defined.

(** ** File-size assembly *)

(** C2: in a decoded header of type File, [file_size] is the low word
    alone when the high word is [0xFFFFFFFF], and the low word or-ed with
    the high word shifted left by 32 bits otherwise; in a decoded header of
    any other type, [file_size] is -1. *)
Theorem get_ObjHdr_file_size (e : byte_order) (data : bytes)
    (self : yaffs_obj_hdr.t) (oh : ObjHdr) :
  yaffs_obj_hdr.unpack e data = OK self ->
  yaffs_obj_hdr.get_ObjHdr e data = OK oh ->
  (type oh = YAFFS_OBJECT_TYPE_FILE ->
   (yaffs_obj_hdr.file_size_high self = 0xFFFFFFFF ->
    file_size oh = yaffs_obj_hdr.file_size_low self)
   /\ (yaffs_obj_hdr.file_size_high self <> 0xFFFFFFFF ->
       file_size oh = Z.lor (yaffs_obj_hdr.file_size_low self)
                        (Z.shiftl (yaffs_obj_hdr.file_size_high self) 32)))
  /\ (type oh <> YAFFS_OBJECT_TYPE_FILE -> file_size oh = -1).
Proof.
  intros Hself Hoh. unfold yaffs_obj_hdr.get_ObjHdr in Hoh.
  rewrite Hself in Hoh. simpl in Hoh.
  destruct (c_null_term_str_to_str (yaffs_obj_hdr.name self)) as [n|]; [|discriminate].
  simpl in Hoh.
  destruct (c_null_term_str_to_str (yaffs_obj_hdr.alias self)) as [a|]; [|discriminate].
  simpl in Hoh. injection Hoh as <-. simpl. split.
  - intros Hty. rewrite Hty. simpl. split.
    + intros Hhigh. rewrite Hhigh. reflexivity.
    + intros Hhigh. apply Z.eqb_neq in Hhigh. rewrite Hhigh. reflexivity.
  - intros Hty.
    destruct (yaffs_obj_hdr.type self); try reflexivity. contradiction.
Qed.

(** A File header with [file_size_low = 100] and [file_size_high =
    0xFFFFFFFF], one with [file_size_high = 1], and a Directory header. *)
Lemma get_ObjHdr_file_size_witness :
  (exists oh,
      yaffs_obj_hdr.get_ObjHdr LITTLE_ENDIAN
        (header_page LITTLE_ENDIAN 1 1 (c_string [102]) 0 0 100 0xFFFFFFFF [])
      = OK oh /\ file_size oh = 100)
  /\ (exists oh,
      yaffs_obj_hdr.get_ObjHdr LITTLE_ENDIAN
        (header_page LITTLE_ENDIAN 1 1 (c_string [102]) 0 0 100 1 [])
      = OK oh /\ file_size oh = Z.lor 100 (Z.shiftl 1 32))
  /\ (exists oh,
      yaffs_obj_hdr.get_ObjHdr BIG_ENDIAN
        (header_page BIG_ENDIAN 3 1 (c_string [100]) 0 0 100 1 [])
      = OK oh /\ file_size oh = -1).
Proof.
  split; [|split].
  - set (data := header_page LITTLE_ENDIAN 1 1 (c_string [102]) 0 0 100 0xFFFFFFFF []).
    destruct (yaffs_obj_hdr.unpack LITTLE_ENDIAN data) as [self|] eqn:Hself;
      [|vm_compute in Hself; discriminate].
    destruct (yaffs_obj_hdr.get_ObjHdr LITTLE_ENDIAN data) as [oh|] eqn:Hoh;
      [|vm_compute in Hoh; discriminate].
    exists oh. split; [reflexivity|].
    destruct (get_ObjHdr_file_size _ _ _ _ Hself Hoh) as [Hfile _].
    destruct Hfile as [Hlegacy _].
    { vm_compute in Hoh. injection Hoh as <-. reflexivity. }
    rewrite Hlegacy.
    + vm_compute in Hself. injection Hself as <-. reflexivity.
    + vm_compute in Hself. injection Hself as <-. reflexivity.
  - set (data := header_page LITTLE_ENDIAN 1 1 (c_string [102]) 0 0 100 1 []).
    destruct (yaffs_obj_hdr.unpack LITTLE_ENDIAN data) as [self|] eqn:Hself;
      [|vm_compute in Hself; discriminate].
    destruct (yaffs_obj_hdr.get_ObjHdr LITTLE_ENDIAN data) as [oh|] eqn:Hoh;
      [|vm_compute in Hoh; discriminate].
    exists oh. split; [reflexivity|].
    destruct (get_ObjHdr_file_size _ _ _ _ Hself Hoh) as [Hfile _].
    destruct Hfile as [_ Hwide].
    { vm_compute in Hoh. injection Hoh as <-. reflexivity. }
    rewrite Hwide.
    + vm_compute in Hself. injection Hself as <-. reflexivity.
    + vm_compute in Hself. injection Hself as <-. discriminate.
  - set (data := header_page BIG_ENDIAN 3 1 (c_string [100]) 0 0 100 1 []).
    destruct (yaffs_obj_hdr.unpack BIG_ENDIAN data) as [self|] eqn:Hself;
      [|vm_compute in Hself; discriminate].
    destruct (yaffs_obj_hdr.get_ObjHdr BIG_ENDIAN data) as [oh|] eqn:Hoh;
      [|vm_compute in Hoh; discriminate].
    exists oh. split; [reflexivity|].
    apply (get_ObjHdr_file_size _ _ _ _ Hself Hoh).
    vm_compute in Hoh. injection Hoh as <-. discriminate.
Defined.

(** ** The format sniff *)

Lemma byte_eqb_Z (a b : byte) : Byte.eqb a b = (byte_to_Z a =? byte_to_Z b).
Proof.
  destruct (Byte.eqb a b) eqn:E.
  - apply byte_eqb_eq in E. subst. symmetry. apply Z.eqb_refl.
  - symmetry. apply Z.eqb_neq. intros H. apply byte_to_Z_inj in H.
    apply byte_eqb_neq in E. contradiction.
Qed.

Lemma re_match_S a n rest b data :
  re_match ((a, S n) :: rest) (b :: data)
  = re_atom_matches a b && re_match ((a, n) :: rest) data.
Proof. simpl. destruct (re_atom_matches a b); reflexivity. Qed.

Lemma re_match_O a rest data : re_match ((a, O) :: rest) data = re_match rest data.
Proof. reflexivity. Qed.

Lemma re_match_short a n rest : re_match ((a, S n) :: rest) [] = false.
Proof. reflexivity. Qed.

Ltac re_unroll :=
  repeat (rewrite re_match_S || rewrite re_match_O || rewrite re_match_short);
  cbn [re_match re_atom_matches];
  rewrite ?byte_eqb_Z;
  change (byte_to_Z Byte.x00) with 0; change (byte_to_Z Byte.x01) with 1;
  change (byte_to_Z Byte.x05) with 5; change (byte_to_Z Byte.xff) with 255.

Lemma yaffs_le_match (b0 b1 b2 b3 b4 b5 b6 b7 b8 b9 : byte) :
  re_match yaffs_le [b0; b1; b2; b3; b4; b5; b6; b7; b8; b9] = true <->
  1 <= byte_to_Z b0 <= 5 /\ byte_to_Z b1 = 0 /\ byte_to_Z b2 = 0 /\ byte_to_Z b3 = 0
  /\ byte_to_Z b4 = 1 /\ byte_to_Z b5 = 0 /\ byte_to_Z b6 = 0 /\ byte_to_Z b7 = 0
  /\ byte_to_Z b8 = 255 /\ byte_to_Z b9 = 255.
Proof.
  unfold yaffs_le. re_unroll.
  rewrite !andb_true_iff, !Z.eqb_eq, !Z.leb_le. tauto.
Qed.

Lemma yaffs_be_match (b0 b1 b2 b3 b4 b5 b6 b7 b8 b9 : byte) :
  re_match yaffs_be [b0; b1; b2; b3; b4; b5; b6; b7; b8; b9] = true <->
  byte_to_Z b0 = 0 /\ byte_to_Z b1 = 0 /\ byte_to_Z b2 = 0 /\ 1 <= byte_to_Z b3 <= 5
  /\ byte_to_Z b4 = 0 /\ byte_to_Z b5 = 0 /\ byte_to_Z b6 = 0 /\ byte_to_Z b7 = 1
  /\ byte_to_Z b8 = 255 /\ byte_to_Z b9 = 255.
Proof.
  unfold yaffs_be. re_unroll.
  rewrite !andb_true_iff, !Z.eqb_eq, !Z.leb_le. tauto.
Qed.

Lemma re_match_needs_10 (data : bytes) :
  (length data < 10)%nat ->
  re_match yaffs_le data = false /\ re_match yaffs_be data = false.
Proof.
  intros Hlen. unfold yaffs_le, yaffs_be.
  do 10 (destruct data as [|? data];
         [split; re_unroll; rewrite ?andb_false_r; reflexivity|]).
  simpl in Hlen. lia.
Qed.

Lemma magic_unpack_short (e : byte_order) (data : bytes) :
  (length data < 10)%nat -> yaffs_magic_header.unpack e data = Err struct_error.
Proof.
  intros Hlen.
  do 10 (destruct data as [|? data]; [reflexivity|]).
  simpl in Hlen. lia.
Qed.

(** C9, amended: [detect_yaffs] answers true exactly when the first 10
    bytes of the stream, read in one of the two byte orders, give a type
    in 1..5, a parent id equal to 1 and a flag equal to [0xFFFF]. *)
Theorem detect_yaffs_pattern (imgFile : bytes) :
  detect_yaffs imgFile = true <->
  exists e ymh,
    yaffs_magic_header.unpack e (take 10 imgFile) = OK ymh
    /\ 1 <= yaffs_magic_header.type ymh <= 5
    /\ yaffs_magic_header.parent_obj_id ymh = 1
    /\ yaffs_magic_header.always_0xFFFF ymh = 0xFFFF.
Proof.
  unfold detect_yaffs, io_read. cbn [io_pos io_data fst].
  change (Z.to_nat 0) with 0%nat. rewrite drop_0.
  change (4 + 4 + 2 <? 0) with false. cbn iota.
  change (Z.to_nat (4 + 4 + 2)) with 10%nat.
  set (data := take 10 imgFile).
  assert (Hle : (length data <= 10)%nat) by (subst data; rewrite length_take; lia).
  destruct (Nat.eq_dec (length data) 10%nat) as [Hlen|Hlen].
  - do 10 (destruct data as [|? data]; [discriminate|]).
    destruct data; [|discriminate].
    pose proof (yaffs_le_match b b0 b1 b2 b3 b4 b5 b6 b7 b8) as HLE.
    pose proof (yaffs_be_match b b0 b1 b2 b3 b4 b5 b6 b7 b8) as HBE.
    pose proof (byte_to_Z_range b). pose proof (byte_to_Z_range b0).
    pose proof (byte_to_Z_range b1). pose proof (byte_to_Z_range b2).
    pose proof (byte_to_Z_range b3). pose proof (byte_to_Z_range b4).
    pose proof (byte_to_Z_range b5). pose proof (byte_to_Z_range b6).
    pose proof (byte_to_Z_range b7). pose proof (byte_to_Z_range b8).
    split.
    + intros Hd.
      destruct (re_match yaffs_le _) eqn:E1.
      * exists LITTLE_ENDIAN. eexists. split; [reflexivity|].
        destruct HLE as [HLE _]. specialize (HLE eq_refl). cbn. lia.
      * destruct (re_match yaffs_be _) eqn:E2; [|discriminate].
        exists BIG_ENDIAN. eexists. split; [reflexivity|].
        destruct HBE as [HBE _]. specialize (HBE eq_refl). cbn. lia.
    + intros (e & ymh & Hu & Hty & Hp & Hf).
      destruct e; cbn in Hu; injection Hu as <-; cbn in Hty, Hp, Hf.
      * assert (re_match yaffs_le [b; b0; b1; b2; b3; b4; b5; b6; b7; b8] = true) as ->
            by (apply HLE; lia).
        reflexivity.
      * assert (re_match yaffs_be [b; b0; b1; b2; b3; b4; b5; b6; b7; b8] = true) as ->
            by (apply HBE; lia).
        destruct (re_match yaffs_le _); reflexivity.
  - assert (Hlt : (length data < 10)%nat) by lia.
    destruct (re_match_needs_10 data Hlt) as [-> ->].
    split; [discriminate|].
    intros (e & ymh & Hu & _). rewrite magic_unpack_short in Hu by exact Hlt.
    discriminate.
Qed.

(** C9 as stated fails: the preview [01 00 00 00 02 00 00 00 FF FF] has
    the type/flag pattern (type 1, flag [0xFFFF], little-endian), and
    [detect_yaffs] answers false, because the parent id is not 1. *)
Lemma detect_yaffs_parent_counterexample :
  type_flag_pattern LITTLE_ENDIAN
    (take 10 (bytes_of_u32 LITTLE_ENDIAN 1 ++ bytes_of_u32 LITTLE_ENDIAN 2
              ++ [Byte.xff; Byte.xff]))
  /\ detect_yaffs
       (bytes_of_u32 LITTLE_ENDIAN 1 ++ bytes_of_u32 LITTLE_ENDIAN 2
        ++ [Byte.xff; Byte.xff]) = false.
Proof.
  split.
  - eexists. split; [vm_compute; reflexivity|]. cbn. lia.
  - vm_compute. reflexivity.
Qed.

(** ** Path resolution *)

Section PathResolver.

Import YAFFS_unpacker.

Variable objdict : gmap Z ObjHdr.

Lemma parent_chain_add (i k : nat) (obj_id : Z) :
  parent_chain objdict (i + k) obj_id
  = match parent_chain objdict i obj_id with
    | Some x => parent_chain objdict k x
    | None => None
    end.
Proof.
  revert obj_id. induction i as [|i IH]; intros obj_id; simpl.
  - reflexivity.
  - destruct (objdict !! obj_id); [apply IH|reflexivity].
Qed.

Lemma parent_chain_loop (p : nat) (x : Z) :
  parent_chain objdict p x = Some x ->
  forall m : nat, parent_chain objdict (m * p) x = Some x.
Proof.
  intros Hloop m. induction m as [|m IH]; simpl.
  - reflexivity.
  - rewrite parent_chain_add, Hloop. exact IH.
Qed.

Lemma parent_chain_prefix (n k : nat) (obj_id : Z) :
  parent_chain objdict (n + k) obj_id <> None ->
  parent_chain objdict n obj_id <> None.
Proof.
  rewrite parent_chain_add. destruct (parent_chain objdict n obj_id); congruence.
Qed.

(** On a cycle the chain of parents never leaves the registry. *)
Lemma parent_cycle_never_ends (obj_id : Z) :
  parent_cycle objdict obj_id ->
  forall n : nat, parent_chain objdict n obj_id <> None.
Proof.
  intros (i & j & x & Hij & Hi & Hj) n.
  assert (Hloop : parent_chain objdict (j - i) x = Some x).
  { replace j with (i + (j - i))%nat in Hj by lia.
    rewrite parent_chain_add, Hi in Hj. exact Hj. }
  apply (parent_chain_prefix n (i + n * (j - i) - n)).
  replace (n + (i + n * (j - i) - n))%nat with (i + n * (j - i))%nat by nia.
  rewrite parent_chain_add, Hi, (parent_chain_loop _ _ Hloop). discriminate.
Qed.

Lemma unwind_ends_chain (fuel : nat) (obj_id : Z) (names : list str) :
  _unwind_parent_name fuel objdict obj_id = Some names ->
  parent_chain objdict (S (length names)) obj_id = None.
Proof.
  revert obj_id names. induction fuel as [|fuel IH]; intros obj_id names; simpl.
  - discriminate.
  - unfold _unwind_next. destruct (objdict !! obj_id) as [oh|]; simpl.
    + destruct (_unwind_parent_name fuel objdict (parent_obj_id oh)) as [l|] eqn:E;
        [|discriminate].
      intros [= <-]. apply IH in E. exact E.
    + intros [= <-]. reflexivity.
Qed.

(** The walk ends when the chain of parents reaches an id that is not
    registered, with one name for each step taken. *)
Lemma unwind_reaches_unregistered (n : nat) (obj_id x : Z) :
  parent_chain objdict n obj_id = Some x ->
  objdict !! x = None ->
  forall fuel : nat, (n < fuel)%nat ->
    exists names, _unwind_parent_name fuel objdict obj_id = Some names
                  /\ length names = n.
Proof.
  revert obj_id. induction n as [|n IH]; intros obj_id Hchain Hx fuel Hfuel.
  - injection Hchain as ->. destruct fuel as [|fuel]; [lia|].
    exists []. simpl. unfold _unwind_next. rewrite Hx. split; reflexivity.
  - destruct fuel as [|fuel]; [lia|]. simpl in Hchain |- *.
    unfold _unwind_next. destruct (objdict !! obj_id) as [oh|]; [|discriminate].
    destruct (IH _ Hchain Hx fuel ltac:(lia)) as (names & -> & Hlen).
    exists (name oh :: names). split; [reflexivity|]. simpl. lia.
Qed.

End PathResolver.

Section RunOnCycle.

Import YAFFS_unpacker.

(** A turn of the object loop on a page that decodes goes on with
    [unpack_object]. *)
Lemma unpack_turn_decoded (fuel : nat) (outdir : path) (obj_id : Z) (w : world)
    (oh : ObjHdr) :
  yaffs_obj_hdr.get_ObjHdr (module_byte_order w)
    (slice_to (fst (io_read (page_size (self w)) (fin w))) yaffs_obj_hdr.size) = OK oh ->
  unpack_turn fuel outdir obj_id w
  = bind (unpack_object fuel outdir obj_id oh) (fun _ => ret true)
      (mkWorld (self w) (module_byte_order w)
         (snd (io_read (page_size (self w)) (fin w))) (fs w)).
Proof.
  intros Hoh. unfold unpack_turn.
  unfold bind at 1. unfold get_self at 1.
  unfold bind at 1. unfold get_module_byte_order at 1.
  unfold bind at 1. unfold fin_read at 1.
  destruct (io_read (page_size (self w)) (fin w)) as [data f].
  cbn [fst snd] in *. rewrite Hoh. reflexivity.
Qed.

(** When the walk up the parents of the new object has no end within the
    fuel, neither has [unpack_object]. *)
Lemma unpack_object_no_end (fuel : nat) (outdir : path) (obj_id : Z) (oh : ObjHdr)
    (w : world) :
  _unwind_parent_name fuel (<[obj_id := oh]> (objdict (self w))) obj_id = None ->
  fst (unpack_object fuel outdir obj_id oh w) = OutOfFuel.
Proof.
  intros Hnone. unfold unpack_object.
  unfold bind at 1. unfold get_self at 1.
  unfold bind at 1. unfold fin_read at 1.
  destruct (io_read (spare_size (self w)) (fin w)) as [spare f].
  unfold bind at 1. unfold set_objdict at 1, update_self.
  cbn [self module_byte_order fin fs objdict].
  unfold bind at 1. unfold get_self at 1.
  cbn [self module_byte_order fin fs objdict].
  rewrite Hnone. reflexivity.
Qed.

(** The run on the image whose first object is its own parent: whatever
    the fuel, it is used up before the run comes to an end. *)
Lemma unpack_self_parent_no_end (fuel : nat) :
  fst (unpack fuel image_self_parent out (fresh fs_out)) = OutOfFuel.
Proof.
  unfold unpack. unfold bind at 1. unfold fin_open at 1, fresh.
  cbn [self module_byte_order fin fs].
  unfold bind at 1.
  assert (Hdetect :
            _detect_param (mkWorld __init__ LITTLE_ENDIAN (mkIO image_self_parent 0) fs_out)
            = (Returns tt,
               mkWorld (mk ∅ 1 LITTLE_ENDIAN 512 16) LITTLE_ENDIAN
                 (mkIO image_self_parent 512) fs_out))
    by (vm_compute; reflexivity).
  rewrite Hdetect.
  unfold bind at 1. unfold get_self at 1.
  cbn [self module_byte_order fin fs yaffs_version page_size spare_size].
  change (1 =? 1) with true. cbn iota.
  unfold bind at 1. unfold fin_seek_set at 1, io_seek_set.
  cbn [self module_byte_order fin fs io_data io_pos].
  change (512 + 16) with 528. change (256 + 1) with 257.
  destruct fuel as [|fuel]; [reflexivity|].
  cbn [unpack_loop]. unfold bind at 1.
  rewrite (unpack_turn_decoded _ _ _ _
             (mkObjHdr YAFFS_OBJECT_TYPE_DIRECTORY 257 [97] 4294967295 4294967295
                4294967295 5 6 4294967295 (-1) []))
    by (vm_compute; reflexivity).
  unfold bind at 1.
  match goal with
  | |- context [unpack_object ?f ?o ?i ?h ?w] =>
    pose proof (unpack_object_no_end f o i h w) as Hobj;
      destruct (unpack_object f o i h w) as [r w']
  end.
  cbn [fst] in Hobj. rewrite Hobj; [reflexivity|].
  cbn [self objdict].
  generalize (S fuel). intros n.
  induction n as [|n IH]; [reflexivity|].
  cbn [_unwind_parent_name].
  assert (Hnext : _unwind_next
                    (<[257 := mkObjHdr YAFFS_OBJECT_TYPE_DIRECTORY 257 [97] 4294967295
                                 4294967295 4294967295 5 6 4294967295 (-1) []]> ∅) 257
                  = Some ([97], 257)) by reflexivity.
  rewrite Hnext, IH. reflexivity.
Qed.

End RunOnCycle.

(** C4, amended: when the chain of parents from an id forms a cycle, path
    resolution does not terminate: however many turns the walk is given,
    it is still running, and no [CorruptedTree] error is raised. *)
Theorem unwind_parent_name_cycle (objdict : gmap Z ObjHdr) (obj_id : Z) :
  parent_cycle objdict obj_id ->
  forall fuel : nat, YAFFS_unpacker._unwind_parent_name fuel objdict obj_id = None.
Proof.
  intros Hcycle fuel.
  destruct (YAFFS_unpacker._unwind_parent_name fuel objdict obj_id) as [names|] eqn:E;
    [|reflexivity].
  apply unwind_ends_chain in E.
  exfalso. exact (parent_cycle_never_ends objdict obj_id Hcycle _ E).
Qed.

Lemma unwind_parent_name_cycle_witness :
  is_Some (objdict_two_cycle !! 258)
  /\ YAFFS_unpacker._unwind_parent_name 1000 objdict_two_cycle 258 = None.
Proof.
  split.
  - eexists. reflexivity.
  - apply unwind_parent_name_cycle.
    exists 0%nat, 2%nat, 258. split; [lia|]. split; reflexivity.
Defined.

(** C4 as stated fails: id 257 is registered, its chain of parents is a
    cycle, and for no amount of fuel does the walk come to an end, be it
    with a list of names or otherwise; nor does the run on an image that
    registers such an object. *)
Lemma unwind_parent_name_counterexample :
  is_Some (objdict_self_parent !! 257)
  /\ parent_cycle objdict_self_parent 257
  /\ (forall fuel,
        fst (YAFFS_unpacker.unpack fuel image_self_parent out
               (YAFFS_unpacker.fresh fs_out)) = OutOfFuel)
  /\ ~ exists fuel names,
        YAFFS_unpacker._unwind_parent_name fuel objdict_self_parent 257 = Some names.
Proof.
  assert (Hcycle : parent_cycle objdict_self_parent 257).
  { exists 0%nat, 1%nat, 257. split; [lia|]. split; reflexivity. }
  split; [eexists; reflexivity|]. split; [exact Hcycle|].
  split; [exact unpack_self_parent_no_end|].
  intros (fuel & names & H). revert names H.
  induction fuel as [|fuel IH]; intros names H;
    cbn [YAFFS_unpacker._unwind_parent_name] in H.
  - discriminate.
  - change (YAFFS_unpacker._unwind_next objdict_self_parent 257)
      with (Some ([97], 257)) in H.
    cbn iota beta in H.
    destruct (YAFFS_unpacker._unwind_parent_name fuel objdict_self_parent 257)
      as [l|] eqn:E; [|discriminate].
    exact (IH l eq_refl).
Qed.


(** ** Geometry detection *)

Section GeometryDetector.

Import YAFFS_unpacker.

(** The test of [_test_page_size], on the content of the stream. *)
Lemma test_page_size_run (page_size : Z) (w : world) :
  0 <= page_size ->
  exists f,
    io_data f = io_data (fin w)
    /\ _test_page_size page_size w
       = (Returns (all_0xFF (drop (Z.to_nat yaffs_obj_hdr.size)
                               (take (Z.to_nat page_size) (io_data (fin w))))),
          mkWorld (self w) (module_byte_order w) f (fs w)).
Proof.
  intros Hps. unfold _test_page_size, bind, fin_seek_set, fin_read, io_read,
    io_seek_set, slice_from, ret.
  cbn [fin io_pos io_data self module_byte_order fs].
  assert ((page_size <? 0) = false) as -> by lia.
  change (Z.to_nat 0) with 0%nat. rewrite drop_0.
  change (yaffs_obj_hdr.size <? 0) with false. cbn iota.
  eexists. split; [|destruct (all_0xFF _); reflexivity]. reflexivity.
Qed.

(** What the test computes is the property [passes]. *)
Lemma test_passes (stream : bytes) (candidate : Z) :
  all_0xFF (drop (Z.to_nat yaffs_obj_hdr.size) (take (Z.to_nat candidate) stream)) = true
  <-> passes stream candidate.
Proof.
  apply all_0xFF_Forall.
Qed.

(** The probing loop stops at the first size that passes the test. *)
Lemma probe_run (sizes : list Z) (w : world) :
  Forall (fun c => 0 <= c) sizes ->
  exists f,
    io_data f = io_data (fin w)
    /\ _detect_param_probe sizes w
       = (Returns tt,
          mkWorld
            (match find (test_of (io_data (fin w))) sizes with
             | Some c => mk (objdict (self w)) (yaffs_version (self w))
                           (endianness (self w)) c (spare_size (self w))
             | None => self w
             end)
            (module_byte_order w) f (fs w)).
Proof.
  revert w. induction sizes as [|c sizes IH]; intros w Hpos.
  - exists (fin w). split; [reflexivity|]. destruct w. reflexivity.
  - inversion Hpos as [|? ? Hc Hrest]; subst.
    destruct (test_page_size_run c w Hc) as (f & Hf & Hrun).
    cbn [_detect_param_probe find]. unfold bind at 1. rewrite Hrun.
    fold (test_of (io_data (fin w)) c).
    destruct (test_of (io_data (fin w)) c).
    + exists f. split; [exact Hf|]. reflexivity.
    + destruct (IH (mkWorld (self w) (module_byte_order w) f (fs w)) Hrest)
        as (f' & Hf' & Hrun').
      cbn [fin self module_byte_order fs] in Hf', Hrun'.
      rewrite Hf in Hf', Hrun'. exists f'. split; [exact Hf'|]. exact Hrun'.
Qed.

Lemma find_first_passing (stream : bytes) (page_size : Z) :
  first_passing stream page_size ->
  find (test_of stream) candidates = Some page_size.
Proof.
  intros (before & after & -> & Hpass & Hbefore).
  induction before as [|c before IH]; simpl.
  - apply test_passes in Hpass. unfold test_of. rewrite Hpass. reflexivity.
  - inversion Hbefore as [|? ? Hc Hrest]; subst.
    destruct (test_of stream c) eqn:E.
    + exfalso. apply Hc. apply test_passes. exact E.
    + apply IH. exact Hrest.
Qed.

(** The last candidate is the length of the header structure: it passes
    on every stream, so that the probing loop always finds a size. *)
Lemma candidate_512_passes (stream : bytes) : passes stream 512.
Proof.
  apply test_passes. unfold test_of.
  rewrite drop_ge; [reflexivity|].
  change (Z.to_nat yaffs_obj_hdr.size) with 512%nat.
  rewrite length_take. lia.
Qed.

Lemma find_none_passing (stream : bytes) :
  Forall (fun c => ~ passes stream c) candidates ->
  find (test_of stream) candidates = None.
Proof.
  generalize candidates. intros l Hall.
  induction l as [|c l IH]; simpl; [reflexivity|].
  inversion Hall as [|? ? Hc Hrest]; subst.
  destruct (test_of stream c) eqn:E.
  - exfalso. apply Hc. apply test_passes. exact E.
  - apply IH. exact Hrest.
Qed.

(** [_detect_param] in a process where the classes are still declared
    little-endian, on a stream whose first header decodes. *)
Lemma detect_param_run (w : world) (oh : ObjHdr) :
  module_byte_order w = LITTLE_ENDIAN ->
  first_header (io_data (fin w)) = OK oh ->
  exists e f,
    io_data f = io_data (fin w)
    /\ _detect_param w
       = if str_eqb (name oh) [] && str_eqb (alias oh) [] then
           (Returns tt,
            mkWorld (mk (objdict (self w)) 1 e 512 16) e f (fs w))
         else
           match find (test_of (io_data (fin w))) allowed_page_size with
           | Some c =>
             (Returns tt,
              mkWorld (mk (objdict (self w)) 2 e c (c / 32)) e f (fs w))
           | None =>
             (Raises WrongPageSize,
              mkWorld (mk (objdict (self w)) 2 e (-1) (spare_size (self w))) e f (fs w))
           end.
Proof.
  intros Horder Hfirst. unfold first_header in Hfirst.
  destruct (yaffs_magic_header.unpack LITTLE_ENDIAN _) as [ymh|] eqn:Hymh;
    [|discriminate].
  cbn [rbind] in Hfirst.
  destruct (detect_endianness ymh) as [e|] eqn:He; [|discriminate].
  cbn [rbind] in Hfirst.
  exists e.
  unfold _detect_param.
  unfold bind at 1. unfold fin_seek_set at 1.
  unfold bind at 1. unfold fin_read at 1, io_read.
  cbn [fin io_seek_set io_pos io_data self module_byte_order fs].
  change (yaffs_magic_header.size <? 0) with false. cbn iota.
  change (Z.to_nat 0) with 0%nat. rewrite drop_0.
  unfold bind at 1. unfold get_module_byte_order at 1.
  cbn [fin io_pos io_data self module_byte_order fs].
  rewrite Horder, Hymh.
  unfold bind at 1. cbn [lift]. unfold ret at 1.
  unfold bind at 1. rewrite He. cbn [lift]. unfold ret at 1.
  unfold bind at 1. unfold set_self_endianness at 1, update_self.
  cbn [fin io_pos io_data self module_byte_order fs].
  unfold bind at 1. unfold set_endianness at 1.
  cbn [fin io_pos io_data self module_byte_order fs].
  unfold bind at 1. unfold fin_seek_set at 1.
  cbn [fin io_seek_set io_pos io_data self module_byte_order fs].
  unfold bind at 1. unfold get_module_byte_order at 1.
  cbn [fin io_pos io_data self module_byte_order fs].
  unfold bind at 1. unfold fin_read at 1, io_read.
  cbn [fin io_seek_set io_pos io_data self module_byte_order fs].
  change (yaffs_obj_hdr.size <? 0) with false. cbn iota.
  change (Z.to_nat 0) with 0%nat. rewrite drop_0.
  unfold bind at 1. rewrite Hfirst. cbn [lift]. unfold ret at 1.
  destruct (str_eqb (name oh) [] && str_eqb (alias oh) []).
  - eexists. split; [|reflexivity]. reflexivity.
  - unfold bind at 1. unfold set_yaffs_version at 1, update_self.
    cbn [fin io_pos io_data self module_byte_order fs yaffs_version objdict
         endianness page_size spare_size].
    unfold bind at 1. unfold set_page_size at 1, update_self.
    cbn [fin io_pos io_data self module_byte_order fs yaffs_version objdict
         endianness page_size spare_size].
    match goal with
    | |- context [bind (_detect_param_probe allowed_page_size) _ ?w0] =>
      destruct (probe_run allowed_page_size w0) as (f & Hf & Hrun)
    end.
    { unfold allowed_page_size. repeat constructor; lia. }
    cbn [fin io_pos io_data self module_byte_order fs yaffs_version objdict
         endianness page_size spare_size] in Hf, Hrun.
    unfold bind at 1. rewrite Hrun.
    assert (Hsizes : Forall (fun c => c <> -1) allowed_page_size).
    { unfold allowed_page_size. repeat constructor; lia. }
    destruct (find _ allowed_page_size) as [c|] eqn:Efind.
    + assert (c <> -1) as Hc.
      { apply find_some in Efind. destruct Efind as [Hin _].
        rewrite Forall_forall in Hsizes. apply Hsizes, list_elem_of_In, Hin. }
      unfold bind at 1. unfold get_self at 1.
      cbn [fin io_pos io_data self module_byte_order fs yaffs_version objdict
           endianness page_size spare_size].
      apply Z.eqb_neq in Hc. rewrite Hc.
      eexists. split; [|reflexivity]. exact Hf.
    + unfold bind at 1. unfold get_self at 1.
      cbn [fin io_pos io_data self module_byte_order fs yaffs_version objdict
           endianness page_size spare_size].
      change (-1 =? -1) with true. cbn iota. unfold raise.
      eexists. split; [|reflexivity]. exact Hf.
Qed.

Lemma test_of_short (stream : bytes) (candidate : Z) :
  Z.of_nat (length stream) < yaffs_obj_hdr.size + 1 ->
  test_of stream candidate = true.
Proof.
  intros Hshort. unfold test_of.
  rewrite drop_ge; [reflexivity|].
  change (Z.to_nat yaffs_obj_hdr.size) with 512%nat.
  change yaffs_obj_hdr.size with 512 in Hshort.
  rewrite length_take. lia.
Qed.

Lemma find_head {A} (f : A -> bool) (x : A) (l : list A) :
  f x = true -> find f (x :: l) = Some x.
Proof.
  intros Hx. simpl. rewrite Hx. reflexivity.
Qed.

Lemma find_short (stream : bytes) :
  Z.of_nat (length stream) < yaffs_obj_hdr.size + 1 ->
  find (test_of stream) allowed_page_size = Some 16384.
Proof.
  intros Hshort. apply find_head, test_of_short, Hshort.
Qed.

(** On a stream no longer than the header structure every size passes
    the test: there is no byte to look at. *)
Lemma test_page_size_short (page_size : Z) (w : world) :
  Z.of_nat (length (io_data (fin w))) < yaffs_obj_hdr.size + 1 ->
  fst (_test_page_size page_size w) = Returns true.
Proof.
  intros Hshort. unfold _test_page_size, bind, fin_seek_set, fin_read, io_read,
    io_seek_set, slice_from, ret.
  cbn [fin io_pos io_data self module_byte_order fs].
  change (Z.to_nat 0) with 0%nat. rewrite drop_0.
  change (yaffs_obj_hdr.size <? 0) with false. cbn iota.
  match goal with
  | |- context [all_0xFF ?l] => assert (l = []) as ->
  end.
  { apply drop_ge. change (Z.to_nat yaffs_obj_hdr.size) with 512%nat.
    change yaffs_obj_hdr.size with 512 in Hshort.
    destruct (page_size <? 0); [lia|]. rewrite length_take. lia. }
  reflexivity.
Qed.

End GeometryDetector.

(** C3: in a fresh process, on a stream whose first header decodes: when
    the header's name and alias are both empty, version 1 is assumed with
    page size 512 and spare size 16; when one of them is not empty, version
    2 is assumed, the page size is the first of 16384, 8192, 4096, 2048,
    512 that passes the fill-byte test, the spare size is that page size
    divided by 32, and detection raises [WrongPageSize] when no candidate
    passes. *)
Theorem detect_param_geometry (w : YAFFS_unpacker.world) (oh : ObjHdr) :
  YAFFS_unpacker.module_byte_order w = LITTLE_ENDIAN ->
  first_header (io_data (YAFFS_unpacker.fin w)) = OK oh ->
  (name oh = [] /\ alias oh = [] ->
   exists w',
     YAFFS_unpacker._detect_param w = (Returns tt, w')
     /\ YAFFS_unpacker.yaffs_version (YAFFS_unpacker.self w') = 1
     /\ YAFFS_unpacker.page_size (YAFFS_unpacker.self w') = 512
     /\ YAFFS_unpacker.spare_size (YAFFS_unpacker.self w') = 16)
  /\ (name oh <> [] \/ alias oh <> [] ->
      (forall page_size,
          first_passing (io_data (YAFFS_unpacker.fin w)) page_size ->
          exists w',
            YAFFS_unpacker._detect_param w = (Returns tt, w')
            /\ YAFFS_unpacker.yaffs_version (YAFFS_unpacker.self w') = 2
            /\ YAFFS_unpacker.page_size (YAFFS_unpacker.self w') = page_size
            /\ YAFFS_unpacker.spare_size (YAFFS_unpacker.self w') = page_size / 32)
      /\ (Forall (fun c => ~ passes (io_data (YAFFS_unpacker.fin w)) c) candidates ->
          exists w',
            YAFFS_unpacker._detect_param w = (Raises WrongPageSize, w'))).
Proof.
  intros Horder Hfirst.
  destruct (detect_param_run w oh Horder Hfirst) as (e & f & _ & Hrun).
  split.
  - intros [Hname Halias]. rewrite Hname, Halias in Hrun.
    eexists. split; [exact Hrun|]. repeat split.
  - intros Hsome.
    assert (str_eqb (name oh) [] && str_eqb (alias oh) [] = false) as Hb.
    { unfold str_eqb. apply andb_false_iff.
      destruct Hsome as [H|H]; [left|right]; apply bool_decide_eq_false; exact H. }
    rewrite Hb in Hrun. split.
    + intros page_size Hps. apply find_first_passing in Hps.
      change candidates with YAFFS_unpacker.allowed_page_size in Hps.
      rewrite Hps in Hrun. eexists. split; [exact Hrun|]. repeat split.
    + intros Hnone. apply find_none_passing in Hnone.
      change candidates with YAFFS_unpacker.allowed_page_size in Hnone.
      rewrite Hnone in Hrun. eexists. exact Hrun.
Qed.

(** A version-1 image (the first header has neither name nor alias), and
    a version-2 image with pages of 2048 bytes: the bytes of its second
    unit fail the candidates 16384, 8192 and 4096. *)
Lemma detect_param_geometry_witness :
  (exists w',
      YAFFS_unpacker._detect_param
        (YAFFS_unpacker.mkWorld YAFFS_unpacker.__init__ LITTLE_ENDIAN
           (mkIO image_v1 0) fs_out)
      = (Returns tt, w')
      /\ YAFFS_unpacker.yaffs_version (YAFFS_unpacker.self w') = 1
      /\ YAFFS_unpacker.page_size (YAFFS_unpacker.self w') = 512
      /\ YAFFS_unpacker.spare_size (YAFFS_unpacker.self w') = 16)
  /\ (exists w',
      YAFFS_unpacker._detect_param
        (YAFFS_unpacker.mkWorld YAFFS_unpacker.__init__ LITTLE_ENDIAN
           (mkIO image_v2_2048 0) fs_out)
      = (Returns tt, w')
      /\ YAFFS_unpacker.yaffs_version (YAFFS_unpacker.self w') = 2
      /\ YAFFS_unpacker.page_size (YAFFS_unpacker.self w') = 2048
      /\ YAFFS_unpacker.spare_size (YAFFS_unpacker.self w') = 2048 / 32).
Proof.
  split.
  - destruct (first_header image_v1) as [oh|] eqn:Hfirst;
      [|vm_compute in Hfirst; discriminate].
    apply (proj1 (detect_param_geometry
                    (YAFFS_unpacker.mkWorld YAFFS_unpacker.__init__ LITTLE_ENDIAN
                       (mkIO image_v1 0) fs_out) oh eq_refl Hfirst)).
    vm_compute in Hfirst. injection Hfirst as <-. split; reflexivity.
  - destruct (first_header image_v2_2048) as [oh|] eqn:Hfirst;
      [|vm_compute in Hfirst; discriminate].
    apply (proj2 (detect_param_geometry
                    (YAFFS_unpacker.mkWorld YAFFS_unpacker.__init__ LITTLE_ENDIAN
                       (mkIO image_v2_2048 0) fs_out) oh eq_refl Hfirst)).
    + left. vm_compute in Hfirst. injection Hfirst as <-. discriminate.
    + exists [16384; 8192; 4096], [512]. split; [reflexivity|]. split.
      * apply test_passes. vm_compute. reflexivity.
      * repeat constructor; intros Hp; apply test_passes in Hp;
          vm_compute in Hp; discriminate.
Defined.

(** ** The object loop *)

Section ObjectLoop.

Import YAFFS_unpacker.

Lemma yaffs_obj_type_call_outside (v : Z) :
  ~ 0 <= v <= 5 -> yaffs_obj_type_call v = Err ValueError.
Proof.
  intros Hv. destruct v as [|p|p]; [lia| |reflexivity].
  destruct p as [p|p|]; [| |lia];
    (destruct p as [p|p|]; [| |try lia; try reflexivity]);
    (destruct p as [p|p|]; try lia; reflexivity).
Qed.

(** A header whose type field holds no member of the enumeration does
    not decode: the conversion of the field raises [ValueError]. *)
Lemma get_ObjHdr_type_outside (e : byte_order) (data : bytes) :
  (4 <= length data)%nat ->
  ~ 0 <= int_from_bytes e (take 4 data) <= 5 ->
  yaffs_obj_hdr.get_ObjHdr e data = Err ValueError.
Proof.
  intros Hlen Hty.
  unfold yaffs_obj_hdr.get_ObjHdr, yaffs_obj_hdr.unpack, yaffs_obj_hdr.reader.
  unfold cbind at 1. unfold c_enum_yaffs_obj_type, c_u32.
  unfold cbind at 1. unfold c_raw at 1.
  assert ((0 + 4 <=? length data)%nat = true) as -> by (apply Nat.leb_le; lia).
  rewrite drop_0. unfold cret at 1.
  rewrite (yaffs_obj_type_call_outside _ Hty). reflexivity.
Qed.

(** The turn of the object loop on such a page: the loop is left by
    [break], with nothing registered and nothing written. *)
Lemma unpack_turn_type_outside (fuel : nat) (outdir : path) (obj_id : Z) (w : world) :
  (4 <= length (fst (io_read (page_size (self w)) (fin w))))%nat ->
  ~ 0 <= int_from_bytes (module_byte_order w)
           (take 4 (fst (io_read (page_size (self w)) (fin w)))) <= 5 ->
  unpack_turn fuel outdir obj_id w
  = (Returns false,
     mkWorld (self w) (module_byte_order w)
       (snd (io_read (page_size (self w)) (fin w))) (fs w)).
Proof.
  intros Hlen Hty. unfold unpack_turn.
  unfold bind at 1. unfold get_self at 1.
  unfold bind at 1. unfold get_module_byte_order at 1.
  unfold bind at 1. unfold fin_read at 1.
  destruct (io_read (page_size (self w)) (fin w)) as [data f] eqn:Hread.
  cbn [fst snd] in *.
  rewrite get_ObjHdr_type_outside.
  - reflexivity.
  - unfold slice_to. change (yaffs_obj_hdr.size <? 0) with false. cbn iota.
    change (Z.to_nat yaffs_obj_hdr.size) with 512%nat.
    rewrite length_take. lia.
  - unfold slice_to. change (yaffs_obj_hdr.size <? 0) with false. cbn iota.
    change (Z.to_nat yaffs_obj_hdr.size) with 512%nat.
    rewrite take_take. change (4 `min` 512)%nat with 4%nat. exact Hty.
Qed.

End ObjectLoop.

(** C7, amended: when the type field of a page holds a value outside
    0..5, decoding the header raises [ValueError], which the object loop
    catches as it catches the end of the stream: the loop is left, the run
    goes on to its normal end, nothing is registered or written for the
    page, and no [WrongYaffsObjType] is raised. *)
Theorem unpack_loop_type_outside_enum (turns fuel : nat) (outdir : path)
    (obj_id : Z) (w : YAFFS_unpacker.world) :
  (4 <= length (fst (io_read (YAFFS_unpacker.page_size (YAFFS_unpacker.self w))
                       (YAFFS_unpacker.fin w))))%nat ->
  ~ 0 <= int_from_bytes (YAFFS_unpacker.module_byte_order w)
           (take 4 (fst (io_read (YAFFS_unpacker.page_size (YAFFS_unpacker.self w))
                           (YAFFS_unpacker.fin w)))) <= 5 ->
  exists w',
    YAFFS_unpacker.unpack_turn fuel outdir obj_id w = (Returns false, w')
    /\ YAFFS_unpacker.unpack_loop (S turns) fuel outdir obj_id w = (Returns tt, w')
    /\ YAFFS_unpacker.self w' = YAFFS_unpacker.self w
    /\ YAFFS_unpacker.fs w' = YAFFS_unpacker.fs w.
Proof.
  intros Hlen Hty. eexists. split; [|split; [|split]].
  - apply unpack_turn_type_outside; assumption.
  - cbn [YAFFS_unpacker.unpack_loop]. unfold YAFFS_unpacker.bind at 1.
    rewrite unpack_turn_type_outside by assumption. reflexivity.
  - reflexivity.
  - reflexivity.
Qed.

(** The loop on the image whose first object page has type 6, from the
    place [unpack] starts it at. *)
Lemma unpack_loop_type_outside_enum_witness :
  exists w',
    YAFFS_unpacker.unpack_loop 10 10 out 257
      (YAFFS_unpacker.mkWorld YAFFS_unpacker.__init__ LITTLE_ENDIAN
         (mkIO image_type_6 528) fs_out)
    = (Returns tt, w')
    /\ YAFFS_unpacker.fs w' = fs_out.
Proof.
  destruct (unpack_loop_type_outside_enum 9 10 out 257
              (YAFFS_unpacker.mkWorld YAFFS_unpacker.__init__ LITTLE_ENDIAN
                 (mkIO image_type_6 528) fs_out))
    as (w' & _ & Hloop & _ & Hfs).
  - vm_compute. lia.
  - replace (int_from_bytes _ _) with 6 by (vm_compute; reflexivity). lia.
  - exists w'. split; [exact Hloop|exact Hfs].
Defined.

(** C7 as stated fails: the first object page of this image holds type 6,
    and the run ends normally, with no exception and an output directory
    left as it was. *)
Lemma unpack_type_6_counterexample :
  int_from_le (take 4 (drop 528 image_type_6)) = 6
  /\ fst (YAFFS_unpacker.unpack 10 image_type_6 out (YAFFS_unpacker.fresh fs_out))
     = Returns tt
  /\ YAFFS_unpacker.fs
       (snd (YAFFS_unpacker.unpack 10 image_type_6 out (YAFFS_unpacker.fresh fs_out)))
     = fs_out.
Proof.
  split; [|split]; vm_compute; reflexivity.
Qed.

(** ** Materialization *)

Section TreeMaterializer.

Import YAFFS_unpacker.

Lemma os_mkdir_exists (p : path) (fs : gmap path inode) :
  is_dir p fs = true -> os_mkdir p fs = Raises FileExistsError.
Proof.
  unfold is_dir, os_mkdir. destruct (fs !! p); [reflexivity|discriminate].
Qed.

End TreeMaterializer.

(** C8, amended: for a Directory record whose resolved path is already
    there as a directory, materialization fails: [os.mkdir] raises
    [FileExistsError], which nothing catches. *)
Theorem unpack_object_existing_directory (fuel : nat) (outdir : path) (obj_id : Z)
    (oh : ObjHdr) (w : YAFFS_unpacker.world) (names : list str) :
  type oh = YAFFS_OBJECT_TYPE_DIRECTORY ->
  YAFFS_unpacker._unwind_parent_name fuel
    (<[obj_id := oh]> (YAFFS_unpacker.objdict (YAFFS_unpacker.self w))) obj_id
  = Some names ->
  is_dir (Path_of_str (str_join os_sep (Path_str outdir :: rev names)))
    (YAFFS_unpacker.fs w) = true ->
  fst (YAFFS_unpacker.unpack_object fuel outdir obj_id oh w) = Raises FileExistsError.
Proof.
  intros Hty Hnames Hdir. unfold YAFFS_unpacker.unpack_object.
  unfold YAFFS_unpacker.bind at 1. unfold YAFFS_unpacker.get_self at 1.
  unfold YAFFS_unpacker.bind at 1. unfold YAFFS_unpacker.fin_read at 1.
  destruct (io_read (YAFFS_unpacker.spare_size (YAFFS_unpacker.self w))
              (YAFFS_unpacker.fin w)) as [spare f].
  unfold YAFFS_unpacker.bind at 1. unfold YAFFS_unpacker.set_objdict at 1, YAFFS_unpacker.update_self.
  cbn [YAFFS_unpacker.self YAFFS_unpacker.module_byte_order YAFFS_unpacker.fin
       YAFFS_unpacker.fs YAFFS_unpacker.objdict].
  unfold YAFFS_unpacker.bind at 1. unfold YAFFS_unpacker.get_self at 1.
  cbn [YAFFS_unpacker.self YAFFS_unpacker.module_byte_order YAFFS_unpacker.fin
       YAFFS_unpacker.fs YAFFS_unpacker.objdict].
  rewrite Hnames, Hty.
  change (yaffs_obj_type_eqb YAFFS_OBJECT_TYPE_DIRECTORY YAFFS_OBJECT_TYPE_DIRECTORY)
    with true.
  cbn iota. unfold YAFFS_unpacker.bind at 1. unfold YAFFS_unpacker.os_call at 1.
  cbn [YAFFS_unpacker.self YAFFS_unpacker.module_byte_order YAFFS_unpacker.fin
       YAFFS_unpacker.fs].
  rewrite (os_mkdir_exists _ _ Hdir). reflexivity.
Qed.

(** A second directory [d] under the root, when [/out/d] is there. *)
Lemma unpack_object_existing_directory_witness :
  is_dir [[111; 117; 116]; [100]] (<[[[111; 117; 116]; [100]] := mkInode Directory None]> fs_out)
  = true
  /\ fst (YAFFS_unpacker.unpack_object 10 out 258 directory_d
            (YAFFS_unpacker.mkWorld YAFFS_unpacker.__init__ LITTLE_ENDIAN
               (mkIO image_two_d 1584)
               (<[[[111; 117; 116]; [100]] := mkInode Directory None]> fs_out)))
     = Raises FileExistsError.
Proof.
  split; [vm_compute; reflexivity|].
  apply (unpack_object_existing_directory 10 out 258 directory_d
           (YAFFS_unpacker.mkWorld YAFFS_unpacker.__init__ LITTLE_ENDIAN
              (mkIO image_two_d 1584)
              (<[[[111; 117; 116]; [100]] := mkInode Directory None]> fs_out))
           [[100]]).
  - reflexivity.
  - vm_compute. reflexivity.
  - vm_compute. reflexivity.
Defined.

(** C8 as stated fails: the image holds two directories [d] under the
    root; the first is created, the path of the second is then there as a
    directory, and the run ends with [FileExistsError]. *)
Lemma unpack_two_directories_counterexample :
  fst (YAFFS_unpacker.unpack 10 image_two_d out (YAFFS_unpacker.fresh fs_out))
  = Raises FileExistsError
  /\ is_dir [[111; 117; 116]; [100]]
       (YAFFS_unpacker.fs
          (snd (YAFFS_unpacker.unpack 10 image_two_d out (YAFFS_unpacker.fresh fs_out))))
     = true
  /\ YAFFS_unpacker.objdict
       (YAFFS_unpacker.self
          (snd (YAFFS_unpacker.unpack 10 image_two_d out (YAFFS_unpacker.fresh fs_out))))
     !! 258 = Some directory_d.
Proof.
  split; [|split]; vm_compute; reflexivity.
Qed.

(** ** File content *)

Section FileContent.

Import YAFFS_unpacker.

(** A read that the stream can satisfy in full. *)
Lemma io_read_full (n : Z) (f : BinaryIO) :
  0 <= n -> 0 <= io_pos f ->
  io_pos f + n <= Z.of_nat (length (io_data f)) ->
  exists data,
    io_read n f = (data, mkIO (io_data f) (io_pos f + n))
    /\ Z.of_nat (length data) = n.
Proof.
  intros Hn Hpos Hlen. unfold io_read.
  assert ((n <? 0) = false) as -> by lia.
  assert (Hl : length (take (Z.to_nat n) (drop (Z.to_nat (io_pos f)) (io_data f)))
               = Z.to_nat n).
  { rewrite length_take, length_drop. lia. }
  eexists. split; [|rewrite Hl; lia].
  rewrite Hl. rewrite Z2Nat.id by lia. reflexivity.
Qed.

Lemma open_wb_Returns (p : path) (fs fs1 : gmap path inode) :
  open_wb p fs = Returns fs1 ->
  exists tm, fs1 !! p = Some (mkInode (RegularFile []) tm).
Proof.
  unfold open_wb. destruct (has_dotdot p); [discriminate|].
  destruct (fs !! p) as [i|].
  - destruct (i_node i); try discriminate.
    intros [= <-]. eexists. apply lookup_insert_eq.
  - destruct (check_parent p fs); try discriminate.
    intros [= <-]. eexists. apply lookup_insert_eq.
Qed.

Lemma file_write_content (p : path) (data c : bytes) (tm : option (Z * Z))
    (fs : gmap path inode) :
  fs !! p = Some (mkInode (RegularFile c) tm) ->
  file_write p data fs !! p = Some (mkInode (RegularFile (c ++ data)) tm).
Proof.
  intros Hp. unfold file_write. rewrite Hp. cbn [i_node i_times].
  apply lookup_insert_eq.
Qed.

Lemma slice_to_length {A} (l : list A) (k : Z) :
  0 <= k <= Z.of_nat (length l) -> Z.of_nat (length (slice_to l k)) = k.
Proof.
  intros Hk. unfold slice_to. assert ((k <? 0) = false) as -> by lia.
  rewrite length_take. lia.
Qed.

(** The page loop, on a stream that holds all the pages it asks for:
    every turn but the last appends a full page, the last one the first
    [file_size mod page_size] bytes of its page. *)
Lemma unpack_pages_run (todo : nat) :
  forall (i_page num_pages : Z) (oh : ObjHdr) (p : path) (w : world)
         (c : bytes) (tm : option (Z * Z)),
    0 < page_size (self w) -> 0 <= spare_size (self w) -> 0 <= io_pos (fin w) ->
    i_page + Z.of_nat todo = num_pages ->
    io_pos (fin w) + Z.of_nat todo * (page_size (self w) + spare_size (self w))
    <= Z.of_nat (length (io_data (fin w))) ->
    fs w !! p = Some (mkInode (RegularFile c) tm) ->
    exists w' written,
      unpack_pages todo i_page num_pages oh p w = (Returns tt, w')
      /\ self w' = self w
      /\ io_data (fin w') = io_data (fin w)
      /\ io_pos (fin w')
         = io_pos (fin w)
           + Z.of_nat todo * (page_size (self w) + spare_size (self w))
      /\ fs w' !! p = Some (mkInode (RegularFile (c ++ written)) tm)
      /\ Z.of_nat (length written)
         = match todo with
           | O => 0
           | S _ => (Z.of_nat todo - 1) * page_size (self w)
                    + file_size oh mod page_size (self w)
           end.
Proof.
  induction todo as [|todo IH];
    intros i_page num_pages oh p w c tm Hps Hsp Hpos Hturn Hlen Hp.
  - exists w, []. cbn [unpack_pages]. unfold ret. rewrite app_nil_r.
    repeat split; try assumption; try reflexivity. lia.
  - cbn [unpack_pages].
    unfold bind at 1. unfold get_self at 1.
    unfold bind at 1. unfold fin_read at 1.
    destruct (io_read_full (page_size (self w)) (fin w)) as (page & Hread & Hpage);
      [lia|lia|nia|].
    rewrite Hread.
    set (chunk := if i_page <? num_pages - 1 then page
                  else slice_to page (file_size oh mod page_size (self w))).
    assert (Hchunk : Z.of_nat (length chunk)
                     = if i_page <? num_pages - 1 then page_size (self w)
                       else file_size oh mod page_size (self w)).
    { subst chunk. destruct (i_page <? num_pages - 1); [exact Hpage|].
      apply slice_to_length. rewrite Hpage.
      pose proof (Z.mod_pos_bound (file_size oh) (page_size (self w)) Hps). lia. }
    pose (w1 := mkWorld (self w) (module_byte_order w)
                  (mkIO (io_data (fin w))
                     (io_pos (fin w) + page_size (self w) + spare_size (self w)))
                  (file_write p chunk (fs w))).
    destruct (IH (i_page + 1) num_pages oh p w1 (c ++ chunk) tm)
      as (w' & written & Hrun & Hself & Hdata & Hpos' & Hfs & Hwritten);
      subst w1; cbn [self fin fs io_pos io_data];
      [assumption|assumption|lia|lia|nia|apply file_write_content, Hp|].
    cbn [self fin fs io_pos io_data] in Hrun, Hself, Hdata, Hpos', Hfs, Hwritten.
    exists w', (chunk ++ written).
    split.
    { rewrite <- Hrun. unfold bind, fout_write, fin_seek_cur, io_seek_cur.
      subst chunk. destruct (i_page <? num_pages - 1);
        cbn [self fin fs io_pos io_data module_byte_order]; reflexivity. }
    split; [exact Hself|]. split; [exact Hdata|].
    split; [rewrite Hpos'; lia|].
    split; [rewrite Hfs, app_assoc; reflexivity|].
    rewrite length_app, Nat2Z.inj_add, Hchunk, Hwritten.
    destruct todo as [|todo].
    + assert ((i_page <? num_pages - 1) = false) as -> by lia. lia.
    + assert ((i_page <? num_pages - 1) = true) as -> by lia. lia.
Qed.

(** The File branch, on a stream that holds all the pages of content:
    [num_pages] pages are read, and the file gets all of them but the
    last, then the first [file_size mod page_size] bytes of the last. *)
Lemma unpack_file_run (oh : ObjHdr) (p : path) (w : world) (fs1 : gmap path inode) :
  0 < page_size (self w) -> 0 <= spare_size (self w) -> 0 <= io_pos (fin w) ->
  0 <= file_size oh ->
  open_wb p (fs w) = Returns fs1 ->
  io_pos (fin w)
  + (file_size oh + page_size (self w) - 1) / page_size (self w)
    * (page_size (self w) + spare_size (self w))
  <= Z.of_nat (length (io_data (fin w))) ->
  exists w' content,
    unpack_file oh p w = (Returns tt, w')
    /\ self w' = self w
    /\ io_pos (fin w')
       = io_pos (fin w)
         + (file_size oh + page_size (self w) - 1) / page_size (self w)
           * (page_size (self w) + spare_size (self w))
    /\ file_content p (fs w') = Some content
    /\ Z.of_nat (length content)
       = if (file_size oh + page_size (self w) - 1) / page_size (self w) =? 0 then 0
         else ((file_size oh + page_size (self w) - 1) / page_size (self w) - 1)
              * page_size (self w)
              + file_size oh mod page_size (self w).
Proof.
  intros Hps Hsp Hpos Hsize Hopen Hlen.
  set (num_pages := (file_size oh + page_size (self w) - 1) / page_size (self w)) in *.
  assert (Hnum : 0 <= num_pages).
  { subst num_pages. apply Z.div_pos; lia. }
  destruct (open_wb_Returns _ _ _ Hopen) as (tm & Hp).
  pose (w1 := mkWorld (self w) (module_byte_order w) (fin w) fs1).
  destruct (unpack_pages_run (Z.to_nat num_pages) 0 num_pages oh p w1 [] tm)
    as (w' & written & Hrun & Hself & Hdata & Hpos' & Hfs & Hwritten);
    subst w1; cbn [self fin fs io_pos io_data];
    [assumption|assumption|assumption|lia|rewrite Z2Nat.id by lia; exact Hlen
    |exact Hp|].
  cbn [self fin fs io_pos io_data] in Hrun, Hself, Hdata, Hpos', Hfs, Hwritten.
  exists w', written. split.
  { unfold unpack_file. unfold bind at 1. unfold get_self at 1.
    unfold bind at 1. unfold os_call at 1. rewrite Hopen. exact Hrun. }
  split; [exact Hself|].
  split; [rewrite Hpos', Z2Nat.id by lia; reflexivity|].
  split; [unfold file_content; rewrite Hfs; reflexivity|].
  rewrite Hwritten. rewrite Z2Nat.id by lia.
  destruct (Z.to_nat num_pages) eqn:E.
  - assert ((num_pages =? 0) = true) as -> by lia. reflexivity.
  - assert ((num_pages =? 0) = false) as -> by lia. reflexivity.
Qed.

(** When the size is not a multiple of the page size, the file gets
    exactly [file_size] bytes, from [ceil(file_size / page_size)] pages. *)
Lemma unpack_file_partial_last_page (oh : ObjHdr) (p : path) (w : world)
    (fs1 : gmap path inode) :
  0 < page_size (self w) -> 0 <= spare_size (self w) -> 0 <= io_pos (fin w) ->
  0 <= file_size oh ->
  file_size oh mod page_size (self w) <> 0 ->
  open_wb p (fs w) = Returns fs1 ->
  io_pos (fin w)
  + (file_size oh / page_size (self w) + 1)
    * (page_size (self w) + spare_size (self w))
  <= Z.of_nat (length (io_data (fin w))) ->
  exists w' content,
    unpack_file oh p w = (Returns tt, w')
    /\ io_pos (fin w')
       = io_pos (fin w)
         + (file_size oh / page_size (self w) + 1)
           * (page_size (self w) + spare_size (self w))
    /\ file_content p (fs w') = Some content
    /\ Z.of_nat (length content) = file_size oh.
Proof.
  intros Hps Hsp Hpos Hsize Hrem Hopen Hlen.
  assert (Hnum : (file_size oh + page_size (self w) - 1) / page_size (self w)
                 = file_size oh / page_size (self w) + 1).
  { pose proof (Z.div_mod (file_size oh) (page_size (self w)) ltac:(lia)) as Hdm.
    pose proof (Z.mod_pos_bound (file_size oh) (page_size (self w)) Hps) as Hb.
    symmetry. apply (Z.div_unique _ _ _ (file_size oh mod page_size (self w) - 1)); lia. }
  destruct (unpack_file_run oh p w fs1 Hps Hsp Hpos Hsize Hopen)
    as (w' & content & Hrun & _ & Hpos' & Hc & Hl).
  { rewrite Hnum. exact Hlen. }
  rewrite Hnum in Hpos', Hl.
  exists w', content. split; [exact Hrun|]. split; [exact Hpos'|].
  split; [exact Hc|].
  rewrite Hl.
  pose proof (Z.div_pos (file_size oh) (page_size (self w)) Hsize Hps).
  assert ((file_size oh / page_size (self w) + 1 =? 0) = false) as -> by lia.
  pose proof (Z.div_mod (file_size oh) (page_size (self w)) ltac:(lia)). lia.
Qed.

End FileContent.

(** C1 on the code: for a File record whose size is [k] full pages, [k]
    at least 1, on a stream that holds them all, [k] pages are read, and
    the file gets [k - 1] pages and nothing of the last: [file_size -
    page_size] bytes, where the claim has [file_size]. *)
Theorem unpack_file_exact_multiple (oh : ObjHdr) (p : path)
    (w : YAFFS_unpacker.world) (fs1 : gmap path inode) (k : Z) :
  0 < YAFFS_unpacker.page_size (YAFFS_unpacker.self w) ->
  0 <= YAFFS_unpacker.spare_size (YAFFS_unpacker.self w) ->
  0 <= io_pos (YAFFS_unpacker.fin w) ->
  1 <= k ->
  file_size oh = k * YAFFS_unpacker.page_size (YAFFS_unpacker.self w) ->
  open_wb p (YAFFS_unpacker.fs w) = Returns fs1 ->
  io_pos (YAFFS_unpacker.fin w)
  + k * (YAFFS_unpacker.page_size (YAFFS_unpacker.self w)
         + YAFFS_unpacker.spare_size (YAFFS_unpacker.self w))
  <= Z.of_nat (length (io_data (YAFFS_unpacker.fin w))) ->
  exists w' content,
    YAFFS_unpacker.unpack_file oh p w = (Returns tt, w')
    /\ io_pos (YAFFS_unpacker.fin w')
       = io_pos (YAFFS_unpacker.fin w)
         + k * (YAFFS_unpacker.page_size (YAFFS_unpacker.self w)
                + YAFFS_unpacker.spare_size (YAFFS_unpacker.self w))
    /\ file_content p (YAFFS_unpacker.fs w') = Some content
    /\ Z.of_nat (length content)
       = file_size oh - YAFFS_unpacker.page_size (YAFFS_unpacker.self w).
Proof.
  intros Hps Hsp Hpos Hk Hsize Hopen Hlen.
  set (ps := YAFFS_unpacker.page_size (YAFFS_unpacker.self w)) in *.
  assert (Hnum : (file_size oh + ps - 1) / ps = k).
  { symmetry. apply (Z.div_unique _ _ _ (ps - 1)); lia. }
  assert (Hmod : file_size oh mod ps = 0).
  { rewrite Hsize. apply Z.mod_mul. lia. }
  destruct (unpack_file_run oh p w fs1 Hps Hsp Hpos ltac:(nia) Hopen)
    as (w' & content & Hrun & _ & Hpos' & Hc & Hl).
  { fold ps. rewrite Hnum. exact Hlen. }
  fold ps in Hpos', Hl. rewrite Hnum in Hpos', Hl. rewrite Hmod in Hl.
  exists w', content. split; [exact Hrun|]. split; [exact Hpos'|].
  split; [exact Hc|].
  rewrite Hl. assert ((k =? 0) = false) as -> by lia. lia.
Qed.

(** The file [f] of 512 bytes, with pages of 512 bytes: its one page of
    content is read and the file is left empty. *)
Lemma unpack_file_exact_multiple_witness :
  exists w' content,
    YAFFS_unpacker.unpack_file file_f_512 [[111; 117; 116]; [102]] world_before_content
    = (Returns tt, w')
    /\ io_pos (YAFFS_unpacker.fin w') = 528
    /\ file_content [[111; 117; 116]; [102]] (YAFFS_unpacker.fs w') = Some content
    /\ Z.of_nat (length content) = 0.
Proof.
  assert (Hopen : open_wb [[111; 117; 116]; [102]] (YAFFS_unpacker.fs world_before_content)
                  = Returns (<[[[111; 117; 116]; [102]] := mkInode (RegularFile []) None]>
                               fs_out))
    by (vm_compute; reflexivity).
  exact (unpack_file_exact_multiple file_f_512 [[111; 117; 116]; [102]]
           world_before_content _ 1
           ltac:(vm_compute; reflexivity) ltac:(vm_compute; discriminate)
           ltac:(vm_compute; discriminate) ltac:(lia) eq_refl Hopen
           ltac:(vm_compute; discriminate)).
Defined.

(** The same through a whole run: the image holds a directory [d] and in
    it a file [f] of 512 bytes with its page of content; the run ends
    normally and [/out/d/f] is empty. *)
Lemma unpack_image_v1_file_empty :
  fst (YAFFS_unpacker.unpack 10 image_v1 out (YAFFS_unpacker.fresh fs_out)) = Returns tt
  /\ file_size <$>
       (YAFFS_unpacker.objdict
          (YAFFS_unpacker.self
             (snd (YAFFS_unpacker.unpack 10 image_v1 out (YAFFS_unpacker.fresh fs_out))))
        !! 258) = Some 512
  /\ file_content [[111; 117; 116]; [100]; [102]]
       (YAFFS_unpacker.fs
          (snd (YAFFS_unpacker.unpack 10 image_v1 out (YAFFS_unpacker.fresh fs_out))))
     = Some [].
Proof.
  split; [|split]; vm_compute; reflexivity.
Qed.

(** * Further properties of the code *)

(** ** The header structure *)

(** [unpack] in full: the type field is read first and converted, and the
    other fields need the whole structure to be there. *)
Lemma yaffs_obj_hdr_unpack_eq (e : byte_order) (data : bytes) :
  yaffs_obj_hdr.unpack e data
  = if (length data <? 4)%nat then Err struct_error
    else match yaffs_obj_type_call (u32_at e data 0) with
         | Err x => Err x
         | OK t =>
           if (length data <? 512)%nat then Err struct_error
           else OK (yaffs_obj_hdr_at e t data)
         end.
Proof.
  unfold yaffs_obj_hdr.unpack, yaffs_obj_hdr.reader.
  unfold cbind at 1. unfold c_enum_yaffs_obj_type, c_u32 at 1.
  unfold cbind at 1. unfold c_raw at 1.
  destruct (Nat.leb_spec (0 + 4) (length data)) as [H4|H4].
  - assert ((length data <? 4)%nat = false) as -> by (apply Nat.ltb_ge; lia).
    unfold cret at 1. fold (u32_at e data 0).
    destruct (yaffs_obj_type_call (u32_at e data 0)) as [t|x]; [|reflexivity].
    destruct (Nat.ltb_spec (length data) 512) as [Hs|Hs].
    + unfold c_u32_2; unfold c_u32, c_u16, c_u8, c_s32, c_char;
        unfold cbind, c_raw, cret; cbv beta.
      repeat match goal with
             | |- context [if (?a <=? ?b)%nat then _ else _] =>
               destruct (Nat.leb_spec a b); cbv beta iota
             end;
        try reflexivity.
      exfalso. lia.
    + unfold c_u32_2; unfold c_u32, c_u16, c_u8, c_s32, c_char;
        unfold cbind, c_raw, cret; cbv beta.
      repeat match goal with
             | |- context [if (?a <=? ?b)%nat then _ else _] =>
               destruct (Nat.leb_spec a b); cbv beta iota; [|exfalso; lia]
             end.
      reflexivity.
  - assert ((length data <? 4)%nat = true) as -> by (apply Nat.ltb_lt; lia).
    reflexivity.
Qed.

Lemma take_drop_take {A} (n off m : nat) (l : list A) :
  (off + n <= m)%nat -> take n (drop off (take m l)) = take n (drop off l).
Proof.
  intros H. rewrite skipn_firstn_comm, take_take.
  f_equal. lia.
Qed.

Lemma yaffs_obj_hdr_at_take (e : byte_order) (t : yaffs_obj_type) (data : bytes) :
  yaffs_obj_hdr_at e t (take 512 data) = yaffs_obj_hdr_at e t data.
Proof.
  unfold yaffs_obj_hdr_at, s32_at, u32_at, u16_at, u8_at.
  rewrite !take_drop_take by lia. reflexivity.
Qed.

(** X1: a buffer that holds the 512 bytes of the structure and a type in
    0..5 unpacks to the fields found at the offsets the declaration
    gives: the name is bytes 10..264, the alias bytes 300..459, the low and
    high words of the size are at 292 and 496. *)
Theorem yaffs_obj_hdr_fields_at_offsets (e : byte_order) (data : bytes)
    (t : yaffs_obj_type) :
  (512 <= length data)%nat ->
  yaffs_obj_type_call (u32_at e data 0) = OK t ->
  yaffs_obj_hdr.unpack e data = OK (yaffs_obj_hdr_at e t data).
Proof.
  intros Hlen Hty. rewrite yaffs_obj_hdr_unpack_eq, Hty.
  assert ((length data <? 4)%nat = false) as -> by (apply Nat.ltb_ge; lia).
  assert ((length data <? 512)%nat = false) as -> by (apply Nat.ltb_ge; lia).
  reflexivity.
Qed.

Lemma yaffs_obj_hdr_fields_at_offsets_witness :
  yaffs_obj_hdr.file_size_low
    (yaffs_obj_hdr_at LITTLE_ENDIAN YAFFS_OBJECT_TYPE_FILE
       (header_page LITTLE_ENDIAN 1 257 (c_string [102]) 7 8 100 1 [])) = 100
  /\ yaffs_obj_hdr.unpack LITTLE_ENDIAN
       (header_page LITTLE_ENDIAN 1 257 (c_string [102]) 7 8 100 1 [])
     = OK (yaffs_obj_hdr_at LITTLE_ENDIAN YAFFS_OBJECT_TYPE_FILE
             (header_page LITTLE_ENDIAN 1 257 (c_string [102]) 7 8 100 1 [])).
Proof.
  split; [vm_compute; reflexivity|].
  apply yaffs_obj_hdr_fields_at_offsets.
  - vm_compute. lia.
  - vm_compute. reflexivity.
Defined.

(** X2: a header unpacks only from a buffer of at least 512 bytes, and
    what unpacks depends on the first 512 bytes only. *)
Theorem yaffs_obj_hdr_unpack_whole (e : byte_order) (data : bytes)
    (self : yaffs_obj_hdr.t) :
  yaffs_obj_hdr.unpack e data = OK self ->
  (512 <= length data)%nat
  /\ forall more, yaffs_obj_hdr.unpack e (take 512 data ++ more) = OK self.
Proof.
  intros H. rewrite yaffs_obj_hdr_unpack_eq in H.
  destruct (Nat.ltb_spec (length data) 4) as [H4|H4]; [discriminate|].
  destruct (yaffs_obj_type_call (u32_at e data 0)) as [t|] eqn:Hty; [|discriminate].
  destruct (Nat.ltb_spec (length data) 512) as [Hs|Hs]; [discriminate|].
  injection H as <-. split; [exact Hs|].
  intros more. rewrite yaffs_obj_hdr_unpack_eq.
  assert (Hl : length (take 512 data ++ more) = (512 + length more)%nat).
  { rewrite length_app, length_take. lia. }
  assert (Hpre : forall n off, (off + n <= 512)%nat ->
                   take n (drop off (take 512 data ++ more)) = take n (drop off data)).
  { intros n off Hno.
    rewrite <- (take_drop_take n off 512 (take 512 data ++ more)) by exact Hno.
    rewrite take_app_length' by (rewrite length_take; lia).
    apply take_drop_take. exact Hno. }
  assert ((length (take 512 data ++ more) <? 4)%nat = false) as ->
      by (apply Nat.ltb_ge; lia).
  assert ((length (take 512 data ++ more) <? 512)%nat = false) as ->
      by (apply Nat.ltb_ge; lia).
  unfold u32_at at 1. rewrite Hpre by lia. fold (u32_at e data 0). rewrite Hty.
  f_equal. unfold yaffs_obj_hdr_at, s32_at, u32_at, u16_at, u8_at.
  rewrite !Hpre by lia. reflexivity.
Qed.

Lemma yaffs_obj_hdr_unpack_whole_witness :
  (512 <= length (header_page BIG_ENDIAN 3 1 (c_string [100%Z]) 5 6 0 0 [] ++ spare16))%nat
  /\ yaffs_obj_hdr.unpack BIG_ENDIAN
       (take 512 (header_page BIG_ENDIAN 3 1 (c_string [100]) 5 6 0 0 [] ++ spare16)
        ++ [Byte.x00])
     = yaffs_obj_hdr.unpack BIG_ENDIAN
         (header_page BIG_ENDIAN 3 1 (c_string [100]) 5 6 0 0 [] ++ spare16).
Proof.
  destruct (yaffs_obj_hdr.unpack BIG_ENDIAN
              (header_page BIG_ENDIAN 3 1 (c_string [100]) 5 6 0 0 [] ++ spare16))
    as [self|] eqn:H; [|vm_compute in H; discriminate].
  destruct (yaffs_obj_hdr_unpack_whole _ _ _ H) as [Hlen Hmore].
  split; [exact Hlen|]. apply Hmore.
Defined.

(** ** What decoding a header can raise *)

Lemma utf8_decode_Z_raises (n : nat) :
  forall (l : list Z) (x : exn),
    (length l <= n)%nat -> utf8_decode_Z l = Err x -> x = UnicodeDecodeError.
Proof.
  induction n as [|n IH]; intros l x Hlen H.
  - destruct l; [discriminate|simpl in Hlen; lia].
  - destruct l as [|b0 r0]; [discriminate|].
    cbn [utf8_decode_Z] in H. simpl in Hlen.
    repeat match goal with
           | H : Err _ = Err _ |- _ => injection H as <-
           | H : OK _ = Err _ |- _ => discriminate
           | H : context [if ?c then _ else _] |- _ => destruct c
           | H : context [match ?l with [] => _ | _ :: _ => _ end] |- _ =>
             is_var l; destruct l; simpl in Hlen
           | H : context [rbind (utf8_decode_Z ?r) _] |- _ =>
             let E := fresh "E" in
             destruct (utf8_decode_Z r) eqn:E; cbn [rbind] in H;
               [|apply IH in E; [|lia]]
           end;
      try reflexivity; try assumption.
Qed.

Lemma c_null_term_str_to_str_raises (data : bytes) (x : exn) :
  c_null_term_str_to_str data = Err x -> x = UnicodeDecodeError.
Proof.
  unfold c_null_term_str_to_str, decode_utf8.
  destruct (all_0xFF data); [discriminate|].
  apply (utf8_decode_Z_raises _ _ x (Nat.le_refl _)).
Qed.

Lemma yaffs_obj_type_call_raises (v : Z) (x : exn) :
  yaffs_obj_type_call v = Err x -> x = ValueError.
Proof.
  unfold yaffs_obj_type_call.
  repeat match goal with
         | |- context [match ?v with _ => _ end] => destruct v
         end; intros [= <-] || discriminate; reflexivity.
Qed.

(** [get_ObjHdr] raises nothing but [struct.error], [ValueError] and
    [UnicodeDecodeError]. *)
Lemma get_ObjHdr_raises (e : byte_order) (data : bytes) (x : exn) :
  yaffs_obj_hdr.get_ObjHdr e data = Err x ->
  x = struct_error \/ x = ValueError \/ x = UnicodeDecodeError.
Proof.
  unfold yaffs_obj_hdr.get_ObjHdr. rewrite yaffs_obj_hdr_unpack_eq.
  destruct (length data <? 4)%nat; [intros [= <-]; tauto|].
  destruct (yaffs_obj_type_call _) as [t|y] eqn:Hty.
  - destruct (length data <? 512)%nat; [intros [= <-]; tauto|].
    cbn [rbind].
    destruct (c_null_term_str_to_str (yaffs_obj_hdr.name _)) as [n|y] eqn:Hn.
    + cbn [rbind].
      destruct (c_null_term_str_to_str (yaffs_obj_hdr.alias _)) as [a|y] eqn:Ha.
      * discriminate.
      * intros [= <-]. apply c_null_term_str_to_str_raises in Ha. tauto.
    + intros [= <-]. apply c_null_term_str_to_str_raises in Hn. tauto.
  - intros [= <-]. apply yaffs_obj_type_call_raises in Hty. tauto.
Qed.

(** The turn of the loop whose header fails to decode with [Herr]. *)
Ltac loop_break w Herr :=
  cbn [YAFFS_unpacker.unpack_loop];
  unfold YAFFS_unpacker.bind at 1; unfold YAFFS_unpacker.unpack_turn;
  unfold YAFFS_unpacker.bind at 1; unfold YAFFS_unpacker.get_self at 1;
  unfold YAFFS_unpacker.bind at 1; unfold YAFFS_unpacker.get_module_byte_order at 1;
  unfold YAFFS_unpacker.bind at 1; unfold YAFFS_unpacker.fin_read at 1;
  destruct (io_read (YAFFS_unpacker.page_size (YAFFS_unpacker.self w))
              (YAFFS_unpacker.fin w)) as [? ?];
  cbn [fst snd] in *; rewrite Herr;
  destruct (get_ObjHdr_raises _ _ _ Herr) as [->|[->| ->]]; reflexivity.

(** X3: whatever makes the header of a page fail to decode (a page cut
    short, a type outside the enumeration, a name or alias that is not
    UTF-8), the object loop catches it: the loop is left by [break], the
    run goes on to its normal end, and the registry and the file system
    are as they were. *)
Theorem unpack_loop_decode_failure (turns fuel : nat) (outdir : path)
    (obj_id : Z) (w : YAFFS_unpacker.world) (ex : exn) :
  yaffs_obj_hdr.get_ObjHdr (YAFFS_unpacker.module_byte_order w)
    (slice_to (fst (io_read (YAFFS_unpacker.page_size (YAFFS_unpacker.self w))
                      (YAFFS_unpacker.fin w)))
       yaffs_obj_hdr.size) = Err ex ->
  YAFFS_unpacker.unpack_loop (S turns) fuel outdir obj_id w
  = (Returns tt,
     YAFFS_unpacker.mkWorld (YAFFS_unpacker.self w)
       (YAFFS_unpacker.module_byte_order w)
       (snd (io_read (YAFFS_unpacker.page_size (YAFFS_unpacker.self w))
               (YAFFS_unpacker.fin w)))
       (YAFFS_unpacker.fs w)).
Proof.
  intros Herr. loop_break w Herr.
Qed.

(** A page whose name field is the single byte [0x80] followed by a null:
    not UTF-8. *)
Lemma unpack_loop_decode_failure_witness :
  fst (YAFFS_unpacker.unpack_loop 5 5 out 257
         (YAFFS_unpacker.mkWorld YAFFS_unpacker.__init__ LITTLE_ENDIAN
            (mkIO (header_page LITTLE_ENDIAN 3 1 [Byte.x80; Byte.x00] 5 6 0 0 []) 0)
            fs_out))
  = Returns tt.
Proof.
  rewrite (unpack_loop_decode_failure 4 5 out 257
             (YAFFS_unpacker.mkWorld YAFFS_unpacker.__init__ LITTLE_ENDIAN
                (mkIO (header_page LITTLE_ENDIAN 3 1 [Byte.x80; Byte.x00] 5 6 0 0 []) 0)
                fs_out)
             UnicodeDecodeError ltac:(vm_compute; reflexivity)).
  reflexivity.
Defined.

Lemma io_read_length (n : Z) (f : BinaryIO) :
  0 <= io_pos f ->
  Z.of_nat (length (fst (io_read n f)))
  <= Z.max 0 (Z.of_nat (length (io_data f)) - io_pos f).
Proof.
  intros Hpos. unfold io_read. cbn [fst].
  destruct (n <? 0); [|rewrite length_take]; rewrite length_drop; lia.
Qed.

(** X4: the end of the stream ends the scan: when fewer than 512 bytes
    are left at the cursor, whatever they are, the object loop stops
    there and the run ends normally. *)
Theorem unpack_loop_end_of_stream (turns fuel : nat) (outdir : path)
    (obj_id : Z) (w : YAFFS_unpacker.world) :
  0 <= io_pos (YAFFS_unpacker.fin w) ->
  Z.of_nat (length (io_data (YAFFS_unpacker.fin w)))
  < io_pos (YAFFS_unpacker.fin w) + 512 ->
  exists w',
    YAFFS_unpacker.unpack_loop (S turns) fuel outdir obj_id w = (Returns tt, w')
    /\ YAFFS_unpacker.self w' = YAFFS_unpacker.self w
    /\ YAFFS_unpacker.fs w' = YAFFS_unpacker.fs w.
Proof.
  intros Hpos Hleft.
  pose proof (io_read_length (YAFFS_unpacker.page_size (YAFFS_unpacker.self w))
                (YAFFS_unpacker.fin w) Hpos) as Hread.
  destruct (yaffs_obj_hdr.get_ObjHdr (YAFFS_unpacker.module_byte_order w)
              (slice_to (fst (io_read (YAFFS_unpacker.page_size (YAFFS_unpacker.self w))
                                (YAFFS_unpacker.fin w)))
                 yaffs_obj_hdr.size)) as [oh|ex] eqn:Hdec.
  - exfalso. unfold yaffs_obj_hdr.get_ObjHdr in Hdec.
    destruct (yaffs_obj_hdr.unpack _ _) as [self|] eqn:Hun; [|discriminate].
    rewrite yaffs_obj_hdr_unpack_eq in Hun.
    destruct (Nat.ltb_spec (length (slice_to (fst (io_read (YAFFS_unpacker.page_size
                (YAFFS_unpacker.self w)) (YAFFS_unpacker.fin w))) yaffs_obj_hdr.size)) 4);
      [discriminate|].
    destruct (yaffs_obj_type_call _); [|discriminate].
    destruct (Nat.ltb_spec (length (slice_to (fst (io_read (YAFFS_unpacker.page_size
                (YAFFS_unpacker.self w)) (YAFFS_unpacker.fin w))) yaffs_obj_hdr.size)) 512)
      as [|Hbig]; [discriminate|].
    unfold slice_to in Hbig. change (yaffs_obj_hdr.size <? 0) with false in Hbig.
    cbn iota in Hbig. rewrite length_take in Hbig. lia.
  - exists (YAFFS_unpacker.mkWorld (YAFFS_unpacker.self w)
              (YAFFS_unpacker.module_byte_order w)
              (snd (io_read (YAFFS_unpacker.page_size (YAFFS_unpacker.self w))
                      (YAFFS_unpacker.fin w)))
              (YAFFS_unpacker.fs w)).
    split; [|split; reflexivity]. clear Hread. loop_break w Hdec.
Qed.

(** The loop at the very end of [image_v1]. *)
Lemma unpack_loop_end_of_stream_witness :
  exists w',
    YAFFS_unpacker.unpack_loop 1 0 out 259
      (YAFFS_unpacker.mkWorld YAFFS_unpacker.__init__ LITTLE_ENDIAN
         (mkIO image_v1 2112) fs_out)
    = (Returns tt, w')
    /\ YAFFS_unpacker.self w' = YAFFS_unpacker.__init__
    /\ YAFFS_unpacker.fs w' = fs_out.
Proof.
  apply (unpack_loop_end_of_stream 0 0 out 259
           (YAFFS_unpacker.mkWorld YAFFS_unpacker.__init__ LITTLE_ENDIAN
              (mkIO image_v1 2112) fs_out)).
  - vm_compute. discriminate.
  - vm_compute. reflexivity.
Defined.

(** ** The range of the decoded fields *)

Lemma int_from_le_range (bs : bytes) :
  0 <= int_from_le bs < 256 ^ Z.of_nat (length bs).
Proof.
  induction bs as [|b bs IH].
  - simpl. lia.
  - cbn [int_from_le length]. rewrite Nat2Z.inj_succ, Z.pow_succ_r by lia.
    pose proof (byte_to_Z_range b). lia.
Qed.

Lemma int_from_bytes_range (e : byte_order) (bs : bytes) :
  0 <= int_from_bytes e bs < 256 ^ Z.of_nat (length bs).
Proof.
  destruct e; simpl.
  - apply int_from_le_range.
  - rewrite <- length_rev. apply int_from_le_range.
Qed.

Lemma u32_at_range (e : byte_order) (data : bytes) (off : nat) :
  0 <= u32_at e data off < 2 ^ 32.
Proof.
  unfold u32_at.
  pose proof (int_from_bytes_range e (take 4 (drop off data))) as H.
  assert (Hl : (length (take 4 (drop off data)) <= 4)%nat)
    by (rewrite length_take; lia).
  assert (256 ^ Z.of_nat (length (take 4 (drop off data))) <= 256 ^ 4)
    by (apply Z.pow_le_mono_r; lia).
  change (2 ^ 32) with (256 ^ 4). lia.
Qed.

Lemma lor_range (a b n : Z) :
  0 <= n -> 0 <= a < 2 ^ n -> 0 <= b < 2 ^ n -> 0 <= Z.lor a b < 2 ^ n.
Proof.
  intros Hn Ha Hb. split; [apply Z.lor_nonneg; lia|].
  destruct (Z.eq_dec (Z.lor a b) 0) as [->|Hne]; [lia|].
  apply Z.log2_lt_pow2; [pose proof (proj2 (Z.lor_nonneg a b) ltac:(lia)); lia|].
  rewrite Z.log2_lor by lia.
  destruct (Z.eq_dec a 0) as [->|Ha0]; destruct (Z.eq_dec b 0) as [->|Hb0].
  - simpl in Hne. contradiction.
  - rewrite Z.max_r by (change (Z.log2 0) with 0; apply Z.log2_nonneg).
    apply Z.log2_lt_pow2; lia.
  - rewrite Z.max_l by (change (Z.log2 0) with 0; apply Z.log2_nonneg).
    apply Z.log2_lt_pow2; lia.
  - apply Z.max_lub_lt; apply Z.log2_lt_pow2; lia.
Qed.

(** The fields of the struct a header was built from. *)
Lemma get_ObjHdr_fields (e : byte_order) (data : bytes) (oh : ObjHdr) :
  yaffs_obj_hdr.get_ObjHdr e data = OK oh ->
  exists t,
    yaffs_obj_hdr.unpack e data = OK (yaffs_obj_hdr_at e t data)
    /\ type oh = t
    /\ parent_obj_id oh = u32_at e data 4
    /\ c_null_term_str_to_str (take 255 (drop 10 data)) = OK (name oh)
    /\ file_mode oh = u32_at e data 268
    /\ uid oh = u32_at e data 272
    /\ gid oh = u32_at e data 276
    /\ atime oh = u32_at e data 280
    /\ mtime oh = u32_at e data 284
    /\ ctime oh = u32_at e data 288
    /\ file_size oh
       = (if yaffs_obj_type_eqb t YAFFS_OBJECT_TYPE_FILE then
            if negb (u32_at e data 496 =? 0xFFFFFFFF) then
              Z.lor (u32_at e data 292) (Z.shiftl (u32_at e data 496) 32)
            else u32_at e data 292
          else -1)
    /\ c_null_term_str_to_str (take 160 (drop 300 data)) = OK (alias oh).
Proof.
  unfold yaffs_obj_hdr.get_ObjHdr. rewrite yaffs_obj_hdr_unpack_eq.
  destruct (length data <? 4)%nat; [discriminate|].
  destruct (yaffs_obj_type_call _) as [t|]; [|discriminate].
  destruct (length data <? 512)%nat; [discriminate|].
  cbn [rbind yaffs_obj_hdr_at yaffs_obj_hdr.name yaffs_obj_hdr.alias
       yaffs_obj_hdr.type yaffs_obj_hdr.parent_obj_id yaffs_obj_hdr.yst_mode
       yaffs_obj_hdr.yst_uid yaffs_obj_hdr.yst_gid yaffs_obj_hdr.yst_atime
       yaffs_obj_hdr.yst_mtime yaffs_obj_hdr.yst_ctime
       yaffs_obj_hdr.file_size_low yaffs_obj_hdr.file_size_high].
  destruct (c_null_term_str_to_str (take 255 (drop 10 data))) as [n|]; [|discriminate].
  cbn [rbind].
  destruct (c_null_term_str_to_str (take 160 (drop 300 data))) as [a|]; [|discriminate].
  cbn [rbind]. intros [= <-]. exists t. cbn. repeat split.
Qed.

(** X5: every integer a decoded header carries is a 32-bit unsigned
    value, and the size of a File is never negative: it is below 2^64, and
    below 2^32 when the high word is the [0xFFFFFFFF] sentinel. *)
Theorem get_ObjHdr_ranges (e : byte_order) (data : bytes) (oh : ObjHdr) :
  yaffs_obj_hdr.get_ObjHdr e data = OK oh ->
  0 <= parent_obj_id oh < 2 ^ 32
  /\ 0 <= file_mode oh < 2 ^ 32
  /\ 0 <= uid oh < 2 ^ 32
  /\ 0 <= gid oh < 2 ^ 32
  /\ 0 <= atime oh < 2 ^ 32
  /\ 0 <= mtime oh < 2 ^ 32
  /\ 0 <= ctime oh < 2 ^ 32
  /\ (type oh = YAFFS_OBJECT_TYPE_FILE ->
      0 <= file_size oh < 2 ^ 64
      /\ (u32_at e data 496 = 0xFFFFFFFF -> file_size oh < 2 ^ 32)).
Proof.
  intros H. destruct (get_ObjHdr_fields _ _ _ H)
    as (t & _ & Hty & -> & _ & -> & -> & -> & -> & -> & -> & Hsize & _).
  repeat (split; [apply u32_at_range|]).
  intros Hfile. subst t. rewrite Hfile in Hsize.
  change (yaffs_obj_type_eqb YAFFS_OBJECT_TYPE_FILE YAFFS_OBJECT_TYPE_FILE)
    with true in Hsize. cbn iota in Hsize.
  pose proof (u32_at_range e data 292) as Hlow.
  pose proof (u32_at_range e data 496) as Hhigh.
  assert (Hpow : 2 ^ 64 = 2 ^ 32 * 2 ^ 32) by reflexivity.
  assert (0 < 2 ^ 32) by reflexivity.
  destruct (u32_at e data 496 =? 0xFFFFFFFF) eqn:E; cbn [negb] in Hsize; rewrite Hsize.
  - split; [|intros _]; nia.
  - split; [|intros Heq; apply Z.eqb_neq in E; contradiction].
    apply lor_range; [lia|nia|].
    rewrite Z.shiftl_mul_pow2 by lia. nia.
Qed.

Lemma get_ObjHdr_ranges_witness :
  exists oh,
    yaffs_obj_hdr.get_ObjHdr LITTLE_ENDIAN
      (header_page LITTLE_ENDIAN 1 257 (c_string [102]) 7 8 100 1 []) = OK oh
    /\ 0 <= file_size oh < 2 ^ 64.
Proof.
  destruct (yaffs_obj_hdr.get_ObjHdr LITTLE_ENDIAN
              (header_page LITTLE_ENDIAN 1 257 (c_string [102]) 7 8 100 1 []))
    as [oh|] eqn:H; [|vm_compute in H; discriminate].
  exists oh. split; [reflexivity|].
  apply (get_ObjHdr_ranges _ _ _ H).
  vm_compute in H. injection H as <-. reflexivity.
Defined.

(** ** What geometry detection leaves behind *)

Section DetectionOutcome.

Import YAFFS_unpacker.

(** [_detect_param] step by step, in any process and on any stream. *)
Lemma detect_param_outcome (w : world) :
  exists f,
    io_data f = io_data (fin w)
    /\ _detect_param w
       = match yaffs_magic_header.unpack (module_byte_order w)
                 (take (Z.to_nat yaffs_magic_header.size) (io_data (fin w))) with
         | Err x => (Raises x, mkWorld (self w) (module_byte_order w) f (fs w))
         | OK ymh =>
           match detect_endianness ymh with
           | Err x => (Raises x, mkWorld (self w) (module_byte_order w) f (fs w))
           | OK e =>
             match yaffs_obj_hdr.get_ObjHdr e
                     (take (Z.to_nat yaffs_obj_hdr.size) (io_data (fin w))) with
             | Err x =>
               (Raises x,
                mkWorld (mk (objdict (self w)) (yaffs_version (self w)) e
                           (page_size (self w)) (spare_size (self w)))
                  e f (fs w))
             | OK oh =>
               if str_eqb (name oh) [] && str_eqb (alias oh) [] then
                 (Returns tt, mkWorld (mk (objdict (self w)) 1 e 512 16) e f (fs w))
               else
                 match find (test_of (io_data (fin w))) allowed_page_size with
                 | Some c =>
                   (Returns tt,
                    mkWorld (mk (objdict (self w)) 2 e c (c / 32)) e f (fs w))
                 | None =>
                   (Raises WrongPageSize,
                    mkWorld (mk (objdict (self w)) 2 e (-1) (spare_size (self w)))
                      e f (fs w))
                 end
             end
           end
         end.
Proof.
  unfold _detect_param.
  unfold bind at 1. unfold fin_seek_set at 1.
  unfold bind at 1. unfold fin_read at 1, io_read.
  cbn [fin io_seek_set io_pos io_data self module_byte_order fs].
  change (yaffs_magic_header.size <? 0) with false. cbn iota.
  change (Z.to_nat 0) with 0%nat. rewrite drop_0.
  unfold bind at 1. unfold get_module_byte_order at 1.
  cbn [fin io_pos io_data self module_byte_order fs].
  unfold bind at 1.
  destruct (yaffs_magic_header.unpack (module_byte_order w) _) as [ymh|x].
  2: { cbn [lift]. unfold raise. eexists. split; [|reflexivity]. reflexivity. }
  cbn [lift]. unfold ret at 1.
  unfold bind at 1.
  destruct (detect_endianness ymh) as [e|x].
  2: { cbn [lift]. unfold raise. eexists. split; [|reflexivity]. reflexivity. }
  cbn [lift]. unfold ret at 1.
  unfold bind at 1. unfold set_self_endianness at 1, update_self.
  cbn [fin io_pos io_data self module_byte_order fs].
  unfold bind at 1. unfold set_endianness at 1.
  cbn [fin io_pos io_data self module_byte_order fs].
  unfold bind at 1. unfold fin_seek_set at 1.
  cbn [fin io_seek_set io_pos io_data self module_byte_order fs].
  unfold bind at 1. unfold get_module_byte_order at 1.
  cbn [fin io_pos io_data self module_byte_order fs].
  unfold bind at 1. unfold fin_read at 1, io_read.
  cbn [fin io_seek_set io_pos io_data self module_byte_order fs].
  change (yaffs_obj_hdr.size <? 0) with false. cbn iota.
  change (Z.to_nat 0) with 0%nat. rewrite drop_0.
  unfold bind at 1.
  destruct (yaffs_obj_hdr.get_ObjHdr e _) as [oh|x].
  2: { cbn [lift]. unfold raise. eexists. split; [|reflexivity]. reflexivity. }
  cbn [lift]. unfold ret at 1.
  destruct (str_eqb (name oh) [] && str_eqb (alias oh) []).
  - eexists. split; [|reflexivity]. reflexivity.
  - unfold bind at 1. unfold set_yaffs_version at 1, update_self.
    cbn [fin io_pos io_data self module_byte_order fs yaffs_version objdict
         endianness page_size spare_size].
    unfold bind at 1. unfold set_page_size at 1, update_self.
    cbn [fin io_pos io_data self module_byte_order fs yaffs_version objdict
         endianness page_size spare_size].
    match goal with
    | |- context [bind (_detect_param_probe allowed_page_size) _ ?w0] =>
      destruct (probe_run allowed_page_size w0) as (f & Hf & Hrun)
    end.
    { unfold allowed_page_size. repeat constructor; lia. }
    cbn [fin io_pos io_data self module_byte_order fs yaffs_version objdict
         endianness page_size spare_size] in Hf, Hrun.
    unfold bind at 1. rewrite Hrun.
    assert (Hsizes : Forall (fun c => c <> -1) allowed_page_size).
    { unfold allowed_page_size. repeat constructor; lia. }
    destruct (find _ allowed_page_size) as [c|] eqn:Efind.
    + assert (c <> -1) as Hc.
      { apply find_some in Efind. destruct Efind as [Hin _].
        rewrite Forall_forall in Hsizes. apply Hsizes, list_elem_of_In, Hin. }
      unfold bind at 1. unfold get_self at 1.
      cbn [fin io_pos io_data self module_byte_order fs yaffs_version objdict
           endianness page_size spare_size].
      apply Z.eqb_neq in Hc. rewrite Hc.
      eexists. split; [|reflexivity]. exact Hf.
    + unfold bind at 1. unfold get_self at 1.
      cbn [fin io_pos io_data self module_byte_order fs yaffs_version objdict
           endianness page_size spare_size].
      change (-1 =? -1) with true. cbn iota. unfold raise.
      eexists. split; [|reflexivity]. exact Hf.
Qed.

Lemma find_allowed_page_size (stream : bytes) :
  exists c, find (test_of stream) allowed_page_size = Some c
            /\ c ∈ allowed_page_size.
Proof.
  destruct (find (test_of stream) allowed_page_size) as [c|] eqn:E.
  - exists c. split; [reflexivity|].
    apply find_some in E. apply list_elem_of_In, E.
  - exfalso.
    pose proof (find_none _ _ E 512 ltac:(unfold allowed_page_size; simpl; tauto)) as H.
    pose proof (candidate_512_passes stream) as Hp.
    apply test_passes in Hp. unfold test_of in H. congruence.
Qed.

Lemma magic_unpack_raises (e : byte_order) (data : bytes) (x : exn) :
  yaffs_magic_header.unpack e data = Err x -> x = struct_error.
Proof.
  unfold yaffs_magic_header.unpack, yaffs_magic_header.reader.
  unfold c_u32, c_u16; unfold cbind, c_raw, cret; cbv beta.
  repeat match goal with
         | |- context [if (?a <=? ?b)%nat then _ else _] =>
           destruct (Nat.leb_spec a b); cbv beta iota
         end; intros [= <-] || discriminate; reflexivity.
Qed.

Lemma detect_endianness_raises (ymh : yaffs_magic_header.t) (x : exn) :
  detect_endianness ymh = Err x -> x = CorruptedType.
Proof.
  unfold detect_endianness.
  destruct (int_in _ _); [discriminate|].
  destruct (int_in _ _); [discriminate|]. intros [= <-]. reflexivity.
Qed.

End DetectionOutcome.

(** X6: whenever [_detect_param] returns, the geometry it leaves in the
    instance is sound: the page size is one of the five allowed sizes, the
    spare size is the page size divided by 32, the version is 1 (with
    pages of 512 bytes) or 2, the classes are declared with the byte order
    recorded in the instance, and the registry, the file system and the
    content of the stream are untouched. *)
Theorem detect_param_postcondition (w w' : YAFFS_unpacker.world) :
  YAFFS_unpacker._detect_param w = (Returns tt, w') ->
  YAFFS_unpacker.page_size (YAFFS_unpacker.self w') ∈ YAFFS_unpacker.allowed_page_size
  /\ YAFFS_unpacker.spare_size (YAFFS_unpacker.self w')
     = YAFFS_unpacker.page_size (YAFFS_unpacker.self w') / 32
  /\ (YAFFS_unpacker.yaffs_version (YAFFS_unpacker.self w') = 1
      /\ YAFFS_unpacker.page_size (YAFFS_unpacker.self w') = 512
      \/ YAFFS_unpacker.yaffs_version (YAFFS_unpacker.self w') = 2)
  /\ YAFFS_unpacker.module_byte_order w'
     = YAFFS_unpacker.endianness (YAFFS_unpacker.self w')
  /\ YAFFS_unpacker.objdict (YAFFS_unpacker.self w')
     = YAFFS_unpacker.objdict (YAFFS_unpacker.self w)
  /\ YAFFS_unpacker.fs w' = YAFFS_unpacker.fs w
  /\ io_data (YAFFS_unpacker.fin w') = io_data (YAFFS_unpacker.fin w).
Proof.
  intros Hrun. destruct (detect_param_outcome w) as (f & Hf & Hout).
  rewrite Hout in Hrun. clear Hout.
  destruct (yaffs_magic_header.unpack _ _) as [ymh|]; [|discriminate].
  destruct (detect_endianness ymh) as [e|]; [|discriminate].
  destruct (yaffs_obj_hdr.get_ObjHdr e _) as [oh|]; [|discriminate].
  destruct (str_eqb (name oh) [] && str_eqb (alias oh) []).
  - injection Hrun as <-. cbn.
    split; [unfold YAFFS_unpacker.allowed_page_size; set_solver|].
    repeat split; try tauto; exact Hf.
  - destruct (find_allowed_page_size (io_data (YAFFS_unpacker.fin w)))
      as (c & Hc & Hin).
    rewrite Hc in Hrun. injection Hrun as <-. cbn.
    split; [exact Hin|]. repeat split; try tauto; exact Hf.
Qed.

Lemma detect_param_postcondition_witness :
  exists w',
    YAFFS_unpacker._detect_param
      (YAFFS_unpacker.mkWorld YAFFS_unpacker.__init__ LITTLE_ENDIAN
         (mkIO image_v2_2048 0) fs_out) = (Returns tt, w')
    /\ YAFFS_unpacker.spare_size (YAFFS_unpacker.self w')
       = YAFFS_unpacker.page_size (YAFFS_unpacker.self w') / 32
    /\ YAFFS_unpacker.fs w' = fs_out.
Proof.
  destruct (YAFFS_unpacker._detect_param
              (YAFFS_unpacker.mkWorld YAFFS_unpacker.__init__ LITTLE_ENDIAN
                 (mkIO image_v2_2048 0) fs_out)) as [o w'] eqn:Hrun.
  assert (Ho : o = Returns tt).
  { apply (f_equal fst) in Hrun. cbn [fst] in Hrun. rewrite <- Hrun.
    vm_compute. reflexivity. }
  subst o. exists w'. split; [reflexivity|].
  pose proof (detect_param_postcondition _ _ Hrun) as H.
  split; [apply H|apply H].
Defined.

(** X7: [_detect_param] returns or raises [struct.error] (a stream cut
    short), [CorruptedType], [ValueError] or [UnicodeDecodeError]; it
    never raises [WrongPageSize], because the candidate 512 is the length
    of the header structure and passes the test on every stream; and it
    never changes the file system. *)
Theorem detect_param_outcomes (w : YAFFS_unpacker.world) :
  exists o w',
    YAFFS_unpacker._detect_param w = (o, w')
    /\ (o = Returns tt \/ o = Raises struct_error \/ o = Raises CorruptedType
        \/ o = Raises ValueError \/ o = Raises UnicodeDecodeError)
    /\ YAFFS_unpacker.fs w' = YAFFS_unpacker.fs w.
Proof.
  destruct (detect_param_outcome w) as (f & Hf & Hout). rewrite Hout. clear Hout.
  destruct (yaffs_magic_header.unpack _ _) as [ymh|x] eqn:Hm.
  2: { apply magic_unpack_raises in Hm. subst x.
       eexists _, _. split; [reflexivity|]. split; [tauto|reflexivity]. }
  destruct (detect_endianness ymh) as [e|x] eqn:He.
  2: { apply detect_endianness_raises in He. subst x.
       eexists _, _. split; [reflexivity|]. split; [tauto|reflexivity]. }
  destruct (yaffs_obj_hdr.get_ObjHdr e _) as [oh|x] eqn:Hh.
  2: { apply get_ObjHdr_raises in Hh.
       eexists _, _. split; [reflexivity|].
       split; [destruct Hh as [->|[->| ->]]; tauto|reflexivity]. }
  destruct (str_eqb (name oh) [] && str_eqb (alias oh) []).
  - eexists _, _. split; [reflexivity|]. split; [tauto|reflexivity].
  - destruct (find_allowed_page_size (io_data (YAFFS_unpacker.fin w)))
      as (c & Hc & _).
    rewrite Hc. eexists _, _. split; [reflexivity|]. split; [tauto|reflexivity].
Qed.

(** ** The format sniff and the detection that follows it *)

(** What [detect_yaffs] has checked is what [_detect_param] needs: the
    preview unpacks, a byte order is detected, and the type of the first
    header, read in that order, is one of 1..5. *)
Lemma detect_yaffs_byte_order (imgFile : bytes) :
  detect_yaffs imgFile = true ->
  exists ymh e,
    (10 <= length imgFile)%nat
    /\ yaffs_magic_header.unpack LITTLE_ENDIAN (take 10 imgFile) = OK ymh
    /\ detect_endianness ymh = OK e
    /\ 1 <= int_from_bytes e (take 4 imgFile) <= 5
    /\ int_from_bytes e (take 4 (drop 4 imgFile)) = 1
    /\ (e = LITTLE_ENDIAN <-> re_match yaffs_le (take 10 imgFile) = true).
Proof.
  unfold detect_yaffs, io_read. cbn [io_pos io_data fst].
  change (Z.to_nat 0) with 0%nat. rewrite drop_0.
  change (4 + 4 + 2 <? 0) with false. cbn iota.
  change (Z.to_nat (4 + 4 + 2)) with 10%nat.
  assert (Hle : (length (take 10 imgFile) <= 10)%nat) by (rewrite length_take; lia).
  assert (H4 : take 4 imgFile = take 4 (take 10 imgFile))
    by (rewrite take_take; reflexivity).
  assert (H8 : take 4 (drop 4 imgFile) = take 4 (drop 4 (take 10 imgFile)))
    by (rewrite take_drop_take by lia; reflexivity).
  assert (Hlen : length (take 10 imgFile) = 10%nat -> (10 <= length imgFile)%nat)
    by (rewrite length_take; lia).
  rewrite H4, H8. clear H4 H8.
  destruct (Nat.eq_dec (length (take 10 imgFile)) 10%nat) as [Hten|Hten].
  - specialize (Hlen Hten). revert Hten. generalize (take 10 imgFile). intros data Hten.
    do 10 (destruct data as [|? data]; [discriminate|]).
    destruct data; [|discriminate].
    pose proof (yaffs_le_match b b0 b1 b2 b3 b4 b5 b6 b7 b8) as HLE.
    pose proof (yaffs_be_match b b0 b1 b2 b3 b4 b5 b6 b7 b8) as HBE.
    pose proof (byte_to_Z_range b). pose proof (byte_to_Z_range b0).
    pose proof (byte_to_Z_range b1). pose proof (byte_to_Z_range b2).
    pose proof (byte_to_Z_range b3). pose proof (byte_to_Z_range b4).
    pose proof (byte_to_Z_range b5). pose proof (byte_to_Z_range b6).
    pose proof (byte_to_Z_range b7). pose proof (byte_to_Z_range b8).
    intros Hd.
    destruct (re_match yaffs_le _) eqn:E1.
    + destruct HLE as [HLE _]. specialize (HLE eq_refl).
      eexists. exists LITTLE_ENDIAN. split; [exact Hlen|].
      split; [reflexivity|]. split.
      { apply detect_endianness_cases. cbn. lia. }
      cbn. split; [lia|]. split; [lia|]. tauto.
    + destruct (re_match yaffs_be _) eqn:E2; [|discriminate].
      destruct HBE as [HBE _]. specialize (HBE eq_refl).
      eexists. exists BIG_ENDIAN. split; [exact Hlen|].
      split; [reflexivity|]. split.
      { apply detect_endianness_cases. exists (byte_to_Z b2). cbn.
        rewrite Z.shiftl_mul_pow2 by lia. lia. }
      cbn. split; [lia|]. split; [lia|]. split; discriminate.
  - destruct (re_match_needs_10 (take 10 imgFile) ltac:(lia)) as [-> ->].
    discriminate.
Qed.

(** X8: on a stream that [detect_yaffs] accepts, [_detect_param] in a
    fresh process never raises [CorruptedType]: it returns, or the first
    header's name or alias is not UTF-8 ([UnicodeDecodeError]), or the
    stream is shorter than a header ([struct.error], only below 512
    bytes).  The byte order it records is little-endian exactly when the
    little-endian pattern is the one that matched. *)
Theorem detect_yaffs_then_detect_param (w : YAFFS_unpacker.world) :
  detect_yaffs (io_data (YAFFS_unpacker.fin w)) = true ->
  YAFFS_unpacker.module_byte_order w = LITTLE_ENDIAN ->
  exists o w',
    YAFFS_unpacker._detect_param w = (o, w')
    /\ (o = Returns tt \/ o = Raises UnicodeDecodeError
        \/ (o = Raises struct_error
            /\ (length (io_data (YAFFS_unpacker.fin w)) < 512)%nat))
    /\ (YAFFS_unpacker.endianness (YAFFS_unpacker.self w') = LITTLE_ENDIAN
        <-> re_match yaffs_le (take 10 (io_data (YAFFS_unpacker.fin w))) = true).
Proof.
  intros Hsniff Horder.
  destruct (detect_yaffs_byte_order _ Hsniff)
    as (ymh & e & Hlen & Hm & He & Hty & _ & Hle).
  destruct (detect_param_outcome w) as (f & Hf & Hout). rewrite Hout. clear Hout.
  rewrite Horder. change (Z.to_nat yaffs_magic_header.size) with 10%nat.
  rewrite Hm, He.
  change (Z.to_nat yaffs_obj_hdr.size) with 512%nat.
  destruct (yaffs_obj_hdr.get_ObjHdr e _) as [oh|x] eqn:Hh.
  - destruct (str_eqb (name oh) [] && str_eqb (alias oh) []).
    + eexists _, _. split; [reflexivity|]. split; [tauto|exact Hle].
    + destruct (find_allowed_page_size (io_data (YAFFS_unpacker.fin w)))
        as (c & Hc & _).
      rewrite Hc. eexists _, _. split; [reflexivity|]. split; [tauto|exact Hle].
  - eexists _, _. split; [reflexivity|]. split; [|exact Hle].
    unfold yaffs_obj_hdr.get_ObjHdr in Hh. rewrite yaffs_obj_hdr_unpack_eq in Hh.
    rewrite length_take in Hh.
    destruct (Nat.ltb_spec (512 `min` length (io_data (YAFFS_unpacker.fin w))) 4);
      [lia|].
    assert (Hcall : exists t,
               yaffs_obj_type_call
                 (u32_at e (take 512 (io_data (YAFFS_unpacker.fin w))) 0) = OK t).
    { unfold u32_at. rewrite drop_0, take_take. change (4 `min` 512)%nat with 4%nat.
      set (v := int_from_bytes e (take 4 (io_data (YAFFS_unpacker.fin w)))) in *.
      assert (v = 1 \/ v = 2 \/ v = 3 \/ v = 4 \/ v = 5) as Hv by lia.
      destruct Hv as [->|[->|[->|[->| ->]]]]; eexists; reflexivity. }
    destruct Hcall as (t & Hcall). rewrite Hcall in Hh.
    destruct (Nat.ltb_spec (512 `min` length (io_data (YAFFS_unpacker.fin w))) 512).
    + injection Hh as <-. right. right. split; [reflexivity|lia].
    + cbn [rbind] in Hh.
      destruct (c_null_term_str_to_str _) as [n|y] eqn:Hn.
      * cbn [rbind] in Hh.
        destruct (c_null_term_str_to_str (yaffs_obj_hdr.alias _)) as [a|y] eqn:Ha;
          [discriminate|].
        injection Hh as <-. apply c_null_term_str_to_str_raises in Ha. subst y. tauto.
      * injection Hh as <-. apply c_null_term_str_to_str_raises in Hn. subst y. tauto.
Qed.

Lemma detect_yaffs_then_detect_param_witness :
  exists o w',
    YAFFS_unpacker._detect_param
      (YAFFS_unpacker.mkWorld YAFFS_unpacker.__init__ LITTLE_ENDIAN
         (mkIO image_v1 0) fs_out) = (o, w')
    /\ (o = Returns tt \/ o = Raises UnicodeDecodeError
        \/ (o = Raises struct_error /\ (length image_v1 < 512)%nat))
    /\ (YAFFS_unpacker.endianness (YAFFS_unpacker.self w') = LITTLE_ENDIAN
        <-> re_match yaffs_le (take 10 image_v1) = true).
Proof.
  exact (detect_yaffs_then_detect_param
           (YAFFS_unpacker.mkWorld YAFFS_unpacker.__init__ LITTLE_ENDIAN
              (mkIO image_v1 0) fs_out)
           ltac:(vm_compute; reflexivity) eq_refl).
Defined.

(** ** Path resolution that ends *)

(** X9: when the chain of parents from an id reaches, after [n] steps, an
    id that is not registered, path resolution ends (with any fuel above
    [n]) and yields exactly [n] names: the name of the object itself, then
    those of its ancestors in the order of the chain. *)
Theorem unwind_parent_name_names (objdict : gmap Z ObjHdr) (n : nat) (obj_id x : Z) :
  parent_chain objdict n obj_id = Some x ->
  objdict !! x = None ->
  exists names,
    length names = n
    /\ (forall fuel, (n < fuel)%nat ->
          YAFFS_unpacker._unwind_parent_name fuel objdict obj_id = Some names)
    /\ (forall i, (i < n)%nat ->
          exists y oh,
            parent_chain objdict i obj_id = Some y
            /\ objdict !! y = Some oh
            /\ names !! i = Some (name oh)).
Proof.
  revert obj_id. induction n as [|n IH]; intros obj_id Hchain Hx.
  - injection Hchain as ->. exists []. split; [reflexivity|]. split.
    + intros fuel Hfuel. destruct fuel as [|fuel]; [lia|].
      cbn [YAFFS_unpacker._unwind_parent_name]. unfold YAFFS_unpacker._unwind_next.
      rewrite Hx. reflexivity.
    + intros i Hi. lia.
  - cbn [parent_chain] in Hchain.
    destruct (objdict !! obj_id) as [oh|] eqn:Hid; [|discriminate].
    destruct (IH _ Hchain Hx) as (names & Hlen & Hrun & Hnames).
    exists (name oh :: names). split; [simpl; lia|]. split.
    + intros fuel Hfuel. destruct fuel as [|fuel]; [lia|].
      cbn [YAFFS_unpacker._unwind_parent_name]. unfold YAFFS_unpacker._unwind_next.
      rewrite Hid. rewrite (Hrun fuel) by lia. reflexivity.
    + intros i Hi. destruct i as [|i].
      * exists obj_id, oh. repeat split; assumption.
      * destruct (Hnames i ltac:(lia)) as (y & oh' & Hc & Hy & Hn).
        exists y, oh'. cbn [parent_chain]. rewrite Hid. repeat split; assumption.
Qed.

(** A file [f] (id 258) in a directory [d] (id 257) under the root, whose
    id 1 is never registered: the names are [f], [d]. *)
Lemma unwind_parent_name_names_witness :
  YAFFS_unpacker._unwind_parent_name 5 objdict_d_f 258 = Some [[102]; [100]].
Proof.
  assert (Hchain : parent_chain objdict_d_f 2 258 = Some 1) by reflexivity.
  assert (Hroot : objdict_d_f !! 1 = None) by reflexivity.
  destruct (unwind_parent_name_names objdict_d_f 2 258 1 Hchain Hroot)
    as (names & Hlen & Hrun & Hnames).
  rewrite (Hrun 5%nat ltac:(lia)). f_equal.
  destruct (Hnames 0%nat ltac:(lia)) as (y0 & oh0 & Hc0 & Hy0 & Hn0).
  destruct (Hnames 1%nat ltac:(lia)) as (y1 & oh1 & Hc1 & Hy1 & Hn1).
  injection Hc0 as <-.
  assert (y1 = 257) as -> by (vm_compute in Hc1; congruence).
  assert (oh0 = file_in_d) as -> by (vm_compute in Hy0; vm_compute; congruence).
  assert (oh1 = directory_d) as -> by (vm_compute in Hy1; vm_compute; congruence).
  destruct names as [|a [|b [|c names]]]; try discriminate.
  cbn in Hn0, Hn1. congruence.
Defined.

(** ** What the object loop keeps *)

Section LoopInvariants.

Import YAFFS_unpacker.

Lemma io_read_facts (n : Z) (f : BinaryIO) :
  io_data (snd (io_read n f)) = io_data f
  /\ io_pos (snd (io_read n f)) = io_pos f + Z.of_nat (length (fst (io_read n f))).
Proof.
  unfold io_read. cbn [fst snd io_data io_pos]. split; reflexivity.
Qed.

(** The page loop always returns; it changes the cursor, forwards only,
    and the file system, nothing else. *)
Lemma unpack_pages_frame (todo : nat) :
  forall (i_page num_pages : Z) (oh : ObjHdr) (p : path) (w : world),
  exists f fs',
    unpack_pages todo i_page num_pages oh p w
    = (Returns tt, mkWorld (self w) (module_byte_order w) f fs')
    /\ io_data f = io_data (fin w)
    /\ (0 <= spare_size (self w) -> io_pos (fin w) <= io_pos f).
Proof.
  induction todo as [|todo IH]; intros i_page num_pages oh p w.
  - exists (fin w), (fs w). split; [destruct w; reflexivity|].
    split; [reflexivity|lia].
  - cbn [unpack_pages].
    unfold bind at 1. unfold get_self at 1.
    unfold bind at 1. unfold fin_read at 1.
    destruct (io_read_facts (page_size (self w)) (fin w)) as [Hd Hp].
    destruct (io_read (page_size (self w)) (fin w)) as [page f1].
    cbn [fst snd] in Hd, Hp.
    set (chunk := if i_page <? num_pages - 1 then page
                  else slice_to page (file_size oh mod page_size (self w))).
    destruct (IH (i_page + 1) num_pages oh p
                (mkWorld (self w) (module_byte_order w)
                   (io_seek_cur (spare_size (self w)) f1)
                   (file_write p chunk (fs w))))
      as (f & fs' & Hrun & Hdata & Hpos).
    cbn [self fin fs module_byte_order io_seek_cur io_data io_pos] in Hrun, Hdata, Hpos.
    exists f, fs'. split.
    { rewrite <- Hrun. unfold bind, fout_write, fin_seek_cur.
      subst chunk. destruct (i_page <? num_pages - 1);
        cbn [self fin fs io_pos io_data module_byte_order]; reflexivity. }
    split; [congruence|]. intros Hsp. specialize (Hpos Hsp). lia.
Qed.

Lemma os_call_frame (g : gmap path inode -> outcome (gmap path inode)) (w : world) :
  exists o fs',
    os_call g w = (o, mkWorld (self w) (module_byte_order w) (fin w) fs').
Proof.
  unfold os_call. destruct (g (fs w)) as [fs'| | |].
  - exists (Returns tt), fs'. reflexivity.
  - eexists _, (fs w). destruct w; reflexivity.
  - eexists _, (fs w). destruct w; reflexivity.
  - eexists _, (fs w). destruct w; reflexivity.
Qed.

Lemma unpack_file_frame (oh : ObjHdr) (p : path) (w : world) :
  exists o f fs',
    unpack_file oh p w = (o, mkWorld (self w) (module_byte_order w) f fs')
    /\ io_data f = io_data (fin w)
    /\ (0 <= spare_size (self w) -> io_pos (fin w) <= io_pos f).
Proof.
  unfold unpack_file. unfold bind at 1. unfold get_self at 1.
  unfold bind at 1.
  destruct (os_call_frame (open_wb p) w) as (o & fs1 & ->).
  destruct o as [[]| | |].
  - match goal with
    | |- context [unpack_pages ?t ?i ?n ?h ?q ?w1] =>
      destruct (unpack_pages_frame t i n h q w1) as (f & fs' & Hrun & Hd & Hp)
    end.
    cbn [self fin fs module_byte_order] in Hrun, Hd, Hp.
    rewrite Hrun. exists (Returns tt), f, fs'. repeat split; assumption.
  - eexists _, _, _. split; [reflexivity|]. split; [reflexivity|]. cbn. lia.
  - eexists _, _, _. split; [reflexivity|]. split; [reflexivity|]. cbn. lia.
  - eexists _, _, _. split; [reflexivity|]. split; [reflexivity|]. cbn. lia.
Qed.

(** Whatever its outcome, [unpack_object] has registered the header under
    the id, and has changed nothing else in the instance. *)
Lemma unpack_object_frame (fuel : nat) (outdir : path) (obj_id : Z) (oh : ObjHdr)
    (w : world) :
  exists o f fs',
    unpack_object fuel outdir obj_id oh w
    = (o, mkWorld (mk (<[obj_id := oh]> (objdict (self w))) (yaffs_version (self w))
                     (endianness (self w)) (page_size (self w)) (spare_size (self w)))
            (module_byte_order w) f fs')
    /\ io_data f = io_data (fin w)
    /\ (0 <= spare_size (self w) -> io_pos (fin w) <= io_pos f).
Proof.
  unfold unpack_object.
  unfold bind at 1. unfold get_self at 1.
  unfold bind at 1. unfold fin_read at 1.
  destruct (io_read_facts (spare_size (self w)) (fin w)) as [Hd Hp].
  destruct (io_read (spare_size (self w)) (fin w)) as [spare f1].
  cbn [fst snd] in Hd, Hp.
  unfold bind at 1. unfold set_objdict at 1, update_self.
  cbn [self module_byte_order fin fs objdict yaffs_version endianness
       page_size spare_size].
  unfold bind at 1. unfold get_self at 1.
  cbn [self module_byte_order fin fs objdict yaffs_version endianness
       page_size spare_size].
  destruct (_unwind_parent_name fuel _ obj_id) as [names|].
  2: { eexists _, _, _. split; [reflexivity|]. split; [exact Hd|]. cbn. lia. }
  cbv zeta.
  set (obj_path := Path_of_str _).
  set (w1 := mkWorld _ _ f1 (fs w)).
  assert (Hentry : exists o f fs',
             (if yaffs_obj_type_eqb (type oh) YAFFS_OBJECT_TYPE_DIRECTORY then
                os_call (os_mkdir obj_path)
              else if yaffs_obj_type_eqb (type oh) YAFFS_OBJECT_TYPE_FILE then
                unpack_file oh obj_path
              else if yaffs_obj_type_eqb (type oh) YAFFS_OBJECT_TYPE_SYMLINK then
                os_call (os_symlink (alias oh) obj_path)
              else raise (WrongYaffsObjType (type oh))) w1
             = (o, mkWorld (self w1) (module_byte_order w1) f fs')
             /\ io_data f = io_data f1
             /\ (0 <= spare_size (self w) -> io_pos f1 <= io_pos f)).
  { destruct (yaffs_obj_type_eqb (type oh) YAFFS_OBJECT_TYPE_DIRECTORY).
    - destruct (os_call_frame (os_mkdir obj_path) w1) as (o & fs' & ->).
      exists o, f1, fs'. split; [reflexivity|]. split; [reflexivity|lia].
    - destruct (yaffs_obj_type_eqb (type oh) YAFFS_OBJECT_TYPE_FILE).
      + destruct (unpack_file_frame oh obj_path w1) as (o & f & fs' & -> & Hd' & Hp').
        exists o, f, fs'. split; [reflexivity|]. split; [exact Hd'|exact Hp'].
      + destruct (yaffs_obj_type_eqb (type oh) YAFFS_OBJECT_TYPE_SYMLINK).
        * destruct (os_call_frame (os_symlink (alias oh) obj_path) w1)
            as (o & fs' & ->).
          exists o, f1, fs'. split; [reflexivity|]. split; [reflexivity|lia].
        * exists (Raises (WrongYaffsObjType (type oh))), f1, (fs w).
          split; [reflexivity|]. split; [reflexivity|lia]. }
  destruct Hentry as (o & f & fs' & Hrun & Hd' & Hp').
  unfold bind at 1. rewrite Hrun. subst w1.
  cbn [self module_byte_order fin fs] in *.
  destruct o as [[]| | |].
  - match goal with
    | |- context [os_call ?g ?w2] =>
      destruct (os_call_frame g w2) as (o2 & fs2 & ->)
    end.
    cbn [self module_byte_order fin fs].
    exists o2, f, fs2. split; [reflexivity|]. split; [congruence|].
    intros Hsp. specialize (Hp' Hsp). lia.
  - eexists _, f, fs'. split; [reflexivity|]. split; [congruence|].
    intros Hsp. specialize (Hp' Hsp). lia.
  - eexists _, f, fs'. split; [reflexivity|]. split; [congruence|].
    intros Hsp. specialize (Hp' Hsp). lia.
  - eexists _, f, fs'. split; [reflexivity|]. split; [congruence|].
    intros Hsp. specialize (Hp' Hsp). lia.
Qed.

Lemma get_ObjHdr_length (e : byte_order) (data : bytes) (oh : ObjHdr) :
  yaffs_obj_hdr.get_ObjHdr e data = OK oh -> (512 <= length data)%nat.
Proof.
  unfold yaffs_obj_hdr.get_ObjHdr. rewrite yaffs_obj_hdr_unpack_eq.
  destruct (length data <? 4)%nat; [discriminate|].
  destruct (yaffs_obj_type_call _); [|discriminate].
  destruct (Nat.ltb_spec (length data) 512); [discriminate|]. intros _. assumption.
Qed.

(** A turn of the object loop: either nothing is registered and the loop
    does not go on, or the header of the page is registered under the id
    and the cursor has moved over the 512 bytes of a header at least, all
    of them in the stream. *)
Lemma unpack_turn_frame (fuel : nat) (outdir : path) (obj_id : Z) (w : world) :
  exists o f fs' d,
    unpack_turn fuel outdir obj_id w
    = (o, mkWorld (mk d (yaffs_version (self w)) (endianness (self w))
                     (page_size (self w)) (spare_size (self w)))
            (module_byte_order w) f fs')
    /\ io_data f = io_data (fin w)
    /\ ((d = objdict (self w) /\ o <> Returns true /\ fs' = fs w)
        \/ (exists oh,
              d = <[obj_id := oh]> (objdict (self w))
              /\ (0 <= spare_size (self w) -> io_pos (fin w) + 512 <= io_pos f)
              /\ (0 <= io_pos (fin w) ->
                  io_pos (fin w) + 512 <= Z.of_nat (length (io_data (fin w)))))).
Proof.
  unfold unpack_turn.
  unfold bind at 1. unfold get_self at 1.
  unfold bind at 1. unfold get_module_byte_order at 1.
  unfold bind at 1. unfold fin_read at 1.
  destruct (io_read_facts (page_size (self w)) (fin w)) as [Hd Hp].
  pose proof (io_read_length (page_size (self w)) (fin w)) as Hl.
  destruct (io_read (page_size (self w)) (fin w)) as [data f1].
  cbn [fst snd] in Hd, Hp, Hl.
  destruct (yaffs_obj_hdr.get_ObjHdr _ _) as [oh|ex] eqn:Hdec.
  - apply get_ObjHdr_length in Hdec.
    unfold slice_to in Hdec. change (yaffs_obj_hdr.size <? 0) with false in Hdec.
    cbn iota in Hdec. rewrite length_take in Hdec.
    destruct (unpack_object_frame fuel outdir obj_id oh
                (mkWorld (self w) (module_byte_order w) f1 (fs w)))
      as (o & f & fs' & Hrun & Hd' & Hp').
    cbn [self module_byte_order fin fs] in Hrun, Hd', Hp'.
    unfold bind at 1. rewrite Hrun.
    assert (Hgoal : forall o',
               exists o0 f0 fs0 d,
                 (o', mkWorld (mk (<[obj_id := oh]> (objdict (self w)))
                                 (yaffs_version (self w)) (endianness (self w))
                                 (page_size (self w)) (spare_size (self w)))
                        (module_byte_order w) f fs')
                 = (o0, mkWorld (mk d (yaffs_version (self w)) (endianness (self w))
                                   (page_size (self w)) (spare_size (self w)))
                          (module_byte_order w) f0 fs0)
                 /\ io_data f0 = io_data (fin w)
                 /\ ((d = objdict (self w) /\ o0 <> Returns true /\ fs0 = fs w)
                     \/ (exists oh0,
                           d = <[obj_id := oh0]> (objdict (self w))
                           /\ (0 <= spare_size (self w) ->
                               io_pos (fin w) + 512 <= io_pos f0)
                           /\ (0 <= io_pos (fin w) ->
                               io_pos (fin w) + 512
                               <= Z.of_nat (length (io_data (fin w))))))).
    { intros o'. exists o', f, fs', (<[obj_id := oh]> (objdict (self w))).
      split; [reflexivity|]. split; [congruence|]. right. exists oh.
      split; [reflexivity|]. split.
      - intros Hsp. specialize (Hp' Hsp). lia.
      - intros Hpos. specialize (Hl Hpos). lia. }
    destruct o as [[]| | |]; apply Hgoal.
  - exists (if isinstance_struct_error ex || isinstance_ValueError ex
            then Returns false else Raises ex), f1, (fs w), (objdict (self w)).
    split.
    { destruct (isinstance_struct_error ex || isinstance_ValueError ex);
        destruct w as [[] ? ? ?]; reflexivity. }
    split; [exact Hd|]. left. split; [reflexivity|]. split; [|reflexivity].
    destruct (isinstance_struct_error ex || isinstance_ValueError ex); discriminate.
Qed.

(** The object loop, whatever its outcome: the geometry, the byte order
    of the classes and the content of the stream are as before; the ids
    from [obj_id] on are registered one after the other; every other
    entry of the registry is as before; and each registered object took
    at least 512 bytes of the stream. *)
Lemma unpack_loop_frame (turns : nat) :
  forall (fuel : nat) (outdir : path) (obj_id : Z) (w : world),
  exists o f fs' d (n : nat),
    unpack_loop turns fuel outdir obj_id w
    = (o, mkWorld (mk d (yaffs_version (self w)) (endianness (self w))
                     (page_size (self w)) (spare_size (self w)))
            (module_byte_order w) f fs')
    /\ io_data f = io_data (fin w)
    /\ (n <= turns)%nat
    /\ (forall id, obj_id <= id < obj_id + Z.of_nat n -> is_Some (d !! id))
    /\ (forall id, ~ obj_id <= id < obj_id + Z.of_nat n ->
                   d !! id = objdict (self w) !! id)
    /\ (0 <= spare_size (self w) -> 0 <= io_pos (fin w) ->
        io_pos (fin w) + 512 * Z.of_nat n
        <= Z.max (io_pos (fin w)) (Z.of_nat (length (io_data (fin w))))).
Proof.
  induction turns as [|turns IH]; intros fuel outdir obj_id w.
  - exists OutOfFuel, (fin w), (fs w), (objdict (self w)), 0%nat.
    split; [destruct w as [[] ? ? ?]; reflexivity|].
    split; [reflexivity|]. split; [lia|]. split; [intros id Hid; lia|].
    split; [reflexivity|]. lia.
  - cbn [unpack_loop]. unfold bind at 1.
    destruct (unpack_turn_frame fuel outdir obj_id w)
      as (o & f & fs' & d & Hrun & Hd & Hcase).
    rewrite Hrun.
    assert (Hstop : forall o',
               o' <> Returns true ->
               d = objdict (self w) \/
               (exists oh,
                   d = <[obj_id := oh]> (objdict (self w))
                   /\ (0 <= spare_size (self w) -> io_pos (fin w) + 512 <= io_pos f)
                   /\ (0 <= io_pos (fin w) ->
                       io_pos (fin w) + 512 <= Z.of_nat (length (io_data (fin w))))) ->
               exists (n : nat),
                 (n <= S turns)%nat
                 /\ (forall id, obj_id <= id < obj_id + Z.of_nat n -> is_Some (d !! id))
                 /\ (forall id, ~ obj_id <= id < obj_id + Z.of_nat n ->
                                d !! id = objdict (self w) !! id)
                 /\ (0 <= spare_size (self w) -> 0 <= io_pos (fin w) ->
                     io_pos (fin w) + 512 * Z.of_nat n
                     <= Z.max (io_pos (fin w)) (Z.of_nat (length (io_data (fin w)))))).
    { intros o' _ [->|(oh & -> & Hp1 & Hp2)].
      - exists 0%nat. split; [lia|]. split; [intros id Hid; lia|].
        split; [reflexivity|]. lia.
      - exists 1%nat. split; [lia|]. split.
        + intros id Hid. assert (id = obj_id) as -> by lia.
          rewrite lookup_insert_eq. eexists. reflexivity.
        + split.
          * intros id Hid. apply lookup_insert_ne. lia.
          * intros Hsp Hpos. specialize (Hp2 Hpos). lia. }
    assert (Hcase' : d = objdict (self w) \/
               (exists oh,
                   d = <[obj_id := oh]> (objdict (self w))
                   /\ (0 <= spare_size (self w) -> io_pos (fin w) + 512 <= io_pos f)
                   /\ (0 <= io_pos (fin w) ->
                       io_pos (fin w) + 512 <= Z.of_nat (length (io_data (fin w)))))).
    { destruct Hcase as [(-> & _)|Hc]; [left; reflexivity|right; exact Hc]. }
    destruct o as [[|]| | |].
    + (* the loop goes on *)
      destruct Hcase as [(_ & Hne & _)|(oh & -> & Hp1 & Hp2)]; [congruence|].
      destruct (IH fuel outdir (obj_id + 1)
                  (mkWorld (mk (<[obj_id := oh]> (objdict (self w)))
                              (yaffs_version (self w)) (endianness (self w))
                              (page_size (self w)) (spare_size (self w)))
                     (module_byte_order w) f fs'))
        as (o2 & f2 & fs2 & d2 & n & Hrun2 & Hd2 & Hn & Hin & Hout & Hpos2).
      cbn [self fin fs module_byte_order objdict yaffs_version endianness
           page_size spare_size] in Hrun2, Hd2, Hin, Hout, Hpos2.
      exists o2, f2, fs2, d2, (S n). split; [exact Hrun2|].
      split; [congruence|]. split; [lia|]. split; [|split].
      * intros id Hid. destruct (Z.eq_dec id obj_id) as [->|Hne].
        -- rewrite Hout by lia. rewrite lookup_insert_eq. eexists. reflexivity.
        -- apply Hin. lia.
      * intros id Hid. rewrite Hout by lia. apply lookup_insert_ne. lia.
      * intros Hsp Hpos. specialize (Hp1 Hsp). specialize (Hp2 Hpos).
        specialize (Hpos2 Hsp ltac:(lia)). rewrite Hd in Hpos2. lia.
    + destruct (Hstop (Returns false) ltac:(discriminate) Hcase')
        as (n & Hn & Hin & Hout & Hpos).
      exists (Returns tt), f, fs', d, n. repeat split; assumption.
    + destruct (Hstop (Raises e) ltac:(discriminate) Hcase')
        as (n & Hn & Hin & Hout & Hpos).
      exists (Raises e), f, fs', d, n. repeat split; assumption.
    + destruct (Hstop OutOfFuel ltac:(discriminate) Hcase')
        as (n & Hn & Hin & Hout & Hpos).
      exists OutOfFuel, f, fs', d, n. repeat split; assumption.
    + destruct (Hstop Unmodelled ltac:(discriminate) Hcase')
        as (n & Hn & Hin & Hout & Hpos).
      exists Unmodelled, f, fs', d, n. repeat split; assumption.
Qed.

End LoopInvariants.

(** X10: the object loop, whatever its outcome (normal end, exception,
    fuel used up), leaves the geometry of the instance, the byte order of
    the classes and the content of the stream as they were, registers the
    ids from [obj_id] on one after the other with none left out, and
    leaves every other entry of the registry as it was. *)
Theorem unpack_loop_invariants (turns fuel : nat) (outdir : path) (obj_id : Z)
    (w : YAFFS_unpacker.world) (o : outcome unit) (w' : YAFFS_unpacker.world) :
  YAFFS_unpacker.unpack_loop turns fuel outdir obj_id w = (o, w') ->
  YAFFS_unpacker.yaffs_version (YAFFS_unpacker.self w')
  = YAFFS_unpacker.yaffs_version (YAFFS_unpacker.self w)
  /\ YAFFS_unpacker.endianness (YAFFS_unpacker.self w')
     = YAFFS_unpacker.endianness (YAFFS_unpacker.self w)
  /\ YAFFS_unpacker.page_size (YAFFS_unpacker.self w')
     = YAFFS_unpacker.page_size (YAFFS_unpacker.self w)
  /\ YAFFS_unpacker.spare_size (YAFFS_unpacker.self w')
     = YAFFS_unpacker.spare_size (YAFFS_unpacker.self w)
  /\ YAFFS_unpacker.module_byte_order w' = YAFFS_unpacker.module_byte_order w
  /\ io_data (YAFFS_unpacker.fin w') = io_data (YAFFS_unpacker.fin w)
  /\ exists n : nat,
      (n <= turns)%nat
      /\ (forall id, obj_id <= id < obj_id + Z.of_nat n ->
                    is_Some (YAFFS_unpacker.objdict (YAFFS_unpacker.self w') !! id))
      /\ (forall id, ~ obj_id <= id < obj_id + Z.of_nat n ->
                    YAFFS_unpacker.objdict (YAFFS_unpacker.self w') !! id
                    = YAFFS_unpacker.objdict (YAFFS_unpacker.self w) !! id).
Proof.
  intros Hrun.
  destruct (unpack_loop_frame turns fuel outdir obj_id w)
    as (o2 & f & fs' & d & n & Hrun2 & Hd & Hn & Hin & Hout & _).
  rewrite Hrun in Hrun2. injection Hrun2 as -> ->. cbn.
  repeat (split; [reflexivity|]). split; [exact Hd|].
  exists n. repeat split; assumption.
Qed.

Lemma unpack_loop_invariants_witness :
  YAFFS_unpacker.page_size
    (YAFFS_unpacker.self
       (snd (YAFFS_unpacker.unpack_loop 10 10 out 257
               (YAFFS_unpacker.mkWorld YAFFS_unpacker.__init__ LITTLE_ENDIAN
                  (mkIO image_v1 528) fs_out)))) = 512.
Proof.
  destruct (YAFFS_unpacker.unpack_loop 10 10 out 257
              (YAFFS_unpacker.mkWorld YAFFS_unpacker.__init__ LITTLE_ENDIAN
                 (mkIO image_v1 528) fs_out)) as [o w'] eqn:Hrun.
  destruct (unpack_loop_invariants _ _ _ _ _ _ _ Hrun) as (_ & _ & Hps & _).
  cbn [snd]. rewrite Hps. reflexivity.
Defined.

(** X13: a turn of the object loop after which the loop goes on has
    registered the header it read under the id and has moved the cursor
    forward by at least 512 bytes, all of which were in the stream: the
    scan cannot go round for ever on the same bytes. *)
Theorem unpack_turn_progress (fuel : nat) (outdir : path) (obj_id : Z)
    (w w' : YAFFS_unpacker.world) :
  YAFFS_unpacker.unpack_turn fuel outdir obj_id w = (Returns true, w') ->
  0 <= YAFFS_unpacker.spare_size (YAFFS_unpacker.self w) ->
  0 <= io_pos (YAFFS_unpacker.fin w) ->
  io_pos (YAFFS_unpacker.fin w) + 512 <= io_pos (YAFFS_unpacker.fin w')
  /\ io_pos (YAFFS_unpacker.fin w) + 512
     <= Z.of_nat (length (io_data (YAFFS_unpacker.fin w)))
  /\ is_Some (YAFFS_unpacker.objdict (YAFFS_unpacker.self w') !! obj_id).
Proof.
  intros Hrun Hsp Hpos.
  destruct (unpack_turn_frame fuel outdir obj_id w)
    as (o & f & fs' & d & Hrun2 & Hd & Hcase).
  rewrite Hrun in Hrun2. injection Hrun2 as <- ->. cbn.
  destruct Hcase as [(_ & Hne & _)|(oh & -> & Hp1 & Hp2)]; [congruence|].
  split; [exact (Hp1 Hsp)|]. split; [exact (Hp2 Hpos)|].
  rewrite lookup_insert_eq. eexists. reflexivity.
Qed.

(** The first turn on [image_v1]: the directory [d] is read and made. *)
Lemma unpack_turn_progress_witness :
  exists w',
    YAFFS_unpacker.unpack_turn 10 out 257
      (YAFFS_unpacker.mkWorld YAFFS_unpacker.__init__ LITTLE_ENDIAN
         (mkIO image_v1 528) fs_out) = (Returns true, w')
    /\ 528 + 512 <= io_pos (YAFFS_unpacker.fin w').
Proof.
  destruct (YAFFS_unpacker.unpack_turn 10 out 257
              (YAFFS_unpacker.mkWorld YAFFS_unpacker.__init__ LITTLE_ENDIAN
                 (mkIO image_v1 528) fs_out)) as [o w'] eqn:Hrun.
  assert (Ho : o = Returns true).
  { apply (f_equal fst) in Hrun. cbn [fst] in Hrun. rewrite <- Hrun.
    vm_compute. reflexivity. }
  subst o. exists w'. split; [reflexivity|].
  apply (unpack_turn_progress _ _ _ _ _ Hrun); vm_compute; discriminate.
Defined.

(** ** A whole run *)

(** [unpack] after the detection of the geometry. *)
Lemma unpack_unfold (fuel : nat) (imgFile : bytes) (outdir : path)
    (w : YAFFS_unpacker.world) :
  YAFFS_unpacker.unpack fuel imgFile outdir w
  = match YAFFS_unpacker._detect_param
            (YAFFS_unpacker.mkWorld (YAFFS_unpacker.self w)
               (YAFFS_unpacker.module_byte_order w) (mkIO imgFile 0)
               (YAFFS_unpacker.fs w)) with
    | (Returns _, w1) =>
      YAFFS_unpacker.unpack_loop fuel fuel outdir 257
        (YAFFS_unpacker.mkWorld (YAFFS_unpacker.self w1)
           (YAFFS_unpacker.module_byte_order w1)
           (mkIO (io_data (YAFFS_unpacker.fin w1))
              (if YAFFS_unpacker.yaffs_version (YAFFS_unpacker.self w1) =? 1
               then YAFFS_unpacker.page_size (YAFFS_unpacker.self w1)
                    + YAFFS_unpacker.spare_size (YAFFS_unpacker.self w1)
               else 0))
           (YAFFS_unpacker.fs w1))
    | (Raises e, w1) => (Raises e, w1)
    | (OutOfFuel, w1) => (OutOfFuel, w1)
    | (Unmodelled, w1) => (Unmodelled, w1)
    end.
Proof.
  unfold YAFFS_unpacker.unpack.
  unfold YAFFS_unpacker.bind at 1. unfold YAFFS_unpacker.fin_open at 1.
  unfold YAFFS_unpacker.bind at 1.
  destruct (YAFFS_unpacker._detect_param _) as [[[]| | |] w1]; try reflexivity.
  unfold YAFFS_unpacker.bind at 1. unfold YAFFS_unpacker.get_self at 1.
  unfold YAFFS_unpacker.bind at 1.
  destruct (YAFFS_unpacker.yaffs_version (YAFFS_unpacker.self w1) =? 1);
    reflexivity.
Qed.

(** X16: once the geometry is detected, the scan starts with id 257; in
    a version-1 image at byte 528, after the one unit of 512 + 16 bytes
    that holds the placeholder, and in a version-2 image at byte 0. *)
Theorem unpack_start (fuel : nat) (imgFile : bytes) (outdir : path)
    (w w1 : YAFFS_unpacker.world) :
  YAFFS_unpacker._detect_param
    (YAFFS_unpacker.mkWorld (YAFFS_unpacker.self w)
       (YAFFS_unpacker.module_byte_order w) (mkIO imgFile 0) (YAFFS_unpacker.fs w))
  = (Returns tt, w1) ->
  YAFFS_unpacker.unpack fuel imgFile outdir w
  = YAFFS_unpacker.unpack_loop fuel fuel outdir 257
      (YAFFS_unpacker.mkWorld (YAFFS_unpacker.self w1)
         (YAFFS_unpacker.module_byte_order w1)
         (mkIO imgFile
            (if YAFFS_unpacker.yaffs_version (YAFFS_unpacker.self w1) =? 1
             then 528 else 0))
         (YAFFS_unpacker.fs w)).
Proof.
  intros Hdet. rewrite unpack_unfold, Hdet.
  destruct (detect_param_outcome
              (YAFFS_unpacker.mkWorld (YAFFS_unpacker.self w)
                 (YAFFS_unpacker.module_byte_order w) (mkIO imgFile 0)
                 (YAFFS_unpacker.fs w))) as (f & Hf & Hout).
  rewrite Hdet in Hout. cbn [YAFFS_unpacker.fin YAFFS_unpacker.self
    YAFFS_unpacker.fs YAFFS_unpacker.module_byte_order io_data] in Hout, Hf.
  destruct (yaffs_magic_header.unpack _ _) as [ymh|]; [|discriminate].
  destruct (detect_endianness ymh) as [e|]; [|discriminate].
  destruct (yaffs_obj_hdr.get_ObjHdr e _) as [oh|]; [|discriminate].
  destruct (str_eqb (name oh) [] && str_eqb (alias oh) []).
  - injection Hout as ->. cbn. rewrite Hf. reflexivity.
  - destruct (find _ _) as [c|]; [|discriminate].
    injection Hout as ->. cbn. rewrite Hf. reflexivity.
Qed.

Lemma unpack_start_witness :
  YAFFS_unpacker.unpack 10 image_v1 out (YAFFS_unpacker.fresh fs_out)
  = YAFFS_unpacker.unpack_loop 10 10 out 257
      (YAFFS_unpacker.mkWorld (YAFFS_unpacker.mk ∅ 1 LITTLE_ENDIAN 512 16)
         LITTLE_ENDIAN (mkIO image_v1 528) fs_out).
Proof.
  exact (unpack_start 10 image_v1 out (YAFFS_unpacker.fresh fs_out)
           (YAFFS_unpacker.mkWorld (YAFFS_unpacker.mk ∅ 1 LITTLE_ENDIAN 512 16)
              LITTLE_ENDIAN (mkIO image_v1 512) fs_out)
           ltac:(vm_compute; reflexivity)).
Defined.

(** X11: a run of [unpack] that starts with an empty registry, whatever
    its outcome, leaves registered exactly the ids 257, 258, ... up to
    some id, with none left out, and no more of them than the stream has
    blocks of 512 bytes. *)
Theorem unpack_registers_from_257 (fuel : nat) (imgFile : bytes) (outdir : path)
    (w : YAFFS_unpacker.world) (o : outcome unit) (w' : YAFFS_unpacker.world) :
  YAFFS_unpacker.objdict (YAFFS_unpacker.self w) = ∅ ->
  YAFFS_unpacker.unpack fuel imgFile outdir w = (o, w') ->
  exists n : nat,
    (forall id, is_Some (YAFFS_unpacker.objdict (YAFFS_unpacker.self w') !! id)
                <-> 257 <= id < 257 + Z.of_nat n)
    /\ 512 * Z.of_nat n <= Z.of_nat (length imgFile).
Proof.
  intros Hempty Hrun. rewrite unpack_unfold in Hrun.
  destruct (detect_param_outcome
              (YAFFS_unpacker.mkWorld (YAFFS_unpacker.self w)
                 (YAFFS_unpacker.module_byte_order w) (mkIO imgFile 0)
                 (YAFFS_unpacker.fs w))) as (f & Hf & Hout).
  cbn [YAFFS_unpacker.fin YAFFS_unpacker.self YAFFS_unpacker.fs
       YAFFS_unpacker.module_byte_order io_data] in Hout, Hf.
  rewrite Hout in Hrun. clear Hout.
  assert (Hnone : forall d, d = YAFFS_unpacker.objdict (YAFFS_unpacker.self w) ->
            exists n : nat,
              (forall id, is_Some (d !! id) <-> 257 <= id < 257 + Z.of_nat n)
              /\ 512 * Z.of_nat n <= Z.of_nat (length imgFile)).
  { intros d ->. exists 0%nat. split; [|lia]. intros id. rewrite Hempty.
    rewrite lookup_empty. split; [intros [? [=]]|lia]. }
  assert (Hloop : forall v e ps sp pos,
            0 <= sp -> 0 <= pos ->
            YAFFS_unpacker.unpack_loop fuel fuel outdir 257
              (YAFFS_unpacker.mkWorld
                 (YAFFS_unpacker.mk (YAFFS_unpacker.objdict (YAFFS_unpacker.self w))
                    v e ps sp) e (mkIO (io_data f) pos) (YAFFS_unpacker.fs w))
            = (o, w') ->
            exists n : nat,
              (forall id, is_Some (YAFFS_unpacker.objdict (YAFFS_unpacker.self w') !! id)
                          <-> 257 <= id < 257 + Z.of_nat n)
              /\ 512 * Z.of_nat n <= Z.of_nat (length imgFile)).
  { intros v e ps sp pos Hsp Hpos Hl.
    destruct (unpack_loop_frame fuel fuel outdir 257
                (YAFFS_unpacker.mkWorld
                   (YAFFS_unpacker.mk (YAFFS_unpacker.objdict (YAFFS_unpacker.self w))
                      v e ps sp) e (mkIO (io_data f) pos) (YAFFS_unpacker.fs w)))
      as (o2 & f2 & fs2 & d & n & Hrun2 & _ & _ & Hin & Hother & Hbound).
    rewrite Hl in Hrun2. injection Hrun2 as -> ->.
    cbn [YAFFS_unpacker.fin YAFFS_unpacker.self YAFFS_unpacker.fs
         YAFFS_unpacker.module_byte_order YAFFS_unpacker.objdict
         YAFFS_unpacker.spare_size io_data io_pos] in *.
    exists n. split.
    - intros id. split.
      + intros Hsome. destruct (Z_le_dec 257 id) as [Hge|Hlt].
        * destruct (Z_lt_dec id (257 + Z.of_nat n)) as [Hin'|Hout']; [lia|].
          rewrite Hother, Hempty, lookup_empty in Hsome by lia.
          destruct Hsome as [? [=]].
        * rewrite Hother, Hempty, lookup_empty in Hsome by lia.
          destruct Hsome as [? [=]].
      + apply Hin.
    - specialize (Hbound Hsp Hpos). rewrite Hf in Hbound. lia. }
  destruct (yaffs_magic_header.unpack _ _) as [ymh|].
  2: { injection Hrun as <- <-. apply Hnone. reflexivity. }
  destruct (detect_endianness ymh) as [e|].
  2: { injection Hrun as <- <-. apply Hnone. reflexivity. }
  destruct (yaffs_obj_hdr.get_ObjHdr e _) as [oh|].
  2: { injection Hrun as <- <-. apply Hnone. reflexivity. }
  destruct (str_eqb (name oh) [] && str_eqb (alias oh) []).
  - cbn in Hrun. refine (Hloop _ _ _ _ _ _ _ Hrun); lia.
  - destruct (find_allowed_page_size imgFile) as (c & Hc & Hin).
    rewrite Hc in Hrun. cbn in Hrun.
    assert (0 <= c / 32).
    { unfold YAFFS_unpacker.allowed_page_size in Hin.
      rewrite !elem_of_cons, elem_of_nil in Hin.
      apply Z.div_pos; lia. }
    refine (Hloop _ _ _ _ _ _ _ Hrun); lia.
Qed.

Lemma unpack_registers_from_257_witness :
  exists n : nat,
    (forall id,
        is_Some (YAFFS_unpacker.objdict
                   (YAFFS_unpacker.self
                      (snd (YAFFS_unpacker.unpack 10 image_v1 out
                              (YAFFS_unpacker.fresh fs_out)))) !! id)
        <-> 257 <= id < 257 + Z.of_nat n)
    /\ 512 * Z.of_nat n <= Z.of_nat (length image_v1).
Proof.
  exact (unpack_registers_from_257 10 image_v1 out (YAFFS_unpacker.fresh fs_out)
           _ _ eq_refl (surjective_pairing _)).
Defined.

(** ** Objects the unpacker does not make *)

(** X12: a page that decodes to a header of type Unknown, Hardlink or
    Special, and whose path resolves, aborts the run with
    [WrongYaffsObjType] carrying that type; the object has been
    registered by then, and nothing has been written. *)
Theorem unpack_loop_unsupported_type (turns fuel : nat) (outdir : path) (obj_id : Z)
    (w : YAFFS_unpacker.world) (oh : ObjHdr) (names : list str) :
  yaffs_obj_hdr.get_ObjHdr (YAFFS_unpacker.module_byte_order w)
    (slice_to (fst (io_read (YAFFS_unpacker.page_size (YAFFS_unpacker.self w))
                      (YAFFS_unpacker.fin w)))
       yaffs_obj_hdr.size) = OK oh ->
  type oh = YAFFS_OBJECT_TYPE_UNKNOWN \/ type oh = YAFFS_OBJECT_TYPE_HARDLINK
  \/ type oh = YAFFS_OBJECT_TYPE_SPECIAL ->
  YAFFS_unpacker._unwind_parent_name fuel
    (<[obj_id := oh]> (YAFFS_unpacker.objdict (YAFFS_unpacker.self w))) obj_id
  = Some names ->
  exists w',
    YAFFS_unpacker.unpack_loop (S turns) fuel outdir obj_id w
    = (Raises (WrongYaffsObjType (type oh)), w')
    /\ YAFFS_unpacker.fs w' = YAFFS_unpacker.fs w
    /\ YAFFS_unpacker.objdict (YAFFS_unpacker.self w') !! obj_id = Some oh.
Proof.
  intros Hdec Hty Hnames.
  cbn [YAFFS_unpacker.unpack_loop]. unfold YAFFS_unpacker.bind at 1.
  rewrite (unpack_turn_decoded _ _ _ _ _ Hdec).
  unfold YAFFS_unpacker.bind at 1. unfold YAFFS_unpacker.unpack_object.
  unfold YAFFS_unpacker.bind at 1. unfold YAFFS_unpacker.get_self at 1.
  unfold YAFFS_unpacker.bind at 1. unfold YAFFS_unpacker.fin_read at 1.
  cbn [YAFFS_unpacker.self YAFFS_unpacker.module_byte_order YAFFS_unpacker.fin
       YAFFS_unpacker.fs].
  destruct (io_read (YAFFS_unpacker.spare_size (YAFFS_unpacker.self w)) _)
    as [spare f].
  unfold YAFFS_unpacker.bind at 1.
  unfold YAFFS_unpacker.set_objdict at 1, YAFFS_unpacker.update_self.
  cbn [YAFFS_unpacker.self YAFFS_unpacker.module_byte_order YAFFS_unpacker.fin
       YAFFS_unpacker.fs YAFFS_unpacker.objdict].
  unfold YAFFS_unpacker.bind at 1. unfold YAFFS_unpacker.get_self at 1.
  cbn [YAFFS_unpacker.self YAFFS_unpacker.module_byte_order YAFFS_unpacker.fin
       YAFFS_unpacker.fs YAFFS_unpacker.objdict].
  rewrite Hnames. cbv zeta.
  unfold YAFFS_unpacker.bind at 1.
  assert (Hbranch :
            yaffs_obj_type_eqb (type oh) YAFFS_OBJECT_TYPE_DIRECTORY = false
            /\ yaffs_obj_type_eqb (type oh) YAFFS_OBJECT_TYPE_FILE = false
            /\ yaffs_obj_type_eqb (type oh) YAFFS_OBJECT_TYPE_SYMLINK = false).
  { destruct Hty as [->|[->| ->]]; repeat split. }
  destruct Hbranch as (-> & -> & ->).
  unfold YAFFS_unpacker.raise.
  eexists. split; [reflexivity|]. cbn. split; [reflexivity|].
  apply lookup_insert_eq.
Qed.

(** The header of a hard link [h] under the root, where the scan of a
    version-1 image starts. *)
Lemma unpack_loop_unsupported_type_witness :
  fst (YAFFS_unpacker.unpack_loop 3 3 out 257
         (YAFFS_unpacker.mkWorld YAFFS_unpacker.__init__ LITTLE_ENDIAN
            (mkIO image_hardlink 528) fs_out))
  = Raises (WrongYaffsObjType YAFFS_OBJECT_TYPE_HARDLINK).
Proof.
  destruct (unpack_loop_unsupported_type 2 3 out 257
              (YAFFS_unpacker.mkWorld YAFFS_unpacker.__init__ LITTLE_ENDIAN
                 (mkIO image_hardlink 528) fs_out)
              hardlink_h [[104]])
    as (w' & Hrun & _).
  - vm_compute. reflexivity.
  - right. left. reflexivity.
  - vm_compute. reflexivity.
  - rewrite Hrun. reflexivity.
Defined.

(** ** The content of a file, on any stream *)

Section Payload.

Import YAFFS_unpacker.

Lemma page_at_next (data : bytes) (pos ps sp : Z) (i : nat) :
  0 <= pos -> 0 <= ps + sp ->
  page_at data pos ps sp (S i) = page_at data (pos + ps + sp) ps sp i.
Proof.
  intros Hpos Hu. unfold page_at. do 2 f_equal. lia.
Qed.

Lemma page_at_beyond (data : bytes) (pos ps sp : Z) (i : nat) :
  0 <= ps + sp -> Z.of_nat (length data) <= pos ->
  page_at data pos ps sp i = [].
Proof.
  intros Hu Hpos. unfold page_at. rewrite drop_ge by nia. apply take_nil.
Qed.

Lemma payload_step (data : bytes) (pos ps sp : Z) (m : nat) (last : Z) :
  0 <= pos -> 0 <= ps + sp ->
  payload data pos ps sp (S (S m)) last
  = page_at data pos ps sp 0 ++ payload data (pos + ps + sp) ps sp (S m) last.
Proof.
  intros Hpos Hu. unfold payload.
  rewrite <- cons_seq. cbn [map concat]. rewrite <- seq_shift, map_map.
  rewrite <- app_assoc. do 2 f_equal.
  - f_equal. apply map_ext. intros i. apply page_at_next; assumption.
  - f_equal. apply page_at_next; assumption.
Qed.

Lemma payload_beyond (data : bytes) (pos ps sp : Z) (n : nat) (last : Z) :
  0 <= ps + sp -> Z.of_nat (length data) <= pos ->
  payload data pos ps sp n last = [].
Proof.
  intros Hu Hpos. destruct n as [|m]; [reflexivity|]. unfold payload.
  rewrite page_at_beyond by assumption. rewrite take_nil, app_nil_r.
  induction (seq 0 m) as [|i l IH]; [reflexivity|].
  cbn [map concat]. rewrite page_at_beyond by assumption. exact IH.
Qed.

Lemma io_read_eq (n : Z) (f : BinaryIO) :
  0 <= n ->
  io_read n f
  = (take (Z.to_nat n) (drop (Z.to_nat (io_pos f)) (io_data f)),
     mkIO (io_data f)
       (io_pos f
        + Z.of_nat (length (take (Z.to_nat n) (drop (Z.to_nat (io_pos f)) (io_data f)))))).
Proof.
  intros Hn. unfold io_read. assert ((n <? 0) = false) as -> by lia. reflexivity.
Qed.

(** The page loop writes the payload, whether the stream holds all of it
    or stops short. *)
Lemma unpack_pages_payload (todo : nat) :
  forall (i_page num_pages : Z) (oh : ObjHdr) (p : path) (w : world)
         (c : bytes) (tm : option (Z * Z)),
    0 < page_size (self w) -> 0 <= spare_size (self w) -> 0 <= io_pos (fin w) ->
    i_page + Z.of_nat todo = num_pages ->
    fs w !! p = Some (mkInode (RegularFile c) tm) ->
    exists f,
      unpack_pages todo i_page num_pages oh p w
      = (Returns tt,
         mkWorld (self w) (module_byte_order w) f
           (<[p := mkInode
                     (RegularFile
                        (c ++ payload (io_data (fin w)) (io_pos (fin w))
                                (page_size (self w)) (spare_size (self w)) todo
                                (file_size oh mod page_size (self w)))) tm]> (fs w))).
Proof.
  induction todo as [|todo IH];
    intros i_page num_pages oh p w c tm Hps Hsp Hpos Hturn Hp.
  - exists (fin w). cbn [unpack_pages payload]. unfold ret. rewrite app_nil_r.
    rewrite insert_id by exact Hp. destruct w; reflexivity.
  - cbn [unpack_pages].
    unfold bind at 1. unfold get_self at 1.
    unfold bind at 1. unfold fin_read at 1.
    rewrite io_read_eq by lia.
    set (page := take (Z.to_nat (page_size (self w)))
                   (drop (Z.to_nat (io_pos (fin w))) (io_data (fin w)))).
    assert (Hpage : page = page_at (io_data (fin w)) (io_pos (fin w))
                             (page_size (self w)) (spare_size (self w)) 0).
    { unfold page_at. subst page. do 2 f_equal. lia. }
    set (chunk := if i_page <? num_pages - 1 then page
                  else slice_to page (file_size oh mod page_size (self w))).
    pose (w1 := mkWorld (self w) (module_byte_order w)
                  (mkIO (io_data (fin w))
                     (io_pos (fin w) + Z.of_nat (length page) + spare_size (self w)))
                  (file_write p chunk (fs w))).
    destruct (IH (i_page + 1) num_pages oh p w1 (c ++ chunk) tm) as (f & Hrun);
      subst w1; cbn [self fin fs io_pos io_data];
      [assumption|assumption|lia|lia|apply file_write_content, Hp|].
    cbn [self fin fs io_pos io_data module_byte_order] in Hrun.
    exists f.
    assert (Hrun' : (do _ := (if i_page <? num_pages - 1 then fout_write p page
                              else fout_write p
                                     (slice_to page
                                        (file_size oh mod page_size (self w)))) in
                     do _ := fin_seek_cur (spare_size (self w)) in
                     unpack_pages todo (i_page + 1) num_pages oh p)
                      (mkWorld (self w) (module_byte_order w)
                         (mkIO (io_data (fin w))
                            (io_pos (fin w) + Z.of_nat (length page)))
                         (fs w))
                    = unpack_pages todo (i_page + 1) num_pages oh p
                        (mkWorld (self w) (module_byte_order w)
                           (mkIO (io_data (fin w))
                              (io_pos (fin w) + Z.of_nat (length page)
                               + spare_size (self w)))
                           (file_write p chunk (fs w)))).
    { unfold bind, fout_write, fin_seek_cur, io_seek_cur. subst chunk.
      destruct (i_page <? num_pages - 1);
        cbn [self fin fs io_pos io_data module_byte_order]; reflexivity. }
    assert (Hfw : file_write p chunk (fs w)
                  = <[p := mkInode (RegularFile (c ++ chunk)) tm]> (fs w)).
    { unfold file_write. rewrite Hp. reflexivity. }
    assert (Hcontent :
              chunk ++ payload (io_data (fin w))
                         (io_pos (fin w) + Z.of_nat (length page) + spare_size (self w))
                         (page_size (self w)) (spare_size (self w)) todo
                         (file_size oh mod page_size (self w))
              = payload (io_data (fin w)) (io_pos (fin w)) (page_size (self w))
                  (spare_size (self w)) (S todo)
                  (file_size oh mod page_size (self w))).
    { pose proof (Z.mod_pos_bound (file_size oh) (page_size (self w)) Hps) as Hmod.
      assert (Hlenpage : (length page <= Z.to_nat (page_size (self w)))%nat)
        by (subst page; rewrite length_take; lia).
      destruct todo as [|todo].
      - (* the last page *)
        assert ((i_page <? num_pages - 1) = false) as E by lia.
        subst chunk. rewrite E. cbn [payload seq map concat]. rewrite app_nil_r.
        rewrite <- Hpage. unfold slice_to.
        assert ((file_size oh mod page_size (self w) <? 0) = false) as -> by lia.
        reflexivity.
      - assert ((i_page <? num_pages - 1) = true) as E by lia.
        subst chunk. rewrite E.
        rewrite (payload_step _ _ _ _ todo) by lia. rewrite <- Hpage. f_equal.
        destruct (Nat.eq_dec (length page) (Z.to_nat (page_size (self w))))
          as [Hfull|Hshort].
        + do 2 f_equal. lia.
        + (* the stream stops in this page: nothing is left after it *)
          assert (Hend : Z.of_nat (length (io_data (fin w)))
                         <= io_pos (fin w) + Z.of_nat (length page)).
          { subst page. rewrite length_take, length_drop in Hshort |- *. lia. }
          rewrite !payload_beyond by lia. reflexivity. }
    rewrite Hrun', Hrun, Hfw, insert_insert_eq, <- app_assoc, Hcontent.
    reflexivity.
Qed.

End Payload.

Lemma payload_length (data : bytes) (pos ps sp : Z) (n : nat) (last : Z) :
  0 <= ps -> 0 <= last ->
  Z.of_nat (length (payload data pos ps sp n last))
  <= match n with
     | O => 0
     | S m => Z.of_nat m * ps + last
     end.
Proof.
  intros Hps Hlast. destruct n as [|m]; [simpl; lia|]. unfold payload.
  rewrite length_app, Nat2Z.inj_add.
  assert (Hpages : forall l,
             Z.of_nat (length (concat (map (page_at data pos ps sp) l)))
             <= Z.of_nat (length l) * ps).
  { induction l as [|i l IH]; [simpl; lia|].
    cbn [map concat length]. rewrite length_app.
    assert (Z.of_nat (length (page_at data pos ps sp i)) <= ps)
      by (unfold page_at; rewrite length_take; lia).
    lia. }
  specialize (Hpages (seq 0 m)). rewrite length_seq in Hpages.
  assert (Z.of_nat (length (take (Z.to_nat last) (page_at data pos ps sp m))) <= last)
    by (rewrite length_take; lia).
  lia.
Qed.

(** The File branch on any stream, once the file is opened. *)
Lemma unpack_file_payload (oh : ObjHdr) (p : path) (w : YAFFS_unpacker.world)
    (fs1 : gmap path inode) :
  0 < YAFFS_unpacker.page_size (YAFFS_unpacker.self w) ->
  0 <= YAFFS_unpacker.spare_size (YAFFS_unpacker.self w) ->
  0 <= io_pos (YAFFS_unpacker.fin w) ->
  open_wb p (YAFFS_unpacker.fs w) = Returns fs1 ->
  exists w',
    YAFFS_unpacker.unpack_file oh p w = (Returns tt, w')
    /\ YAFFS_unpacker.self w' = YAFFS_unpacker.self w
    /\ file_content p (YAFFS_unpacker.fs w')
       = Some (payload (io_data (YAFFS_unpacker.fin w)) (io_pos (YAFFS_unpacker.fin w))
                 (YAFFS_unpacker.page_size (YAFFS_unpacker.self w))
                 (YAFFS_unpacker.spare_size (YAFFS_unpacker.self w))
                 (Z.to_nat ((file_size oh
                             + YAFFS_unpacker.page_size (YAFFS_unpacker.self w) - 1)
                            / YAFFS_unpacker.page_size (YAFFS_unpacker.self w)))
                 (file_size oh mod YAFFS_unpacker.page_size (YAFFS_unpacker.self w)))
    /\ forall q, q <> p -> YAFFS_unpacker.fs w' !! q = fs1 !! q.
Proof.
  intros Hps Hsp Hpos Hopen.
  destruct (open_wb_Returns _ _ _ Hopen) as (tm & Hp).
  set (num_pages := (file_size oh + YAFFS_unpacker.page_size (YAFFS_unpacker.self w) - 1)
                    / YAFFS_unpacker.page_size (YAFFS_unpacker.self w)).
  destruct (unpack_pages_payload (Z.to_nat num_pages) 0
              (Z.max 0 num_pages) oh p
              (YAFFS_unpacker.mkWorld (YAFFS_unpacker.self w)
                 (YAFFS_unpacker.module_byte_order w) (YAFFS_unpacker.fin w) fs1)
              [] tm) as (f & Hrun);
    cbn [YAFFS_unpacker.self YAFFS_unpacker.fin YAFFS_unpacker.fs];
    [assumption|assumption|assumption|lia|exact Hp|].
  cbn [YAFFS_unpacker.self YAFFS_unpacker.fin YAFFS_unpacker.fs
       YAFFS_unpacker.module_byte_order app] in Hrun.
  assert (Hsame : forall todo i a b (w0 : YAFFS_unpacker.world),
             (i + Z.of_nat todo = a \/ (todo = 0%nat)) ->
             (i + Z.of_nat todo = b \/ (todo = 0%nat)) ->
             YAFFS_unpacker.unpack_pages todo i a oh p w0
             = YAFFS_unpacker.unpack_pages todo i b oh p w0).
  { induction todo as [|todo IHt]; intros i a b w0 Ha Hb; [reflexivity|].
    destruct Ha as [Ha|Ha]; [|discriminate]. destruct Hb as [Hb|Hb]; [|discriminate].
    assert (a = b) as -> by lia. reflexivity. }
  eexists. split.
  { unfold YAFFS_unpacker.unpack_file.
    unfold YAFFS_unpacker.bind at 1. unfold YAFFS_unpacker.get_self at 1.
    unfold YAFFS_unpacker.bind at 1. unfold YAFFS_unpacker.os_call at 1.
    rewrite Hopen. fold num_pages.
    rewrite (Hsame _ _ num_pages (Z.max 0 num_pages)); [exact Hrun| |];
      destruct (Z_le_dec 0 num_pages); (left; lia) || (right; lia). }
  cbn [YAFFS_unpacker.self YAFFS_unpacker.fs]. split; [reflexivity|]. split.
  - unfold file_content. rewrite lookup_insert_eq. reflexivity.
  - intros q Hq. apply lookup_insert_ne. congruence.
Qed.

(** Opening [/out/f] for writing in the empty output directory. *)
Lemma open_wb_out_f :
  open_wb [[111; 117; 116]; [102]] fs_out
  = Returns (<[[[111; 117; 116]; [102]] := mkInode (RegularFile []) None]> fs_out).
Proof.
  vm_compute. reflexivity.
Qed.

(** X14: the content of a file is the payload of the stream: once the
    file is opened, [ceil(file_size / page_size)] pages are taken one unit
    of [page_size + spare_size] bytes apart from the cursor on, all but
    the last in full and the last up to [file_size mod page_size] bytes;
    on a stream that stops short the file gets what is there.  No other
    entry of the file system is touched. *)
Theorem unpack_file_content (oh : ObjHdr) (p : path) (w : YAFFS_unpacker.world)
    (fs1 : gmap path inode) :
  0 < YAFFS_unpacker.page_size (YAFFS_unpacker.self w) ->
  0 <= YAFFS_unpacker.spare_size (YAFFS_unpacker.self w) ->
  0 <= io_pos (YAFFS_unpacker.fin w) ->
  open_wb p (YAFFS_unpacker.fs w) = Returns fs1 ->
  exists w',
    YAFFS_unpacker.unpack_file oh p w = (Returns tt, w')
    /\ file_content p (YAFFS_unpacker.fs w')
       = Some (payload (io_data (YAFFS_unpacker.fin w)) (io_pos (YAFFS_unpacker.fin w))
                 (YAFFS_unpacker.page_size (YAFFS_unpacker.self w))
                 (YAFFS_unpacker.spare_size (YAFFS_unpacker.self w))
                 (Z.to_nat ((file_size oh
                             + YAFFS_unpacker.page_size (YAFFS_unpacker.self w) - 1)
                            / YAFFS_unpacker.page_size (YAFFS_unpacker.self w)))
                 (file_size oh mod YAFFS_unpacker.page_size (YAFFS_unpacker.self w)))
    /\ forall q, q <> p -> YAFFS_unpacker.fs w' !! q = fs1 !! q.
Proof.
  intros Hps Hsp Hpos Hopen.
  destruct (unpack_file_payload oh p w fs1 Hps Hsp Hpos Hopen)
    as (w' & Hrun & _ & Hc & Hother).
  exists w'. repeat split; assumption.
Qed.

(** A file of 100 bytes whose page of content holds 512 bytes [A]: the
    file gets the first 100. *)
Lemma unpack_file_content_witness :
  exists w',
    YAFFS_unpacker.unpack_file file_in_d [[111; 117; 116]; [102]] world_before_content
    = (Returns tt, w')
    /\ file_content [[111; 117; 116]; [102]] (YAFFS_unpacker.fs w')
       = Some (repeat Byte.x41 100).
Proof.
  destruct (unpack_file_content file_in_d [[111; 117; 116]; [102]]
              world_before_content _
              ltac:(vm_compute; reflexivity) ltac:(vm_compute; discriminate)
              ltac:(vm_compute; discriminate) open_wb_out_f) as (w' & Hrun & Hc & _).
  exists w'. split; [exact Hrun|]. rewrite Hc. vm_compute. reflexivity.
Defined.

(** X15: whatever the stream holds, once the file is opened the File
    branch returns and the file never gets more than [file_size] bytes. *)
Theorem unpack_file_never_longer (oh : ObjHdr) (p : path) (w : YAFFS_unpacker.world)
    (fs1 : gmap path inode) :
  0 < YAFFS_unpacker.page_size (YAFFS_unpacker.self w) ->
  0 <= YAFFS_unpacker.spare_size (YAFFS_unpacker.self w) ->
  0 <= io_pos (YAFFS_unpacker.fin w) ->
  0 <= file_size oh ->
  open_wb p (YAFFS_unpacker.fs w) = Returns fs1 ->
  exists w' content,
    YAFFS_unpacker.unpack_file oh p w = (Returns tt, w')
    /\ file_content p (YAFFS_unpacker.fs w') = Some content
    /\ Z.of_nat (length content) <= file_size oh.
Proof.
  intros Hps Hsp Hpos Hsize Hopen.
  destruct (unpack_file_payload oh p w fs1 Hps Hsp Hpos Hopen)
    as (w' & Hrun & _ & Hc & _).
  eexists w', _. split; [exact Hrun|]. split; [exact Hc|].
  set (ps := YAFFS_unpacker.page_size (YAFFS_unpacker.self w)) in *.
  pose proof (Z.mod_pos_bound (file_size oh) ps Hps) as Hmod.
  pose proof (payload_length (io_data (YAFFS_unpacker.fin w))
                (io_pos (YAFFS_unpacker.fin w)) ps
                (YAFFS_unpacker.spare_size (YAFFS_unpacker.self w))
                (Z.to_nat ((file_size oh + ps - 1) / ps)) (file_size oh mod ps)
                ltac:(lia) ltac:(lia)) as Hlen.
  destruct (Z.to_nat ((file_size oh + ps - 1) / ps)) as [|m] eqn:E; [lia|].
  pose proof (Z.div_mod (file_size oh) ps ltac:(lia)) as Hdm.
  assert (Hup : (file_size oh + ps - 1) / ps < file_size oh / ps + 2).
  { apply Z.div_lt_upper_bound; [lia|]. nia. }
  assert (Z.of_nat m <= file_size oh / ps) by lia.
  nia.
Qed.

(** A file of 100 bytes on a stream that stops after 50. *)
Lemma unpack_file_never_longer_witness :
  exists w' content,
    YAFFS_unpacker.unpack_file file_in_d [[111; 117; 116]; [102]] world_truncated
    = (Returns tt, w')
    /\ file_content [[111; 117; 116]; [102]] (YAFFS_unpacker.fs w') = Some content
    /\ Z.of_nat (length content) <= 100.
Proof.
  exact (unpack_file_never_longer file_in_d [[111; 117; 116]; [102]]
           world_truncated _
           ltac:(vm_compute; reflexivity) ltac:(vm_compute; discriminate)
           ltac:(vm_compute; discriminate) ltac:(vm_compute; discriminate) open_wb_out_f).
Defined.

(** X17: when the stream holds all the pages of a file whose size is 0
    or not a multiple of the page size, the file gets exactly
    [file_size] bytes. *)
Theorem unpack_file_writes_file_size (oh : ObjHdr) (p : path)
    (w : YAFFS_unpacker.world) (fs1 : gmap path inode) :
  0 < YAFFS_unpacker.page_size (YAFFS_unpacker.self w) ->
  0 <= YAFFS_unpacker.spare_size (YAFFS_unpacker.self w) ->
  0 <= io_pos (YAFFS_unpacker.fin w) ->
  0 <= file_size oh ->
  file_size oh = 0
  \/ file_size oh mod YAFFS_unpacker.page_size (YAFFS_unpacker.self w) <> 0 ->
  open_wb p (YAFFS_unpacker.fs w) = Returns fs1 ->
  io_pos (YAFFS_unpacker.fin w)
  + (file_size oh + YAFFS_unpacker.page_size (YAFFS_unpacker.self w) - 1)
    / YAFFS_unpacker.page_size (YAFFS_unpacker.self w)
    * (YAFFS_unpacker.page_size (YAFFS_unpacker.self w)
       + YAFFS_unpacker.spare_size (YAFFS_unpacker.self w))
  <= Z.of_nat (length (io_data (YAFFS_unpacker.fin w))) ->
  exists w' content,
    YAFFS_unpacker.unpack_file oh p w = (Returns tt, w')
    /\ file_content p (YAFFS_unpacker.fs w') = Some content
    /\ Z.of_nat (length content) = file_size oh.
Proof.
  intros Hps Hsp Hpos Hsize Hcase Hopen Hlen.
  destruct (unpack_file_run oh p w fs1 Hps Hsp Hpos Hsize Hopen Hlen)
    as (w' & content & Hrun & _ & _ & Hc & Hl).
  exists w', content. split; [exact Hrun|]. split; [exact Hc|]. rewrite Hl.
  set (ps := YAFFS_unpacker.page_size (YAFFS_unpacker.self w)) in *.
  pose proof (Z.div_mod (file_size oh) ps ltac:(lia)) as Hdm.
  pose proof (Z.mod_pos_bound (file_size oh) ps Hps) as Hb.
  destruct Hcase as [H0|Hrem].
  - rewrite H0. rewrite (Z.div_small (0 + ps - 1) ps) by lia. reflexivity.
  - assert (Hnum : (file_size oh + ps - 1) / ps = file_size oh / ps + 1).
    { symmetry. apply (Z.div_unique _ _ _ (file_size oh mod ps - 1)); lia. }
    rewrite Hnum.
    pose proof (Z.div_pos (file_size oh) ps Hsize Hps).
    assert ((file_size oh / ps + 1 =? 0) = false) as -> by lia. lia.
Qed.

Lemma unpack_file_writes_file_size_witness :
  exists w' content,
    YAFFS_unpacker.unpack_file file_in_d [[111; 117; 116]; [102]] world_before_content
    = (Returns tt, w')
    /\ file_content [[111; 117; 116]; [102]] (YAFFS_unpacker.fs w') = Some content
    /\ Z.of_nat (length content) = 100.
Proof.
  exact (unpack_file_writes_file_size file_in_d [[111; 117; 116]; [102]]
           world_before_content _
           ltac:(vm_compute; reflexivity) ltac:(vm_compute; discriminate)
           ltac:(vm_compute; discriminate) ltac:(vm_compute; discriminate)
           ltac:(right; vm_compute; discriminate) open_wb_out_f
           ltac:(vm_compute; discriminate)).
Defined.

(** ** What a materialized object leaves on disk *)

Section Materialized.

Import YAFFS_unpacker.





End Materialized.



(** ** Decoded strings *)

Lemma land_low_bits (a k : Z) : 0 <= k -> Z.land a (2 ^ k - 1) = a mod 2 ^ k.
Proof.
  intros Hk. rewrite <- Z.land_ones by exact Hk. f_equal.
  rewrite Z.ones_equiv. lia.
Qed.

Lemma lor_shiftl_nonzero (a b n : Z) :
  0 <= n -> a <> 0 \/ b <> 0 -> Z.lor (Z.shiftl a n) b <> 0.
Proof.
  intros Hn Hab H. apply Z.lor_eq_0_iff in H. destruct H as [Ha Hb].
  apply Z.shiftl_eq_0_iff in Ha; [|exact Hn]. tauto.
Qed.

Lemma mod_nonzero_between (b m q : Z) :
  0 < m -> m * q < b < m * (q + 1) -> b mod m <> 0.
Proof.
  intros Hm Hb H0. pose proof (Z.div_mod b m ltac:(lia)) as Hd.
  rewrite H0, Z.add_0_r in Hd.
  assert (q < b / m) by (apply (Z.mul_lt_mono_pos_l m); lia).
  assert (b / m < q + 1) by (apply (Z.mul_lt_mono_pos_l m); lia).
  lia.
Qed.

Ltac range_facts :=
  repeat match goal with
  | H : (_ && _) = true |- _ => apply andb_true_iff in H; destruct H
  | H : (_ <=? _) = true |- _ => apply Z.leb_le in H
  | H : (_ <? _) = false |- _ => apply Z.ltb_ge in H
  | H : (_ =? _) = true |- _ => apply Z.eqb_eq in H
  | H : (_ =? _) = false |- _ => apply Z.eqb_neq in H
  end.

(** A text decoded from bytes none of which is null has no more
    characters than there were bytes, and none of them is the null
    character. *)
Lemma utf8_decode_Z_text (n : nat) :
  forall (l : list Z) (s : str),
    (length l <= n)%nat -> Forall (fun b => 0 < b) l ->
    utf8_decode_Z l = OK s ->
    (length s <= length l)%nat /\ Forall (fun c => c <> 0) s.
Proof.
  induction n as [|n IH]; intros l s Hlen Hpos H.
  - destruct l; [|simpl in Hlen; lia]. injection H as <-. split; [simpl; lia|constructor].
  - destruct l as [|b0 r0]; [injection H as <-; split; [simpl; lia|constructor]|].
    cbn [utf8_decode_Z] in H. simpl in Hlen.
    apply Forall_cons in Hpos. destruct Hpos as [Hb0 Hpos].
    unfold in_range, is_cont in H.
    destruct (b0 <? 0x80) eqn:E1.
    { destruct (utf8_decode_Z r0) as [s'|] eqn:E; [|discriminate].
      cbn [rbind] in H. injection H as <-.
      destruct (IH r0 s' ltac:(lia) Hpos E) as [Hl Hs].
      split; [simpl; lia|]. constructor; [lia|exact Hs]. }
    destruct ((0xC2 <=? b0) && (b0 <=? 0xDF)) eqn:E2.
    { destruct r0 as [|b1 r1]; [discriminate|].
      destruct ((0x80 <=? b1) && (b1 <=? 0xBF)); [|discriminate].
      destruct (utf8_decode_Z r1) as [s'|] eqn:E; [|discriminate].
      cbn [rbind] in H. injection H as <-. simpl in Hlen.
      apply Forall_cons in Hpos. destruct Hpos as [_ Hpos].
      destruct (IH r1 s' ltac:(lia) Hpos E) as [Hl Hs].
      split; [simpl; lia|]. constructor; [|exact Hs].
      apply lor_shiftl_nonzero; [lia|]. left.
      change 0x1F with (2 ^ 5 - 1). rewrite land_low_bits by lia.
      range_facts. apply (mod_nonzero_between _ _ 6); lia. }
    destruct ((0xE0 <=? b0) && (b0 <=? 0xEF)) eqn:E3.
    { destruct r0 as [|b1 [|b2 r2]]; try discriminate.
      destruct (_ && _) eqn:E4 in H; [|discriminate].
      destruct (utf8_decode_Z r2) as [s'|] eqn:E; [|discriminate].
      cbn [rbind] in H. injection H as <-. simpl in Hlen.
      apply Forall_cons in Hpos. destruct Hpos as [_ Hpos].
      apply Forall_cons in Hpos. destruct Hpos as [_ Hpos].
      destruct (IH r2 s' ltac:(lia) Hpos E) as [Hl Hs].
      split; [simpl; lia|]. constructor; [|exact Hs].
      apply lor_shiftl_nonzero; [lia|].
      destruct (b0 =? 0xE0) eqn:E0.
      - right. apply lor_shiftl_nonzero; [lia|]. left.
        change 0x3F with (2 ^ 6 - 1). rewrite land_low_bits by lia.
        destruct (b0 =? 0xED) eqn:E0'; range_facts;
          apply (mod_nonzero_between _ _ 2); lia.
      - left. change 0x0F with (2 ^ 4 - 1). rewrite land_low_bits by lia.
        clear E4. range_facts. apply (mod_nonzero_between _ _ 14); lia. }
    destruct ((0xF0 <=? b0) && (b0 <=? 0xF4)) eqn:E5; [|discriminate].
    destruct r0 as [|b1 [|b2 [|b3 r3]]]; try discriminate.
    destruct (_ && _) eqn:E4 in H; [|discriminate].
    destruct (utf8_decode_Z r3) as [s'|] eqn:E; [|discriminate].
    cbn [rbind] in H. injection H as <-. simpl in Hlen.
    apply Forall_cons in Hpos. destruct Hpos as [_ Hpos].
    apply Forall_cons in Hpos. destruct Hpos as [_ Hpos].
    apply Forall_cons in Hpos. destruct Hpos as [_ Hpos].
    destruct (IH r3 s' ltac:(lia) Hpos E) as [Hl Hs].
    split; [simpl; lia|]. constructor; [|exact Hs].
    apply lor_shiftl_nonzero; [lia|].
    destruct (b0 =? 0xF0) eqn:E0.
    + right. apply lor_shiftl_nonzero; [lia|]. left.
      change 0x3F with (2 ^ 6 - 1). rewrite land_low_bits by lia.
      destruct (b0 =? 0xF4) eqn:E0'; range_facts;
        apply (mod_nonzero_between _ _ 2); lia.
    + left. change 0x07 with (2 ^ 3 - 1). rewrite land_low_bits by lia.
      clear E4. range_facts. apply (mod_nonzero_between _ _ 30); lia.
Qed.

Lemma split_x00_0_facts (data : bytes) :
  (length (split_x00_0 data) <= length data)%nat
  /\ Forall (fun b => 0 < b) (map byte_to_Z (split_x00_0 data)).
Proof.
  induction data as [|b data [IHl IHf]]; [split; [simpl; lia|constructor]|].
  cbn [split_x00_0]. destruct (Byte.eqb b Byte.x00) eqn:E.
  - split; [simpl; lia|constructor].
  - split; [simpl; lia|]. cbn [map]. constructor; [|exact IHf].
    apply byte_eqb_neq in E. pose proof (byte_to_Z_range b).
    assert (byte_to_Z b <> 0).
    { intros H0. apply E. apply byte_to_Z_inj. rewrite H0. reflexivity. }
    lia.
Qed.

Lemma c_null_term_str_to_str_text (data : bytes) (s : str) :
  c_null_term_str_to_str data = OK s ->
  (length s <= length data)%nat /\ Forall (fun c => c <> 0) s.
Proof.
  unfold c_null_term_str_to_str, decode_utf8.
  destruct (all_0xFF data).
  - intros [= <-]. split; [simpl; lia|constructor].
  - intros H. destruct (split_x00_0_facts data) as [Hl Hf].
    destruct (utf8_decode_Z_text _ _ _ (Nat.le_refl _) Hf H) as [Hl' Hs].
    rewrite length_map in Hl'. split; [lia|exact Hs].
Qed.

(** X19: the name of a decoded header has at most 255 characters and its
    alias at most 160, and neither holds the null character. *)
Theorem get_ObjHdr_strings (e : byte_order) (data : bytes) (oh : ObjHdr) :
  yaffs_obj_hdr.get_ObjHdr e data = OK oh ->
  (length (name oh) <= 255)%nat
  /\ (length (alias oh) <= 160)%nat
  /\ Forall (fun c => c <> 0) (name oh)
  /\ Forall (fun c => c <> 0) (alias oh).
Proof.
  intros H. destruct (get_ObjHdr_fields _ _ _ H)
    as (t & _ & _ & _ & Hn & _ & _ & _ & _ & _ & _ & _ & Ha).
  apply c_null_term_str_to_str_text in Hn. apply c_null_term_str_to_str_text in Ha.
  rewrite length_take in Hn, Ha. repeat split; try tauto; lia.
Qed.

Lemma get_ObjHdr_strings_witness :
  exists oh,
    yaffs_obj_hdr.get_ObjHdr LITTLE_ENDIAN
      (header_page LITTLE_ENDIAN 2 1 (c_string [108]) 7 8 0 0 (c_string [100; 47; 102]))
    = OK oh
    /\ (length (alias oh) <= 160)%nat.
Proof.
  destruct (yaffs_obj_hdr.get_ObjHdr LITTLE_ENDIAN
              (header_page LITTLE_ENDIAN 2 1 (c_string [108]) 7 8 0 0
                 (c_string [100; 47; 102]))) as [oh|] eqn:H;
    [|vm_compute in H; discriminate].
  exists oh. split; [reflexivity|]. apply (get_ObjHdr_strings _ _ _ H).
Defined.

(** ** Streams no longer than the header structure *)

Section ShortStream.

Import YAFFS_unpacker.

(** The [else] part of [_detect_param] is the version-2 branch. *)
Lemma detect_param_else_branch :
  _detect_param
  = (do _ := fin_seek_set 0 in
     do magic := fin_read yaffs_magic_header.size in
     do order := get_module_byte_order in
     do ymh := lift (yaffs_magic_header.unpack order magic) in
     do e := lift (detect_endianness ymh) in
     do _ := set_self_endianness e in
     do _ := set_endianness e in
     do _ := fin_seek_set 0 in
     do order := get_module_byte_order in
     do data := fin_read yaffs_obj_hdr.size in
     do obj_hdr := lift (yaffs_obj_hdr.get_ObjHdr order data) in
     if str_eqb (name obj_hdr) [] && str_eqb (alias obj_hdr) [] then
       do _ := set_yaffs_version 1 in
       do _ := set_page_size 512 in
       do s := get_self in
       set_spare_size (page_size s / 32)
     else _detect_param_version_2).
Proof.
  unfold _detect_param, _detect_param_version_2. reflexivity.
Qed.

(** The version-2 branch, on the content of the stream. *)
Lemma detect_param_version_2_run (w : world) :
  exists f,
    io_data f = io_data (fin w)
    /\ _detect_param_version_2 w
       = match find (test_of (io_data (fin w))) allowed_page_size with
         | Some c =>
           (Returns tt,
            mkWorld (mk (objdict (self w)) 2 (endianness (self w)) c (c / 32))
              (module_byte_order w) f (fs w))
         | None =>
           (Raises WrongPageSize,
            mkWorld (mk (objdict (self w)) 2 (endianness (self w)) (-1)
                       (spare_size (self w)))
              (module_byte_order w) f (fs w))
         end.
Proof.
  unfold _detect_param_version_2.
  unfold bind at 1. unfold set_yaffs_version at 1, update_self.
  cbn [fin io_pos io_data self module_byte_order fs yaffs_version objdict
       endianness page_size spare_size].
  unfold bind at 1. unfold set_page_size at 1, update_self.
  cbn [fin io_pos io_data self module_byte_order fs yaffs_version objdict
       endianness page_size spare_size].
  match goal with
  | |- context [bind (_detect_param_probe allowed_page_size) _ ?w0] =>
    destruct (probe_run allowed_page_size w0) as (f & Hf & Hrun)
  end.
  { unfold allowed_page_size. repeat constructor; lia. }
  cbn [fin io_pos io_data self module_byte_order fs yaffs_version objdict
       endianness page_size spare_size] in Hf, Hrun.
  unfold bind at 1. rewrite Hrun.
  assert (Hsizes : Forall (fun c => c <> -1) allowed_page_size).
  { unfold allowed_page_size. repeat constructor; lia. }
  destruct (find _ allowed_page_size) as [c|] eqn:Efind.
  - assert (c <> -1) as Hc.
    { apply find_some in Efind. destruct Efind as [Hin _].
      rewrite Forall_forall in Hsizes. apply Hsizes, list_elem_of_In, Hin. }
    unfold bind at 1. unfold get_self at 1.
    cbn [fin io_pos io_data self module_byte_order fs yaffs_version objdict
         endianness page_size spare_size].
    apply Z.eqb_neq in Hc. rewrite Hc.
    eexists. split; [|reflexivity]. exact Hf.
  - unfold bind at 1. unfold get_self at 1.
    cbn [fin io_pos io_data self module_byte_order fs yaffs_version objdict
         endianness page_size spare_size].
    change (-1 =? -1) with true. cbn iota. unfold raise.
    eexists. split; [|reflexivity]. exact Hf.
Qed.

End ShortStream.

(** C10: on every stream that holds no byte beyond the header structure
    (fewer than 513 bytes, down to none at all), the test of
    [_test_page_size] succeeds for every page size asked, and the
    version-2 branch of [_detect_param] settles on the first candidate,
    16384, with spare size 512, whatever the length of the stream.  So
    does every run of [_detect_param] that returns from that branch.
    Inside [_detect_param] the branch is reached on such a stream only
    when it has all the 512 bytes of the first header: on a shorter one
    the header does not decode, detection raises, and the page size of the
    instance is the one it had. *)
Theorem detect_param_short_stream (w : YAFFS_unpacker.world) :
  Z.of_nat (length (io_data (YAFFS_unpacker.fin w))) < yaffs_obj_hdr.size + 1 ->
  (forall page_size, fst (YAFFS_unpacker._test_page_size page_size w) = Returns true)
  /\ (exists w',
        _detect_param_version_2 w = (Returns tt, w')
        /\ YAFFS_unpacker.yaffs_version (YAFFS_unpacker.self w') = 2
        /\ YAFFS_unpacker.page_size (YAFFS_unpacker.self w') = 16384
        /\ YAFFS_unpacker.spare_size (YAFFS_unpacker.self w') = 512)
  /\ (forall oh,
        YAFFS_unpacker.module_byte_order w = LITTLE_ENDIAN ->
        first_header (io_data (YAFFS_unpacker.fin w)) = OK oh ->
        name oh <> [] \/ alias oh <> [] ->
        exists w',
          YAFFS_unpacker._detect_param w = (Returns tt, w')
          /\ YAFFS_unpacker.yaffs_version (YAFFS_unpacker.self w') = 2
          /\ YAFFS_unpacker.page_size (YAFFS_unpacker.self w') = 16384
          /\ YAFFS_unpacker.spare_size (YAFFS_unpacker.self w') = 512)
  /\ (forall w',
        YAFFS_unpacker._detect_param w = (Returns tt, w') ->
        YAFFS_unpacker.yaffs_version (YAFFS_unpacker.self w') = 2 ->
        YAFFS_unpacker.page_size (YAFFS_unpacker.self w') = 16384
        /\ YAFFS_unpacker.spare_size (YAFFS_unpacker.self w') = 512)
  /\ ((length (io_data (YAFFS_unpacker.fin w)) < 512)%nat ->
      exists x w',
        YAFFS_unpacker._detect_param w = (Raises x, w')
        /\ YAFFS_unpacker.page_size (YAFFS_unpacker.self w')
           = YAFFS_unpacker.page_size (YAFFS_unpacker.self w)
        /\ YAFFS_unpacker.spare_size (YAFFS_unpacker.self w')
           = YAFFS_unpacker.spare_size (YAFFS_unpacker.self w)
        /\ YAFFS_unpacker.yaffs_version (YAFFS_unpacker.self w')
           = YAFFS_unpacker.yaffs_version (YAFFS_unpacker.self w)).
Proof.
  intros Hshort.
  pose proof (find_short _ Hshort) as Hfind.
  split; [|split; [|split; [|split]]].
  - intros page_size. apply test_page_size_short. exact Hshort.
  - destruct (detect_param_version_2_run w) as (f & _ & Hrun).
    rewrite Hfind in Hrun.
    eexists. split; [exact Hrun|]. split; [reflexivity|].
    split; reflexivity.
  - intros oh Horder Hfirst Hsome.
    destruct (detect_param_run w oh Horder Hfirst) as (e & f & _ & Hrun).
    assert (str_eqb (name oh) [] && str_eqb (alias oh) [] = false) as Hb.
    { unfold str_eqb. apply andb_false_iff.
      destruct Hsome as [H|H]; [left|right]; apply bool_decide_eq_false; exact H. }
    rewrite Hb, Hfind in Hrun.
    eexists. split; [exact Hrun|]. split; [reflexivity|].
    split; reflexivity.
  - intros w' Hret Hv.
    destruct (detect_param_outcome w) as (f & _ & Hrun).
    rewrite Hrun in Hret. clear Hrun.
    destruct (yaffs_magic_header.unpack _ _) as [ymh|]; [|discriminate].
    destruct (detect_endianness ymh) as [e|]; [|discriminate].
    destruct (yaffs_obj_hdr.get_ObjHdr e _) as [oh|]; [|discriminate].
    destruct (str_eqb (name oh) [] && str_eqb (alias oh) []).
    + injection Hret as <-. discriminate.
    + rewrite Hfind in Hret. injection Hret as <-. split; reflexivity.
  - intros Hlt.
    destruct (detect_param_outcome w) as (f & _ & Hrun).
    rewrite Hrun. clear Hrun.
    destruct (yaffs_magic_header.unpack _ _) as [ymh|x].
    2: { eexists _, _. split; [reflexivity|]. repeat split. }
    destruct (detect_endianness ymh) as [e|x].
    2: { eexists _, _. split; [reflexivity|]. repeat split. }
    destruct (yaffs_obj_hdr.get_ObjHdr e _) as [oh|x] eqn:Hdec.
    2: { eexists _, _. split; [reflexivity|]. repeat split. }
    exfalso. apply get_ObjHdr_length in Hdec.
    rewrite length_take in Hdec. lia.
Qed.

(** A stream of 300 bytes, the start of a header and nothing else, and a
    stream of 512 bytes, one whole header of a directory named [d]. *)
Lemma detect_param_short_stream_witness :
  (length (take 300 image_one_header) = 300%nat
   /\ exists w',
       _detect_param_version_2
         (YAFFS_unpacker.mkWorld YAFFS_unpacker.__init__ LITTLE_ENDIAN
            (mkIO (take 300 image_one_header) 0) fs_out)
       = (Returns tt, w')
       /\ YAFFS_unpacker.yaffs_version (YAFFS_unpacker.self w') = 2
       /\ YAFFS_unpacker.page_size (YAFFS_unpacker.self w') = 16384
       /\ YAFFS_unpacker.spare_size (YAFFS_unpacker.self w') = 512)
  /\ (length image_one_header = 512%nat
      /\ exists w',
          YAFFS_unpacker._detect_param
            (YAFFS_unpacker.mkWorld YAFFS_unpacker.__init__ LITTLE_ENDIAN
               (mkIO image_one_header 0) fs_out)
          = (Returns tt, w')
          /\ YAFFS_unpacker.yaffs_version (YAFFS_unpacker.self w') = 2
          /\ YAFFS_unpacker.page_size (YAFFS_unpacker.self w') = 16384
          /\ YAFFS_unpacker.spare_size (YAFFS_unpacker.self w') = 512).
Proof.
  split; (split; [vm_compute; reflexivity|]).
  - apply (proj1 (proj2 (detect_param_short_stream
                           (YAFFS_unpacker.mkWorld YAFFS_unpacker.__init__ LITTLE_ENDIAN
                              (mkIO (take 300 image_one_header) 0) fs_out)
                           ltac:(vm_compute; reflexivity)))).
  - destruct (first_header image_one_header) as [oh|] eqn:Hfirst;
      [|vm_compute in Hfirst; discriminate].
    apply (proj1 (proj2 (proj2 (detect_param_short_stream
                    (YAFFS_unpacker.mkWorld YAFFS_unpacker.__init__ LITTLE_ENDIAN
                       (mkIO image_one_header 0) fs_out)
                    ltac:(vm_compute; reflexivity)))) oh eq_refl Hfirst).
    left. vm_compute in Hfirst. injection Hfirst as <-. discriminate.
Defined.
